(** * one-node-committee: QoS validator, PBFT engine and committee node

    A shallow embedding of the TypeScript sources

      - validators/QoSValidator.ts   (module [Validator])
      - core/PBFTEngine.ts           (module [PBFT])
      - core/CommitteeNode.ts        (module [Node])
      - utils/crypto.ts              (module [Crypto])
      - network/ApiServer.ts         (module [Api], the gate of the requests)
      - service/MetricsCollector.ts  (module [Metrics])

    followed by the properties of the specification that were settled on it
    and by further properties of the code.

    Modelling conventions.

    - A JavaScript [number] that reaches the program from JSON is finite; it
      is modelled as an exact rational ([Qc], canonical form, so that [===]
      is Leibniz equality).  Rounding of IEEE doubles is not modelled.  Where
      the program computes with a missing operand the result is [NaN]; a
      computed number is therefore an [option Qc] with [None] for [NaN].
    - Integer fields (view and sequence numbers, milliseconds, widths) are [Z].
    - Strings are byte strings; the Chinese reason texts are kept verbatim
      (UTF-8), and substring search on bytes agrees with the search on UTF-16
      code units for well-formed text.
    - A JS [Map] whose iteration order is observed is an association list in
      insertion order; the other maps are [gmap]s, [Set<string>] is a [gset].
    - Objects that the program shares by reference (a task's status record,
      a task's proof array) live in the node's maps; the places where a local
      variable aliases such an object are pointed out where they matter.
    - Logging is not modelled, and the node is modelled without the events
      it reports: the metrics collector is a module of its own, with the
      clock and the fresh ids as arguments.  Broadcasts and direct sends are
      appended to an outbox, scheduled timers to a list. *)

From Stdlib Require Import ZArith QArith Qcanon List String Ascii Bool Lia Sorted.
From stdpp Require Import base option list gmap strings pretty numbers.

Local Open Scope string_scope.
Local Open Scope Z_scope.

(* ===================================================================== *)
(** ** JavaScript helpers                                                  *)
(* ===================================================================== *)

Module JS.

(** [s.includes(sub)] *)
Definition includes (s sub : string) : bool :=
  match String.index 0 sub s with Some _ => true | None => false end.

(** [s.startsWith(p)] *)
Definition startsWith (s p : string) : bool := String.prefix p s.

(** truthiness of a string: the empty string (and a missing one) is falsy *)
Definition truthy (s : string) : bool := negb (String.eqb s "").

Fixpoint drop (n : nat) (s : string) : string :=
  match n, s with
  | O, _ => s
  | S n', String _ s' => drop n' s'
  | S _, EmptyString => EmptyString
  end.

(** the longest prefix without a closing parenthesis, and what follows *)
Fixpoint spanNotClose (s : string) : string * string :=
  match s with
  | EmptyString => (EmptyString, EmptyString)
  | String c s' =>
      if Ascii.eqb c ")"%char then (EmptyString, s)
      else let '(run, rest) := spanNotClose s' in (String c run, rest)
  end.

(** a computed number: [None] is [NaN] *)
Definition num := option Qc.

Definition Qc_abs (q : Qc) : Qc := if bool_decide (q < 0)%Qc then (- q)%Qc else q.

Definition add (a b : num) : num :=
  match a, b with Some x, Some y => Some (x + y)%Qc | _, _ => None end.
Definition sub (a b : num) : num :=
  match a, b with Some x, Some y => Some (x - y)%Qc | _, _ => None end.
Definition mul (a b : num) : num :=
  match a, b with Some x, Some y => Some (x * y)%Qc | _, _ => None end.
Definition abs (a : num) : num := Qc_abs <$> a.
(** [a > b]; false as soon as one side is [NaN] *)
Definition gt (a b : num) : bool :=
  match a, b with Some x, Some y => bool_decide (y < x)%Qc | _, _ => false end.

Definition ofNat (n : nat) : Qc := Q2Qc (inject_Z (Z.of_nat n)).

(** [total / n] for an array length [n]; the only way to divide by zero is
    [0 / 0], which is [NaN] *)
Definition divLen (total : num) (n : nat) : num :=
  match n with
  | O => None
  | S _ => (fun t => (t / ofNat n)%Qc) <$> total
  end.

(** [xs.reduce((sum, x) => sum + x, 0)] *)
Definition sum (xs : list num) : num := fold_left add xs (Some 0%Qc).

(** stable insertion sort, the order [Array.prototype.sort] produces for a
    consistent comparator; [le a b] says the comparator does not put [b]
    before [a] *)
Section Sort.
Context {A : Type} (le : A -> A -> bool).
Fixpoint insert (x : A) (l : list A) : list A :=
  match l with
  | [] => [x]
  | y :: l' => if le x y then x :: l else y :: insert x l'
  end.
Definition sort (l : list A) : list A := fold_right insert [] l.
End Sort.

End JS.

(* ===================================================================== *)
(** ** Data model (models/types.ts)                                        *)
(* ===================================================================== *)

Inductive MessageType :=
  PrePrepare | Prepare | Commit | StatusUpdate | SupplementaryReady | SupplementaryAck.

Inductive ConsensusType := Normal | Conflict.

Inductive ConsensusState := Idle | PrePrepared | Prepared | Committed.

Inductive TaskProcessingState :=
  | Pending | Validating | Verified | Consensus | Rejected | ConflictState
  | Expired | Finalized | AwaitingSupplementary | NeedsManualReview
  | Validated | Failed.

Inductive ConflictType := structural | score | none.
Inductive ResolvedBy := majority | statistical | manual.

#[global] Instance MessageType_eq_dec : EqDecision MessageType.
Proof. solve_decision. Defined.
#[global] Instance ConsensusType_eq_dec : EqDecision ConsensusType.
Proof. solve_decision. Defined.
#[global] Instance ConsensusState_eq_dec : EqDecision ConsensusState.
Proof. solve_decision. Defined.
#[global] Instance TaskProcessingState_eq_dec : EqDecision TaskProcessingState.
Proof. solve_decision. Defined.
#[global] Instance ConflictType_eq_dec : EqDecision ConflictType.
Proof. solve_decision. Defined.
#[global] Instance ResolvedBy_eq_dec : EqDecision ResolvedBy.
Proof. solve_decision. Defined.

(** the numeric value of the [ConsensusState] enum, used by [<] and [>] *)
Definition rank (s : ConsensusState) : Z :=
  match s with Idle => 0 | PrePrepared => 1 | Prepared => 2 | Committed => 3 end.

(** a primitive JavaScript value, as it is tallied and compared *)
Inductive Value :=
  | VUndef | VNull | VBool (b : bool) | VNum (q : Qc) | VStr (s : string).

#[global] Instance Value_eq_dec : EqDecision Value.
Proof. solve_decision. Defined.

(** a property value of a [details] object: a primitive or an array of them *)
Inductive JVal := JV (v : Value) | JArr (l : list Value).

(** [details?: any]: an object, as its properties in insertion order *)
Definition Details := list (string * JVal).

Fixpoint getProp (d : Details) (k : string) : option JVal :=
  match d with
  | [] => None
  | (k', v) :: d' => if String.eqb k' k then Some v else getProp d' k
  end.

(** assignment to a property: an existing one keeps its place *)
Fixpoint setProp (d : Details) (k : string) (v : JVal) : Details :=
  match d with
  | [] => [(k, v)]
  | (k', v') :: d' =>
      if String.eqb k' k then (k, v) :: d' else (k', v') :: setProp d' k v
  end.

(** [details?.reason || ''] *)
Definition reasonOf (d : option Details) : string :=
  match d with
  | Some d' => match getProp d' "reason" with
               | Some (JV (VStr r)) => r
               | _ => ""
               end
  | None => ""
  end.

Module Spec.
(** [mediaSpecs: any], with the shape every producer in the repository
    gives it; [bitrate] may be missing *)
Record MediaSpecs := {
  codec : string;
  width : Z;
  height : Z;
  bitrate : option Qc;
  hasAudio : bool;
}.
End Spec.

Record VideoQualityData := {
  overallScore : Qc;
  (** [{ [timestamp: string]: string }], in [Object.keys] order *)
  gopScores : list (string * string);
}.

Record AudioQualityData := {
  audioOverallScore : Qc;
}.

Record ValidationResult := {
  isValid : bool;
  hasConflict : bool;                       (* absent is falsy *)
  conflictingVerifiers : list string;
  conflictType : option ConflictType;
  needsManualReview : bool;                 (* absent is falsy *)
  resolvedBy : option ResolvedBy;
  details : option Details;
}.

Module Proof.
(** [QoSProof]; the fields the interface declares mandatory are present *)
Record QoSProof := {
  id : option string;
  taskId : string;
  verifierId : string;
  timestamp : Z;
  mediaSpecs : Spec.MediaSpecs;
  videoQualityData : VideoQualityData;
  audioQualityData : option AudioQualityData;
  signature : string;
  (** only on the payload of the final round: [supplementaryInfo] *)
  supplementaryInfo : option ValidationResult;
}.

Definition withId (p : QoSProof) (i : string) : QoSProof :=
  {| id := Some i; taskId := taskId p; verifierId := verifierId p;
     timestamp := timestamp p; mediaSpecs := mediaSpecs p;
     videoQualityData := videoQualityData p;
     audioQualityData := audioQualityData p; signature := signature p;
     supplementaryInfo := supplementaryInfo p |}.

Definition withSupplementaryInfo (p : QoSProof) (r : ValidationResult) : QoSProof :=
  {| id := id p; taskId := taskId p; verifierId := verifierId p;
     timestamp := timestamp p; mediaSpecs := mediaSpecs p;
     videoQualityData := videoQualityData p;
     audioQualityData := audioQualityData p; signature := signature p;
     supplementaryInfo := Some r |}.
End Proof.
Abbreviation QoSProof := Proof.QoSProof.

(** what [sign] is applied to: the fields of a PBFT message, or those of a
    supplementary envelope *)
Inductive SignedData :=
  | SignPBFT (type : MessageType) (consensusType : option ConsensusType)
             (viewNumber sequenceNumber : Z) (digest : string)
  | SignSupplementary (type : MessageType) (taskId supplementaryProofId : string)
                      (timestamp : Z).

(** Primitives the program calls and the repository does not define
    ([parseFloat], [Date.now] is passed explicitly), and the two functions of
    utils/crypto.ts, whose SHA-256 is left abstract. *)
Class Primitives := {
  parseFloat : string -> JS.num;
  calculateHash : QoSProof -> string;
  sign : SignedData -> string -> string;
}.

(* ===================================================================== *)
(** ** validators/QoSValidator.ts                                          *)
(* ===================================================================== *)

Module Validator.
Section Defs.
Context `{Primitives}.

Definition SCORE_THRESHOLD : Qc := Q2Qc 3.
Definition ONE_WEEK : Z := 7 * 24 * 60 * 60 * 1000.

Definition valid : ValidationResult :=
  {| isValid := true; hasConflict := false; conflictingVerifiers := [];
     conflictType := None; needsManualReview := false; resolvedBy := None;
     details := None |}.

(** [{ isValid: false, details }] *)
Definition invalid (d : Details) : ValidationResult :=
  {| isValid := false; hasConflict := false; conflictingVerifiers := [];
     conflictType := None; needsManualReview := false; resolvedBy := None;
     details := Some d |}.

(** [{ isValid: false, hasConflict: true, conflictingVerifiers, details }] *)
Definition conflict (vs : list string) (d : Details) : ValidationResult :=
  {| isValid := false; hasConflict := true; conflictingVerifiers := vs;
     conflictType := None; needsManualReview := false; resolvedBy := None;
     details := Some d |}.

Definition str (s : string) : JVal := JV (VStr s).
Definition strs (l : list string) : JVal := JArr (VStr <$> l).
Definition numV (n : JS.num) : Value :=
  match n with Some q => VNum q | None => VUndef end.

Definition verifiers (proofs : list QoSProof) : list string :=
  Proof.verifierId <$> proofs.

(** *** quick validation *)

(** Of the six presence tests only those on the three strings can fail on
    a value of the declared interface: [timestamp], [mediaSpecs] and
    [videoQualityData] are there, and [overallScore] is a number. *)
Definition validateStructure (proof : QoSProof) : ValidationResult :=
  let missingFields :=
    ((if JS.truthy (Proof.taskId proof) then [] else ["taskId"]) ++
     (if JS.truthy (Proof.verifierId proof) then [] else ["verifierId"]) ++
     (if JS.truthy (Proof.signature proof) then [] else ["signature"]))%list in
  if bool_decide (0 < length missingFields)%nat then
    invalid [("reason", str "证明数据结构不完整");
             ("missingFields", strs missingFields)]
  else valid.

Definition validateValueRanges (proof : QoSProof) : ValidationResult :=
  let score := overallScore (Proof.videoQualityData proof) in
  if bool_decide (score < 0)%Qc || bool_decide (Q2Qc 100 < score)%Qc then
    invalid [("reason", str "视频质量评分超出合理范围");
             ("score", JV (VNum score));
             ("expectedRange", str "0-100")]
  else
    (* [bitrate && bitrate <= 0]: a missing bitrate and 0 are falsy *)
    match Spec.bitrate (Proof.mediaSpecs proof) with
    | Some br =>
        if negb (bool_decide (br = 0%Qc)) && bool_decide (br <= 0)%Qc then
          invalid [("reason", str "媒体码率不合理"); ("bitrate", JV (VNum br))]
        else valid
    | None => valid
    end.

Definition validateTimeLogic (now : Z) (proof : QoSProof) : ValidationResult :=
  let ts := Proof.timestamp proof in
  if bool_decide (now < ts) then
    invalid [("reason", str "时间戳验证失败");
             ("error", str "证明时间戳晚于当前时间");
             ("timestamp", JV (VNum (Q2Qc (inject_Z ts))));
             ("currentTime", JV (VNum (Q2Qc (inject_Z now))))]
  else if bool_decide (ONE_WEEK < now - ts) then
    invalid [("reason", str "时间戳验证失败");
             ("error", str "证明时间戳过期");
             ("timestamp", JV (VNum (Q2Qc (inject_Z ts))));
             ("currentTime", JV (VNum (Q2Qc (inject_Z now))));
             ("maxAge", JV (VNum (Q2Qc (inject_Z ONE_WEEK))))]
  else valid.

Definition validateSignature (proof : QoSProof) : ValidationResult :=
  if negb (JS.truthy (Proof.signature proof))
     || bool_decide (String.length (Proof.signature proof) = 0%nat)
  then invalid [("reason", str "签名无效")]
  else valid.

Definition quickValidate (now : Z) (qosProof : QoSProof) : ValidationResult :=
  let structureValidation := validateStructure qosProof in
  if negb (isValid structureValidation) then structureValidation else
  let rangeValidation := validateValueRanges qosProof in
  if negb (isValid rangeValidation) then rangeValidation else
  let timeValidation := validateTimeLogic now qosProof in
  if negb (isValid timeValidation) then timeValidation else
  let signatureValidation := validateSignature qosProof in
  if negb (isValid signatureValidation) then signatureValidation else
  if bool_decide (length (gopScores (Proof.videoQualityData qosProof)) = 0%nat) then
    invalid [("reason", str "视频质量数据缺少有效的GOP评分数据")]
  else valid.

(** *** deep validation *)

(** [`${spec.width}x${spec.height}`] *)
Definition resolution (spec : Spec.MediaSpecs) : string :=
  pretty (Spec.width spec) +:+ "x" +:+ pretty (Spec.height spec).

Definition validateMediaSpecsConsistency (proofs : list QoSProof) : ValidationResult :=
  let mediaSpecs := Proof.mediaSpecs <$> proofs in
  let codecSet := remove_dups (Spec.codec <$> mediaSpecs) in
  if bool_decide (1 < length codecSet)%nat then
    conflict (verifiers proofs)
      [("reason", str "编码格式不一致"); ("codecs", strs codecSet)]
  else
  let resolutionSet := remove_dups (resolution <$> mediaSpecs) in
  if bool_decide (1 < length resolutionSet)%nat then
    conflict (verifiers proofs)
      [("reason", str "分辨率不一致"); ("resolutions", strs resolutionSet)]
  else
  let bitrates : list JS.num := Spec.bitrate <$> mediaSpecs in
  let avgBitrate := JS.divLen (JS.sum bitrates) (length bitrates) in
  let maxDeviation := JS.mul avgBitrate (Some (Q2Qc (5 # 100))) in
  let hasBitrateConflict :=
    existsb (fun br => JS.gt (JS.abs (JS.sub br avgBitrate)) maxDeviation) bitrates in
  if hasBitrateConflict then
    conflict (verifiers proofs)
      [("reason", str "码率差异过大");
       ("bitrates", JArr (numV <$> bitrates));
       ("averageBitrate", JV (numV avgBitrate));
       ("maxDeviation", JV (numV maxDeviation))]
  else
  let hasAudioSet := remove_dups (Spec.hasAudio <$> mediaSpecs) in
  if bool_decide (1 < length hasAudioSet)%nat then
    conflict (verifiers proofs)
      [("reason", str "音频存在性不一致"); ("hasAudio", JArr (VBool <$> hasAudioSet))]
  else valid.

Definition gopKeys (p : QoSProof) : list string :=
  fst <$> gopScores (Proof.videoQualityData p).

(** [gopScores[timestamp]] *)
Fixpoint gopLookup (l : list (string * string)) (timestamp : string) : option string :=
  match l with
  | [] => None
  | (k, v) :: l' => if String.eqb k timestamp then Some v else gopLookup l' timestamp
  end.

Definition gopValue (p : QoSProof) (timestamp : string) : Value :=
  match gopLookup (gopScores (Proof.videoQualityData p)) timestamp with
  | Some s => VStr s
  | None => VUndef
  end.

(** the timestamps of the first proof that every proof has *)
Definition findCommonGopTimestamps (proofs : list QoSProof) : list string :=
  match proofs with
  | [] => []
  | first :: _ =>
      filter (fun timestamp =>
                forallb (fun p => bool_decide (timestamp ∈ gopKeys p)) proofs = true)
             (gopKeys first)
  end.

(** [score ? parseFloat(score) : NaN] *)
Definition getGopScore (proof : QoSProof) (timestamp : string) : JS.num :=
  match gopLookup (gopScores (Proof.videoQualityData proof)) timestamp with
  | Some s => if JS.truthy s then parseFloat s else None
  | None => None
  end.

(** the first index whose score is further than the threshold from the mean *)
Fixpoint firstOutlier (avg : JS.num) (i : nat) (proofs : list QoSProof)
  : option (nat * QoSProof) :=
  match proofs with
  | [] => None
  | p :: rest =>
      if JS.gt (JS.abs (JS.sub (Some (overallScore (Proof.videoQualityData p))) avg))
               (Some SCORE_THRESHOLD)
      then Some (i, p)
      else firstOutlier avg (S i) rest
  end.

(** the scores of one common GOP that are numbers, when they disagree *)
Definition gopDiscrepancy (proofs : list QoSProof) (gopId : string) : option (list Qc) :=
  let gopScores := (fun p => getGopScore p gopId) <$> proofs in
  let validScores := omap id gopScores in
  if bool_decide (2 <= length validScores)%nat then
    match validScores with
    | firstScore :: _ =>
        if existsb (fun s => negb (bool_decide (s = firstScore))) validScores
        then Some validScores else None
    | [] => None
    end
  else None.

Fixpoint firstGopConflict (proofs : list QoSProof) (gopIds : list string)
  : option (string * list Qc) :=
  match gopIds with
  | [] => None
  | gopId :: rest =>
      match gopDiscrepancy proofs gopId with
      | Some validScores => Some (gopId, validScores)
      | None => firstGopConflict proofs rest
      end
  end.

Definition validateVideoQualityConsistency (proofs : list QoSProof) : ValidationResult :=
  let scores := (fun p => overallScore (Proof.videoQualityData p)) <$> proofs in
  let avgScore := JS.divLen (JS.sum (Some <$> scores)) (length scores) in
  match firstOutlier avgScore 0 proofs with
  | Some (i, p) =>
      conflict [Proof.verifierId p]
        [("reason", str "视频质量评分存在显著差异");
         ("scores", JArr (VNum <$> scores));
         ("averageScore", JV (numV avgScore));
         ("threshold", JV (VNum SCORE_THRESHOLD));
         ("outlierIndex", JV (VNum (JS.ofNat i)));
         ("outlierVerifier", str (Proof.verifierId p))]
  | None =>
      let hasSpecifiedGOPs :=
        existsb (fun p => bool_decide (0 < length (gopKeys p))%nat) proofs in
      if hasSpecifiedGOPs then
        match firstGopConflict proofs (findCommonGopTimestamps proofs) with
        | Some (gopId, validScores) =>
            conflict (verifiers proofs)
              [("reason", str ("特定GOP(" +:+ gopId +:+ ")评分不一致"));
               ("gopScores", JArr (VNum <$> validScores))]
        | None => valid
        end
      else valid
  end.

Definition audioScore (p : QoSProof) : Value :=
  match Proof.audioQualityData p with
  | Some a => VNum (audioOverallScore a)
  | None => VUndef
  end.

(** called on at least two proofs; on none there is no [proofs[0]] *)
Definition validateAudioConsistency (proofs : list QoSProof) : ValidationResult :=
  match proofs with
  | [] => valid
  | first :: _ =>
      let hasAudio := Spec.hasAudio (Proof.mediaSpecs first) in
      if negb hasAudio then
        let allReportNoAudio :=
          forallb (fun p => negb (Spec.hasAudio (Proof.mediaSpecs p))) proofs in
        if negb allReportNoAudio then
          conflict (verifiers proofs) [("reason", str "音频存在性报告不一致")]
        else valid
      else
      let missingAudioData :=
        filter (fun p => Proof.audioQualityData p = None) proofs in
      if bool_decide (0 < length missingAudioData)%nat then
        conflict (verifiers missingAudioData)
          [("reason", str "部分证明缺少音频质量数据");
           ("missingVerifiers", strs (verifiers missingAudioData))]
      else
      let audioScores := audioScore <$> proofs in
      let firstScore := audioScore first in
      if existsb (fun s => negb (bool_decide (s = firstScore))) audioScores then
        conflict (verifiers proofs)
          [("reason", str "音频质量评分不一致"); ("audioScores", JArr audioScores)]
      else valid
  end.

Definition deepValidate (proofs : list QoSProof) : ValidationResult :=
  if bool_decide (length proofs < 2)%nat then
    invalid [("reason", str "证明数量不足，无法执行深度验证")]
  else
  let specValidation := validateMediaSpecsConsistency proofs in
  if negb (isValid specValidation) then specValidation else
  let videoValidation := validateVideoQualityConsistency proofs in
  if negb (isValid videoValidation) then videoValidation else
  let audioValidation := validateAudioConsistency proofs in
  if negb (isValid audioValidation) then audioValidation else
  {| isValid := true; hasConflict := false; conflictingVerifiers := [];
     conflictType := None; needsManualReview := false; resolvedBy := None;
     details := Some [("message", str "所有深度验证通过");
                      ("verifiersCount", JV (VNum (JS.ofNat (length proofs))))] |}.

(** *** conflict classification *)

Definition analyzeConflictType (result : ValidationResult) : ConflictType :=
  if negb (hasConflict result) then none else
  let reason := reasonOf (details result) in
  if JS.includes reason "编码格式不一致"
     || JS.includes reason "分辨率不一致"
     || JS.includes reason "特定GOP"
     || JS.includes reason "音频存在性不一致"
     || JS.includes reason "音频质量评分不一致"
  then structural
  else if JS.includes reason "视频质量评分存在显著差异"
          || JS.includes reason "码率差异过大"
  then score
  else structural.

(** *** resolution with a supplementary proof *)

(** a match of [/特定GOP\(([^)]+)\)/] that starts at the head of [s] *)
Definition gopAt (s : string) : option string :=
  if JS.startsWith s "特定GOP(" then
    let '(run, rest) := JS.spanNotClose (JS.drop (String.length "特定GOP(") s) in
    if JS.truthy run && JS.startsWith rest ")" then Some run else None
  else None.

(** the capture of the leftmost match *)
Fixpoint extractGopTimestampFromReason (reason : string) : option string :=
  match gopAt reason with
  | Some g => Some g
  | None =>
      match reason with
      | EmptyString => None
      | String _ rest => extractGopTimestampFromReason rest
      end
  end.

Definition getValueByField (proof : QoSProof) (field : string) : Value :=
  if String.eqb field "codec" then VStr (Spec.codec (Proof.mediaSpecs proof))
  else if String.eqb field "resolution" then VStr (resolution (Proof.mediaSpecs proof))
  else if String.eqb field "hasAudio" then VBool (Spec.hasAudio (Proof.mediaSpecs proof))
  else if String.eqb field "audioScore" then audioScore proof
  else if String.eqb field "videoScore" then
    VNum (overallScore (Proof.videoQualityData proof))
  else if String.eqb field "bitrate" then numV (Spec.bitrate (Proof.mediaSpecs proof))
  else if JS.startsWith field "gopScore-" then
    gopValue proof (JS.drop (String.length "gopScore-") field)
  else VNull.

(** [valueCounts.set(value, (valueCounts.get(value) || 0) + 1)] on a [Map]
    kept in insertion order *)
Fixpoint bump (valueCounts : list (Value * nat)) (value : Value) : list (Value * nat) :=
  match valueCounts with
  | [] => [(value, 1%nat)]
  | (k, c) :: rest =>
      if bool_decide (k = value) then (k, S c) :: rest else (k, c) :: bump rest value
  end.

Definition tally (values : list Value) : list (Value * nat) :=
  fold_left bump values [].

(** the loop over [valueCounts] that keeps the first strictly larger count *)
Definition pickMajority (valueCounts : list (Value * nat)) : nat * Value :=
  fold_left
    (fun '(maxCount, majorityValue) '(value, count) =>
       if bool_decide (maxCount < count)%nat then (count, value)
       else (maxCount, majorityValue))
    valueCounts (0%nat, VNull).

(** the result when the conflicting field cannot be told from the reason *)
Definition unidentified (initialResult : ValidationResult) : ValidationResult :=
  {| isValid := false;
     hasConflict := hasConflict initialResult;
     conflictingVerifiers := conflictingVerifiers initialResult;
     conflictType := conflictType initialResult;
     needsManualReview := true;
     resolvedBy := Some manual;
     details :=
       Some (setProp (default [] (details initialResult)) "additionalInfo"
                     (str "无法识别具体冲突字段，需要人工审核")) |}.

(** the branch of [resolveStructuralConflict] that names the field and
    collects its values *)
Definition structuralField (proofs : list QoSProof) (reason : string)
  : string * list Value :=
  if JS.includes reason "编码格式不一致" then
    ("codec", (fun p => VStr (Spec.codec (Proof.mediaSpecs p))) <$> proofs)
  else if JS.includes reason "分辨率不一致" then
    ("resolution", (fun p => VStr (resolution (Proof.mediaSpecs p))) <$> proofs)
  else if JS.includes reason "音频存在性不一致" then
    ("hasAudio", (fun p => VBool (Spec.hasAudio (Proof.mediaSpecs p))) <$> proofs)
  else if JS.includes reason "特定GOP" then
    match extractGopTimestampFromReason reason with
    | Some gopTimestamp =>
        ("gopScore-" +:+ gopTimestamp, (fun p => gopValue p gopTimestamp) <$> proofs)
    | None => ("", [])
    end
  else if JS.includes reason "音频质量评分不一致" then
    ("audioScore", audioScore <$> proofs)
  else ("", []).

Definition resolveStructuralConflict (proofs : list QoSProof)
           (initialResult : ValidationResult) : ValidationResult :=
  let reason := reasonOf (details initialResult) in
  let '(field, values) := structuralField proofs reason in
  if negb (JS.truthy field) || bool_decide (length values = 0%nat) then
    unidentified initialResult
  else
  let valueCounts := tally values in
  let '(maxCount, majorityValue) := pickMajority valueCounts in
  if bool_decide (2 <= maxCount)%nat then
    let reliableVerifiers :=
      verifiers (filter (fun p => getValueByField p field = majorityValue) proofs) in
    let unreliableVerifiers :=
      verifiers (filter (fun p => getValueByField p field ≠ majorityValue) proofs) in
    {| isValid := true; hasConflict := false; conflictingVerifiers := [];
       conflictType := None; needsManualReview := false;
       resolvedBy := Some majority;
       details := Some [("message", str ("通过多数表决解决" +:+ field +:+ "冲突"));
                        ("majorityValue", JV majorityValue);
                        ("reliableVerifiers", strs reliableVerifiers);
                        ("unreliableVerifiers", strs unreliableVerifiers)] |}
  else
    {| isValid := false; hasConflict := false; conflictingVerifiers := [];
       conflictType := None; needsManualReview := true;
       resolvedBy := Some manual;
       details := Some [("reason", str ("无法通过多数表决解决" +:+ field
                                         +:+ "冲突，需要人工审核"));
                        ("values", JArr values)] |}.

Definition scoreField (proofs : list QoSProof) (reason : string)
  : string * list JS.num :=
  if JS.includes reason "视频质量评分存在显著差异" then
    ("videoScore", (fun p => Some (overallScore (Proof.videoQualityData p))) <$> proofs)
  else if JS.includes reason "码率差异过大" then
    ("bitrate", (fun p => Spec.bitrate (Proof.mediaSpecs p)) <$> proofs)
  else ("", []).

(** [[...values].sort((a, b) => a - b)]: the numbers in ascending order,
    then the missing entries, which [sort] always moves to the end *)
Definition sortValues (values : list JS.num) : list JS.num :=
  ((Some <$> JS.sort (fun a b => bool_decide (a <= b)%Qc) (omap id values))
     ++ filter (fun v => v = None) values)%list.

(** [indexPairs.sort((a, b) => a.deviation - b.deviation)]; a [NaN]
    difference counts as no difference *)
Definition sortByDeviation (indexPairs : list (nat * JS.num)) : list (nat * JS.num) :=
  JS.sort (fun a b => negb (JS.gt (snd a) (snd b))) indexPairs.

Definition resolveScoreConflict (proofs : list QoSProof)
           (initialResult : ValidationResult) : ValidationResult :=
  let reason := reasonOf (details initialResult) in
  let '(field, values) := scoreField proofs reason in
  if negb (JS.truthy field) || bool_decide (length values = 0%nat) then
    unidentified initialResult
  else
  let sortedValues := sortValues values in
  let medianValue : JS.num :=
    default None (sortedValues !! (length sortedValues / 2)%nat) in
  let deviations := (fun v => JS.abs (JS.sub v medianValue)) <$> values in
  let indexPairs := imap (fun i dev => (i, dev)) deviations in
  let closestIndices := fst <$> take 2 (sortByDeviation indexPairs) in
  let indexed := imap (fun i p => (i, p)) proofs in
  let reliableVerifiers :=
    (fun ip => Proof.verifierId (snd ip))
      <$> filter (fun ip => fst ip ∈ closestIndices) indexed in
  let unreliableVerifiers :=
    (fun ip => Proof.verifierId (snd ip))
      <$> filter (fun ip => fst ip ∉ closestIndices) indexed in
  {| isValid := true; hasConflict := false; conflictingVerifiers := [];
     conflictType := None; needsManualReview := false;
     resolvedBy := Some statistical;
     details := Some [("message", str ("通过统计方法解决" +:+ field +:+ "冲突"));
                      ("medianValue", JV (numV medianValue));
                      ("reliableVerifiers", strs reliableVerifiers);
                      ("unreliableVerifiers", strs unreliableVerifiers);
                      ("allValues", JArr (numV <$> values))] |}.

(** The merge [[...originalProofs, supplementaryProof]] is commented out in
    the source: only [originalProofs] reaches the two resolvers, and
    [supplementaryProof] is not looked at. *)
Definition resolveWithSupplementaryProof (originalProofs : list QoSProof)
           (supplementaryProof : QoSProof) (initialResult : ValidationResult)
  : ValidationResult :=
  let conflictType :=
    match conflictType initialResult with
    | Some c => c
    | None => analyzeConflictType initialResult
    end in
  if bool_decide (conflictType = structural) then
    resolveStructuralConflict originalProofs initialResult
  else
    resolveScoreConflict originalProofs initialResult.

End Defs.
End Validator.


(* ===================================================================== *)
(** ** core/PBFTEngine.ts                                                  *)
(* ===================================================================== *)

Module Msg.
Record PBFTMessage := {
  type : MessageType;
  consensusType : ConsensusType;
  viewNumber : Z;
  sequenceNumber : Z;
  nodeId : string;
  taskId : string;
  data : option QoSProof;
  digest : option string;
  signature : string;
}.
End Msg.
Abbreviation PBFTMessage := Msg.PBFTMessage.

Module PBFT.

(** the map key [`${viewNumber}:${sequenceNumber}`]; the text is an
    injective rendering of the pair *)
Definition Key : Type := Z * Z.

Record Engine := {
  viewNumber : Z;
  sequenceNumber : Z;
  currentConsensusType : ConsensusType;
  nodeId : string;
  state : ConsensusState;
  isLeader : bool;
  prepareMessages : gmap Key (list PBFTMessage);
  commitMessages : gmap Key (list PBFTMessage);
  pendingPrepareMessages : gmap Key (list PBFTMessage);
  pendingCommitMessages : gmap Key (list PBFTMessage);
  completedSequences : gset Z;
  currentProposal : option QoSProof;
  currentDigest : string;
  consensusThreshold : Z;
  privateKey : string;
}.

Definition set_viewNumber (x : Z) (e : Engine) : Engine :=
  {| viewNumber := x; sequenceNumber := sequenceNumber e;
  currentConsensusType := currentConsensusType e; nodeId := nodeId e; state
  := state e; isLeader := isLeader e; prepareMessages := prepareMessages e;
  commitMessages := commitMessages e; pendingPrepareMessages :=
  pendingPrepareMessages e; pendingCommitMessages := pendingCommitMessages
  e; completedSequences := completedSequences e; currentProposal :=
  currentProposal e; currentDigest := currentDigest e; consensusThreshold :=
  consensusThreshold e; privateKey := privateKey e |}.
Definition set_sequenceNumber (x : Z) (e : Engine) : Engine :=
  {| viewNumber := viewNumber e; sequenceNumber := x; currentConsensusType
  := currentConsensusType e; nodeId := nodeId e; state := state e; isLeader
  := isLeader e; prepareMessages := prepareMessages e; commitMessages :=
  commitMessages e; pendingPrepareMessages := pendingPrepareMessages e;
  pendingCommitMessages := pendingCommitMessages e; completedSequences :=
  completedSequences e; currentProposal := currentProposal e; currentDigest
  := currentDigest e; consensusThreshold := consensusThreshold e; privateKey
  := privateKey e |}.
Definition set_currentConsensusType (x : ConsensusType) (e : Engine) : Engine :=
  {| viewNumber := viewNumber e; sequenceNumber := sequenceNumber e;
  currentConsensusType := x; nodeId := nodeId e; state := state e; isLeader
  := isLeader e; prepareMessages := prepareMessages e; commitMessages :=
  commitMessages e; pendingPrepareMessages := pendingPrepareMessages e;
  pendingCommitMessages := pendingCommitMessages e; completedSequences :=
  completedSequences e; currentProposal := currentProposal e; currentDigest
  := currentDigest e; consensusThreshold := consensusThreshold e; privateKey
  := privateKey e |}.
Definition set_state (x : ConsensusState) (e : Engine) : Engine :=
  {| viewNumber := viewNumber e; sequenceNumber := sequenceNumber e;
  currentConsensusType := currentConsensusType e; nodeId := nodeId e; state
  := x; isLeader := isLeader e; prepareMessages := prepareMessages e;
  commitMessages := commitMessages e; pendingPrepareMessages :=
  pendingPrepareMessages e; pendingCommitMessages := pendingCommitMessages
  e; completedSequences := completedSequences e; currentProposal :=
  currentProposal e; currentDigest := currentDigest e; consensusThreshold :=
  consensusThreshold e; privateKey := privateKey e |}.
Definition set_prepareMessages (x : gmap Key (list PBFTMessage)) (e : Engine) : Engine :=
  {| viewNumber := viewNumber e; sequenceNumber := sequenceNumber e;
  currentConsensusType := currentConsensusType e; nodeId := nodeId e; state
  := state e; isLeader := isLeader e; prepareMessages := x; commitMessages
  := commitMessages e; pendingPrepareMessages := pendingPrepareMessages e;
  pendingCommitMessages := pendingCommitMessages e; completedSequences :=
  completedSequences e; currentProposal := currentProposal e; currentDigest
  := currentDigest e; consensusThreshold := consensusThreshold e; privateKey
  := privateKey e |}.
Definition set_commitMessages (x : gmap Key (list PBFTMessage)) (e : Engine) : Engine :=
  {| viewNumber := viewNumber e; sequenceNumber := sequenceNumber e;
  currentConsensusType := currentConsensusType e; nodeId := nodeId e; state
  := state e; isLeader := isLeader e; prepareMessages := prepareMessages e;
  commitMessages := x; pendingPrepareMessages := pendingPrepareMessages e;
  pendingCommitMessages := pendingCommitMessages e; completedSequences :=
  completedSequences e; currentProposal := currentProposal e; currentDigest
  := currentDigest e; consensusThreshold := consensusThreshold e; privateKey
  := privateKey e |}.
Definition set_pendingPrepareMessages (x : gmap Key (list PBFTMessage)) (e : Engine) : Engine :=
  {| viewNumber := viewNumber e; sequenceNumber := sequenceNumber e;
  currentConsensusType := currentConsensusType e; nodeId := nodeId e; state
  := state e; isLeader := isLeader e; prepareMessages := prepareMessages e;
  commitMessages := commitMessages e; pendingPrepareMessages := x;
  pendingCommitMessages := pendingCommitMessages e; completedSequences :=
  completedSequences e; currentProposal := currentProposal e; currentDigest
  := currentDigest e; consensusThreshold := consensusThreshold e; privateKey
  := privateKey e |}.
Definition set_pendingCommitMessages (x : gmap Key (list PBFTMessage)) (e : Engine) : Engine :=
  {| viewNumber := viewNumber e; sequenceNumber := sequenceNumber e;
  currentConsensusType := currentConsensusType e; nodeId := nodeId e; state
  := state e; isLeader := isLeader e; prepareMessages := prepareMessages e;
  commitMessages := commitMessages e; pendingPrepareMessages :=
  pendingPrepareMessages e; pendingCommitMessages := x; completedSequences
  := completedSequences e; currentProposal := currentProposal e;
  currentDigest := currentDigest e; consensusThreshold := consensusThreshold
  e; privateKey := privateKey e |}.
Definition set_completedSequences (x : gset Z) (e : Engine) : Engine :=
  {| viewNumber := viewNumber e; sequenceNumber := sequenceNumber e;
  currentConsensusType := currentConsensusType e; nodeId := nodeId e; state
  := state e; isLeader := isLeader e; prepareMessages := prepareMessages e;
  commitMessages := commitMessages e; pendingPrepareMessages :=
  pendingPrepareMessages e; pendingCommitMessages := pendingCommitMessages
  e; completedSequences := x; currentProposal := currentProposal e;
  currentDigest := currentDigest e; consensusThreshold := consensusThreshold
  e; privateKey := privateKey e |}.
Definition set_currentProposal (x : option QoSProof) (e : Engine) : Engine :=
  {| viewNumber := viewNumber e; sequenceNumber := sequenceNumber e;
  currentConsensusType := currentConsensusType e; nodeId := nodeId e; state
  := state e; isLeader := isLeader e; prepareMessages := prepareMessages e;
  commitMessages := commitMessages e; pendingPrepareMessages :=
  pendingPrepareMessages e; pendingCommitMessages := pendingCommitMessages
  e; completedSequences := completedSequences e; currentProposal := x;
  currentDigest := currentDigest e; consensusThreshold := consensusThreshold
  e; privateKey := privateKey e |}.
Definition set_currentDigest (x : string) (e : Engine) : Engine :=
  {| viewNumber := viewNumber e; sequenceNumber := sequenceNumber e;
  currentConsensusType := currentConsensusType e; nodeId := nodeId e; state
  := state e; isLeader := isLeader e; prepareMessages := prepareMessages e;
  commitMessages := commitMessages e; pendingPrepareMessages :=
  pendingPrepareMessages e; pendingCommitMessages := pendingCommitMessages
  e; completedSequences := completedSequences e; currentProposal :=
  currentProposal e; currentDigest := x; consensusThreshold :=
  consensusThreshold e; privateKey := privateKey e |}.

(** what [handleCommit] leaves to its caller: when the commit quorum is
    reached the engine calls [onConsensusReached] in the [Committed] state
    and resets itself only after the callback has returned *)
Inductive CommitResult :=
  | Done (e : Engine)
  | Reached (e : Engine) (callback : option (QoSProof * ConsensusType)).

Section Defs.
Context `{Primitives}.

(** [Math.floor(2 * Math.floor((totalNodes - 1) / 3) + 1)] *)
Definition threshold (totalNodes : Z) : Z := 2 * ((totalNodes - 1) / 3) + 1.

Definition new (nodeId : string) (isLeader : bool) (totalNodes : Z)
           (privateKey : option string) : Engine :=
  {| viewNumber := 0; sequenceNumber := 0; currentConsensusType := Normal;
     nodeId := nodeId; state := Idle; isLeader := isLeader;
     prepareMessages := ∅; commitMessages := ∅;
     pendingPrepareMessages := ∅; pendingCommitMessages := ∅;
     completedSequences := ∅; currentProposal := None; currentDigest := "";
     consensusThreshold := threshold totalNodes;
     privateKey := match privateKey with
                   | Some k => if JS.truthy k then k else "private_key"
                   | None => "private_key"
                   end |}.

Definition getCurrentViewNumber (e : Engine) : Z := viewNumber e.
Definition getState (e : Engine) : ConsensusState := state e.

Definition keyOf (message : PBFTMessage) : Key :=
  (Msg.viewNumber message, Msg.sequenceNumber message).

Definition sameSender (message : PBFTMessage) (m : PBFTMessage) : bool :=
  String.eqb (Msg.nodeId m) (Msg.nodeId message).

(** [map.get(key)] after the list has been initialised *)
Definition listAt (m : gmap Key (list PBFTMessage)) (key : Key) : list PBFTMessage :=
  default [] (m !! key).

Definition startConsensus (proof : QoSProof) (consensusType : ConsensusType)
           (e : Engine) : Engine * option PBFTMessage :=
  if negb (isLeader e) then (e, None)
  else if negb (bool_decide (state e = Idle)) then (e, None)
  else
    let e := set_sequenceNumber (sequenceNumber e + 1) e in
    let e := set_currentProposal (Some proof) e in
    let e := set_currentDigest (calculateHash proof) e in
    let e := set_currentConsensusType consensusType e in
    let e := set_state PrePrepared e in
    let prePrepareMsg :=
      {| Msg.type := PrePrepare;
         Msg.consensusType := currentConsensusType e;
         Msg.viewNumber := viewNumber e;
         Msg.taskId := Proof.taskId proof;
         Msg.sequenceNumber := sequenceNumber e;
         Msg.nodeId := nodeId e;
         Msg.data := Some proof;
         Msg.digest := Some (currentDigest e);
         Msg.signature :=
           sign (SignPBFT PrePrepare (Some (currentConsensusType e)) (viewNumber e)
                          (sequenceNumber e) (currentDigest e)) "private_key" |} in
    (e, Some prePrepareMsg).

Definition validateMessage (message : PBFTMessage) (e : Engine) : bool :=
  bool_decide (Msg.viewNumber message = viewNumber e).

Definition handlePrePrepare (message : PBFTMessage) (e : Engine)
  : Engine * option PBFTMessage :=
  if negb (bool_decide (state e = Idle))
     && negb (isLeader e && bool_decide (state e = PrePrepared))
  then (e, None)
  else if negb (validateMessage message e) then (e, None)
  else
  match Msg.data message with
  | None => (e, None)
  | Some data =>
      let calculatedDigest := calculateHash data in
      if negb (bool_decide (Some calculatedDigest = Msg.digest message)) then (e, None)
      else
      let e :=
        if negb (isLeader e)
           || (isLeader e && String.eqb (Msg.nodeId message) (nodeId e))
        then
          let e := set_currentProposal (Some data) e in
          let e := set_currentDigest calculatedDigest e in
          let e := set_viewNumber (Msg.viewNumber message) e in
          let e := set_sequenceNumber (Msg.sequenceNumber message) e in
          let e := set_state PrePrepared e in
          set_currentConsensusType (Msg.consensusType message) e
        else e in
      let prepareMsg :=
        {| Msg.taskId := Msg.taskId message;
           Msg.type := Prepare;
           Msg.consensusType := currentConsensusType e;
           Msg.viewNumber := viewNumber e;
           Msg.sequenceNumber := sequenceNumber e;
           Msg.nodeId := nodeId e;
           Msg.data := None;
           Msg.digest := Some (currentDigest e);
           Msg.signature :=
             sign (SignPBFT Prepare (Some (currentConsensusType e)) (viewNumber e)
                            (sequenceNumber e) (currentDigest e)) "private_key" |} in
      let key : Key := (viewNumber e, sequenceNumber e) in
      let e := set_prepareMessages
                 (<[key := (listAt (prepareMessages e) key ++ [prepareMsg])%list]>
                    (prepareMessages e)) e in
      (e, Some prepareMsg)
  end.

Definition storePendingPrepareMessage (message : PBFTMessage) (e : Engine) : Engine :=
  let key := keyOf message in
  let pendingMsgs := listAt (pendingPrepareMessages e) key in
  if existsb (sameSender message) pendingMsgs then
    set_pendingPrepareMessages (<[key := pendingMsgs]> (pendingPrepareMessages e)) e
  else
    set_pendingPrepareMessages
      (<[key := (pendingMsgs ++ [message])%list]> (pendingPrepareMessages e)) e.

Definition storePendingCommitMessage (message : PBFTMessage) (e : Engine) : Engine :=
  let key := keyOf message in
  set_pendingCommitMessages
    (<[key := (listAt (pendingCommitMessages e) key ++ [message])%list]>
       (pendingCommitMessages e)) e.

(** the loop that moves buffered messages into a list, skipping the
    senders the list already has *)
Definition drain (msgs pending : list PBFTMessage) : list PBFTMessage :=
  fold_left
    (fun acc pendingMsg =>
       if existsb (sameSender pendingMsg) acc then acc else (acc ++ [pendingMsg])%list)
    pending msgs.

(** the list under [key] when [handlePrepare] reaches its duplicate test:
    initialised, and with the buffered Prepares drained into it when the
    message is the node's own and the list holds one message *)
Definition prepareListAtCheck (message : PBFTMessage) (e : Engine) : list PBFTMessage :=
  let key := keyOf message in
  let msgs := listAt (prepareMessages e) key in
  if String.eqb (Msg.nodeId message) (nodeId e) && bool_decide (length msgs = 1%nat)
  then drain msgs (listAt (pendingPrepareMessages e) key)
  else msgs.

Definition handlePrepare (message : PBFTMessage) (e : Engine)
  : Engine * option PBFTMessage :=
  if negb (validateMessage message e) then (e, None)
  else if bool_decide (Msg.sequenceNumber message ∈ completedSequences e) then (e, None)
  else
  let key := keyOf message in
  if bool_decide (rank PrePrepared < rank (state e)) then (e, None)
  else if bool_decide (rank (state e) < rank PrePrepared) then
    (storePendingPrepareMessage message e, None)
  else
  let msgs := prepareListAtCheck message e in
  let e :=
    if String.eqb (Msg.nodeId message) (nodeId e)
       && bool_decide (length (listAt (prepareMessages e) key) = 1%nat)
    then set_pendingPrepareMessages (delete key (pendingPrepareMessages e)) e
    else e in
  let msgs :=
    if existsb (sameSender message) msgs then msgs else (msgs ++ [message])%list in
  let e := set_prepareMessages (<[key := msgs]> (prepareMessages e)) e in
  let prepareCount := Z.of_nat (length msgs) in
  if bool_decide (consensusThreshold e <= prepareCount)
     && bool_decide (state e = PrePrepared)
  then
    let e := set_state Prepared e in
    let commitMsg :=
      {| Msg.taskId := Msg.taskId message;
         Msg.type := Commit;
         Msg.consensusType := currentConsensusType e;
         Msg.viewNumber := viewNumber e;
         Msg.sequenceNumber := sequenceNumber e;
         Msg.nodeId := nodeId e;
         Msg.data := None;
         Msg.digest := Some (currentDigest e);
         Msg.signature :=
           sign (SignPBFT Commit None (viewNumber e) (sequenceNumber e)
                          (currentDigest e)) "private_key" |} in
    let e := set_commitMessages
               (<[key := (listAt (commitMessages e) key ++ [commitMsg])%list]>
                  (commitMessages e)) e in
    (e, Some commitMsg)
  else (e, None).

Definition resetForNextConsensus (e : Engine) : Engine :=
  let e := set_state Idle e in
  let e := set_currentProposal None e in
  let e := set_currentDigest "" e in
  let e := set_currentConsensusType Normal e in
  let keyToClean : Key := (viewNumber e, sequenceNumber e) in
  set_pendingCommitMessages (delete keyToClean (pendingCommitMessages e)) e.

Definition checkCommitConsensus (key : Key) (e : Engine) : CommitResult :=
  let commitCount := Z.of_nat (length (listAt (commitMessages e) key)) in
  if bool_decide (consensusThreshold e <= commitCount)
     && bool_decide (state e = Prepared)
  then
    let e := set_state Committed e in
    let e := set_completedSequences ({[ sequenceNumber e ]} ∪ completedSequences e) e in
    Reached e ((fun proposal => (proposal, currentConsensusType e)) <$> currentProposal e)
  else Done e.

Definition handleCommit (message : PBFTMessage) (e : Engine) : CommitResult :=
  if negb (validateMessage message e) then Done e
  else if bool_decide (Msg.sequenceNumber message ∈ completedSequences e) then Done e
  else
  let key := keyOf message in
  if bool_decide (rank Prepared < rank (state e)) then Done e
  else if bool_decide (rank (state e) < rank Prepared) then
    Done (storePendingCommitMessage message e)
  else
  let msgs := listAt (commitMessages e) key in
  let '(msgs, e) :=
    if String.eqb (Msg.nodeId message) (nodeId e) && bool_decide (length msgs = 1%nat)
    then (drain msgs (listAt (pendingCommitMessages e) key),
          set_pendingCommitMessages (delete key (pendingCommitMessages e)) e)
    else (msgs, e) in
  let msgs :=
    if existsb (sameSender message) msgs then msgs else (msgs ++ [message])%list in
  let e := set_commitMessages (<[key := msgs]> (commitMessages e)) e in
  checkCommitConsensus key e.

(** the engine after a call of [handleCommit] whose callback leaves the
    engine alone *)
Definition afterCommit (r : CommitResult) : Engine :=
  match r with
  | Done e => e
  | Reached e _ => resetForNextConsensus e
  end.

End Defs.
End PBFT.
Abbreviation Engine := PBFT.Engine.

(* ===================================================================== *)
(** ** core/CommitteeNode.ts                                               *)
(* ===================================================================== *)

Module Task.
Record ValidationInfo := {
  conflictType : option ConflictType;
  conflictDetails : option Details;
  resolvedResult : option ValidationResult;
  supplementaryRequestTime : option Z;
  supplementaryRequested : bool;
  timeoutReason : option string;
  supplementaryResult : option ValidationResult;
  errorMessage : option string;
}.

Definition set_conflictType (x : option ConflictType) (i : ValidationInfo) : ValidationInfo :=
  {| conflictType := x; conflictDetails := conflictDetails i; resolvedResult
  := resolvedResult i; supplementaryRequestTime := supplementaryRequestTime
  i; supplementaryRequested := supplementaryRequested i; timeoutReason :=
  timeoutReason i; supplementaryResult := supplementaryResult i;
  errorMessage := errorMessage i |}.
Definition set_conflictDetails (x : option Details) (i : ValidationInfo) : ValidationInfo :=
  {| conflictType := conflictType i; conflictDetails := x; resolvedResult :=
  resolvedResult i; supplementaryRequestTime := supplementaryRequestTime i;
  supplementaryRequested := supplementaryRequested i; timeoutReason :=
  timeoutReason i; supplementaryResult := supplementaryResult i;
  errorMessage := errorMessage i |}.
Definition set_resolvedResult (x : option ValidationResult) (i : ValidationInfo) : ValidationInfo :=
  {| conflictType := conflictType i; conflictDetails := conflictDetails i;
  resolvedResult := x; supplementaryRequestTime := supplementaryRequestTime
  i; supplementaryRequested := supplementaryRequested i; timeoutReason :=
  timeoutReason i; supplementaryResult := supplementaryResult i;
  errorMessage := errorMessage i |}.
Definition set_supplementaryRequestTime (x : option Z) (i : ValidationInfo) : ValidationInfo :=
  {| conflictType := conflictType i; conflictDetails := conflictDetails i;
  resolvedResult := resolvedResult i; supplementaryRequestTime := x;
  supplementaryRequested := supplementaryRequested i; timeoutReason :=
  timeoutReason i; supplementaryResult := supplementaryResult i;
  errorMessage := errorMessage i |}.
Definition set_supplementaryRequested (x : bool) (i : ValidationInfo) : ValidationInfo :=
  {| conflictType := conflictType i; conflictDetails := conflictDetails i;
  resolvedResult := resolvedResult i; supplementaryRequestTime :=
  supplementaryRequestTime i; supplementaryRequested := x; timeoutReason :=
  timeoutReason i; supplementaryResult := supplementaryResult i;
  errorMessage := errorMessage i |}.
Definition set_timeoutReason (x : option string) (i : ValidationInfo) : ValidationInfo :=
  {| conflictType := conflictType i; conflictDetails := conflictDetails i;
  resolvedResult := resolvedResult i; supplementaryRequestTime :=
  supplementaryRequestTime i; supplementaryRequested :=
  supplementaryRequested i; timeoutReason := x; supplementaryResult :=
  supplementaryResult i; errorMessage := errorMessage i |}.
Definition set_supplementaryResult (x : option ValidationResult) (i : ValidationInfo) : ValidationInfo :=
  {| conflictType := conflictType i; conflictDetails := conflictDetails i;
  resolvedResult := resolvedResult i; supplementaryRequestTime :=
  supplementaryRequestTime i; supplementaryRequested :=
  supplementaryRequested i; timeoutReason := timeoutReason i;
  supplementaryResult := x; errorMessage := errorMessage i |}.
Definition set_errorMessage (x : option string) (i : ValidationInfo) : ValidationInfo :=
  {| conflictType := conflictType i; conflictDetails := conflictDetails i;
  resolvedResult := resolvedResult i; supplementaryRequestTime :=
  supplementaryRequestTime i; supplementaryRequested :=
  supplementaryRequested i; timeoutReason := timeoutReason i;
  supplementaryResult := supplementaryResult i; errorMessage := x |}.

Definition noInfo : ValidationInfo :=
  {| conflictType := None; conflictDetails := None; resolvedResult := None;
     supplementaryRequestTime := None; supplementaryRequested := false;
     timeoutReason := None; supplementaryResult := None; errorMessage := None |}.

(** [TaskStatus]; the dates are the milliseconds of the clock, and of
    [result] only [consensusTimestamp] is ever written: [None] is no
    [result], [Some None] an empty one *)
Record TaskStatus := {
  taskId : string;
  state : TaskProcessingState;
  proofCount : nat;
  verifierIds : list string;
  createdAt : Z;
  updatedAt : Z;
  supplementaryVerifierIds : option (list string);
  validationInfo : option ValidationInfo;
  consensusTimestamp : option (option Z);
}.

Definition set_state (x : TaskProcessingState) (t : TaskStatus) : TaskStatus :=
  {| taskId := taskId t; state := x; proofCount := proofCount t; verifierIds
  := verifierIds t; createdAt := createdAt t; updatedAt := updatedAt t;
  supplementaryVerifierIds := supplementaryVerifierIds t; validationInfo :=
  validationInfo t; consensusTimestamp := consensusTimestamp t |}.
Definition set_proofCount (x : nat) (t : TaskStatus) : TaskStatus :=
  {| taskId := taskId t; state := state t; proofCount := x; verifierIds :=
  verifierIds t; createdAt := createdAt t; updatedAt := updatedAt t;
  supplementaryVerifierIds := supplementaryVerifierIds t; validationInfo :=
  validationInfo t; consensusTimestamp := consensusTimestamp t |}.
Definition set_verifierIds (x : list string) (t : TaskStatus) : TaskStatus :=
  {| taskId := taskId t; state := state t; proofCount := proofCount t;
  verifierIds := x; createdAt := createdAt t; updatedAt := updatedAt t;
  supplementaryVerifierIds := supplementaryVerifierIds t; validationInfo :=
  validationInfo t; consensusTimestamp := consensusTimestamp t |}.
Definition set_updatedAt (x : Z) (t : TaskStatus) : TaskStatus :=
  {| taskId := taskId t; state := state t; proofCount := proofCount t;
  verifierIds := verifierIds t; createdAt := createdAt t; updatedAt := x;
  supplementaryVerifierIds := supplementaryVerifierIds t; validationInfo :=
  validationInfo t; consensusTimestamp := consensusTimestamp t |}.
Definition set_supplementaryVerifierIds (x : option (list string)) (t : TaskStatus) : TaskStatus :=
  {| taskId := taskId t; state := state t; proofCount := proofCount t;
  verifierIds := verifierIds t; createdAt := createdAt t; updatedAt :=
  updatedAt t; supplementaryVerifierIds := x; validationInfo :=
  validationInfo t; consensusTimestamp := consensusTimestamp t |}.
Definition set_validationInfo (x : option ValidationInfo) (t : TaskStatus) : TaskStatus :=
  {| taskId := taskId t; state := state t; proofCount := proofCount t;
  verifierIds := verifierIds t; createdAt := createdAt t; updatedAt :=
  updatedAt t; supplementaryVerifierIds := supplementaryVerifierIds t;
  validationInfo := x; consensusTimestamp := consensusTimestamp t |}.
Definition set_consensusTimestamp (x : option (option Z)) (t : TaskStatus) : TaskStatus :=
  {| taskId := taskId t; state := state t; proofCount := proofCount t;
  verifierIds := verifierIds t; createdAt := createdAt t; updatedAt :=
  updatedAt t; supplementaryVerifierIds := supplementaryVerifierIds t;
  validationInfo := validationInfo t; consensusTimestamp := x |}.

(** [if (!status.validationInfo) status.validationInfo = {}] *)
Definition info (t : TaskStatus) : ValidationInfo := default noInfo (validationInfo t).
Definition ensureInfo (t : TaskStatus) : TaskStatus := set_validationInfo (Some (info t)) t.
Definition updInfo (f : ValidationInfo -> ValidationInfo) (t : TaskStatus) : TaskStatus :=
  set_validationInfo (Some (f (info t))) t.
End Task.
Abbreviation TaskStatus := Task.TaskStatus.

(** [SupplementaryReadyMessage] and [SupplementaryAckMessage] *)
Module Supp.
Record SupplementaryMessage := {
  type : MessageType;
  taskId : string;
  supplementaryProofId : string;
  nodeId : string;
  timestamp : Z;
  signature : string;
}.
End Supp.
Abbreviation SupplementaryMessage := Supp.SupplementaryMessage.

(** what the node hands to its [MessageHandler] *)
Inductive Outgoing :=
  | Broadcast (m : PBFTMessage)
  | BroadcastSupplementaryReady (m : SupplementaryMessage)
  | SendSupplementaryAck (targetNodeId : string) (m : SupplementaryMessage).

Module Node.

Record Node := {
  nodeId : string;
  pbftEngine : Engine;
  isLeader : bool;
  taskStatuses : gmap string TaskStatus;
  taskProofs : gmap string (list QoSProof);
  consensusQueue : list string;
  processingConsensus : bool;
  privateKey : string;
  currentConsensusTaskId : option string;
  pendingPrePrepareMessages : gmap string PBFTMessage;
  supplementaryReadyStatus : gmap string (gset string);
  pendingSupplementaryConsensus : gmap string QoSProof;
  pendingFinalPrePrepareMessages : gmap string PBFTMessage;
  outbox : list Outgoing;
  timers : list string;
}.

Definition set_pbftEngine (x : Engine) (n : Node) : Node :=
  {| nodeId := nodeId n; pbftEngine := x; isLeader := isLeader n;
  taskStatuses := taskStatuses n; taskProofs := taskProofs n; consensusQueue
  := consensusQueue n; processingConsensus := processingConsensus n;
  privateKey := privateKey n; currentConsensusTaskId :=
  currentConsensusTaskId n; pendingPrePrepareMessages :=
  pendingPrePrepareMessages n; supplementaryReadyStatus :=
  supplementaryReadyStatus n; pendingSupplementaryConsensus :=
  pendingSupplementaryConsensus n; pendingFinalPrePrepareMessages :=
  pendingFinalPrePrepareMessages n; outbox := outbox n; timers := timers n
  |}.
Definition set_taskStatuses (x : gmap string TaskStatus) (n : Node) : Node :=
  {| nodeId := nodeId n; pbftEngine := pbftEngine n; isLeader := isLeader n;
  taskStatuses := x; taskProofs := taskProofs n; consensusQueue :=
  consensusQueue n; processingConsensus := processingConsensus n; privateKey
  := privateKey n; currentConsensusTaskId := currentConsensusTaskId n;
  pendingPrePrepareMessages := pendingPrePrepareMessages n;
  supplementaryReadyStatus := supplementaryReadyStatus n;
  pendingSupplementaryConsensus := pendingSupplementaryConsensus n;
  pendingFinalPrePrepareMessages := pendingFinalPrePrepareMessages n; outbox
  := outbox n; timers := timers n |}.
Definition set_taskProofs (x : gmap string (list QoSProof)) (n : Node) : Node :=
  {| nodeId := nodeId n; pbftEngine := pbftEngine n; isLeader := isLeader n;
  taskStatuses := taskStatuses n; taskProofs := x; consensusQueue :=
  consensusQueue n; processingConsensus := processingConsensus n; privateKey
  := privateKey n; currentConsensusTaskId := currentConsensusTaskId n;
  pendingPrePrepareMessages := pendingPrePrepareMessages n;
  supplementaryReadyStatus := supplementaryReadyStatus n;
  pendingSupplementaryConsensus := pendingSupplementaryConsensus n;
  pendingFinalPrePrepareMessages := pendingFinalPrePrepareMessages n; outbox
  := outbox n; timers := timers n |}.
Definition set_consensusQueue (x : list string) (n : Node) : Node :=
  {| nodeId := nodeId n; pbftEngine := pbftEngine n; isLeader := isLeader n;
  taskStatuses := taskStatuses n; taskProofs := taskProofs n; consensusQueue
  := x; processingConsensus := processingConsensus n; privateKey :=
  privateKey n; currentConsensusTaskId := currentConsensusTaskId n;
  pendingPrePrepareMessages := pendingPrePrepareMessages n;
  supplementaryReadyStatus := supplementaryReadyStatus n;
  pendingSupplementaryConsensus := pendingSupplementaryConsensus n;
  pendingFinalPrePrepareMessages := pendingFinalPrePrepareMessages n; outbox
  := outbox n; timers := timers n |}.
Definition set_processingConsensus (x : bool) (n : Node) : Node :=
  {| nodeId := nodeId n; pbftEngine := pbftEngine n; isLeader := isLeader n;
  taskStatuses := taskStatuses n; taskProofs := taskProofs n; consensusQueue
  := consensusQueue n; processingConsensus := x; privateKey := privateKey n;
  currentConsensusTaskId := currentConsensusTaskId n;
  pendingPrePrepareMessages := pendingPrePrepareMessages n;
  supplementaryReadyStatus := supplementaryReadyStatus n;
  pendingSupplementaryConsensus := pendingSupplementaryConsensus n;
  pendingFinalPrePrepareMessages := pendingFinalPrePrepareMessages n; outbox
  := outbox n; timers := timers n |}.
Definition set_currentConsensusTaskId (x : option string) (n : Node) : Node :=
  {| nodeId := nodeId n; pbftEngine := pbftEngine n; isLeader := isLeader n;
  taskStatuses := taskStatuses n; taskProofs := taskProofs n; consensusQueue
  := consensusQueue n; processingConsensus := processingConsensus n;
  privateKey := privateKey n; currentConsensusTaskId := x;
  pendingPrePrepareMessages := pendingPrePrepareMessages n;
  supplementaryReadyStatus := supplementaryReadyStatus n;
  pendingSupplementaryConsensus := pendingSupplementaryConsensus n;
  pendingFinalPrePrepareMessages := pendingFinalPrePrepareMessages n; outbox
  := outbox n; timers := timers n |}.
Definition set_pendingPrePrepareMessages (x : gmap string PBFTMessage) (n : Node) : Node :=
  {| nodeId := nodeId n; pbftEngine := pbftEngine n; isLeader := isLeader n;
  taskStatuses := taskStatuses n; taskProofs := taskProofs n; consensusQueue
  := consensusQueue n; processingConsensus := processingConsensus n;
  privateKey := privateKey n; currentConsensusTaskId :=
  currentConsensusTaskId n; pendingPrePrepareMessages := x;
  supplementaryReadyStatus := supplementaryReadyStatus n;
  pendingSupplementaryConsensus := pendingSupplementaryConsensus n;
  pendingFinalPrePrepareMessages := pendingFinalPrePrepareMessages n; outbox
  := outbox n; timers := timers n |}.
Definition set_supplementaryReadyStatus (x : gmap string (gset string)) (n : Node) : Node :=
  {| nodeId := nodeId n; pbftEngine := pbftEngine n; isLeader := isLeader n;
  taskStatuses := taskStatuses n; taskProofs := taskProofs n; consensusQueue
  := consensusQueue n; processingConsensus := processingConsensus n;
  privateKey := privateKey n; currentConsensusTaskId :=
  currentConsensusTaskId n; pendingPrePrepareMessages :=
  pendingPrePrepareMessages n; supplementaryReadyStatus := x;
  pendingSupplementaryConsensus := pendingSupplementaryConsensus n;
  pendingFinalPrePrepareMessages := pendingFinalPrePrepareMessages n; outbox
  := outbox n; timers := timers n |}.
Definition set_pendingSupplementaryConsensus (x : gmap string QoSProof) (n : Node) : Node :=
  {| nodeId := nodeId n; pbftEngine := pbftEngine n; isLeader := isLeader n;
  taskStatuses := taskStatuses n; taskProofs := taskProofs n; consensusQueue
  := consensusQueue n; processingConsensus := processingConsensus n;
  privateKey := privateKey n; currentConsensusTaskId :=
  currentConsensusTaskId n; pendingPrePrepareMessages :=
  pendingPrePrepareMessages n; supplementaryReadyStatus :=
  supplementaryReadyStatus n; pendingSupplementaryConsensus := x;
  pendingFinalPrePrepareMessages := pendingFinalPrePrepareMessages n; outbox
  := outbox n; timers := timers n |}.
Definition set_pendingFinalPrePrepareMessages (x : gmap string PBFTMessage) (n : Node) : Node :=
  {| nodeId := nodeId n; pbftEngine := pbftEngine n; isLeader := isLeader n;
  taskStatuses := taskStatuses n; taskProofs := taskProofs n; consensusQueue
  := consensusQueue n; processingConsensus := processingConsensus n;
  privateKey := privateKey n; currentConsensusTaskId :=
  currentConsensusTaskId n; pendingPrePrepareMessages :=
  pendingPrePrepareMessages n; supplementaryReadyStatus :=
  supplementaryReadyStatus n; pendingSupplementaryConsensus :=
  pendingSupplementaryConsensus n; pendingFinalPrePrepareMessages := x;
  outbox := outbox n; timers := timers n |}.
Definition set_outbox (x : list Outgoing) (n : Node) : Node :=
  {| nodeId := nodeId n; pbftEngine := pbftEngine n; isLeader := isLeader n;
  taskStatuses := taskStatuses n; taskProofs := taskProofs n; consensusQueue
  := consensusQueue n; processingConsensus := processingConsensus n;
  privateKey := privateKey n; currentConsensusTaskId :=
  currentConsensusTaskId n; pendingPrePrepareMessages :=
  pendingPrePrepareMessages n; supplementaryReadyStatus :=
  supplementaryReadyStatus n; pendingSupplementaryConsensus :=
  pendingSupplementaryConsensus n; pendingFinalPrePrepareMessages :=
  pendingFinalPrePrepareMessages n; outbox := x; timers := timers n |}.
Definition set_timers (x : list string) (n : Node) : Node :=
  {| nodeId := nodeId n; pbftEngine := pbftEngine n; isLeader := isLeader n;
  taskStatuses := taskStatuses n; taskProofs := taskProofs n; consensusQueue
  := consensusQueue n; processingConsensus := processingConsensus n;
  privateKey := privateKey n; currentConsensusTaskId :=
  currentConsensusTaskId n; pendingPrePrepareMessages :=
  pendingPrePrepareMessages n; supplementaryReadyStatus :=
  supplementaryReadyStatus n; pendingSupplementaryConsensus :=
  pendingSupplementaryConsensus n; pendingFinalPrePrepareMessages :=
  pendingFinalPrePrepareMessages n; outbox := outbox n; timers := x |}.

Section Defs.
Context `{Primitives}.

(** the constructor, without the [MessageHandler] it also builds *)
Definition new (nodeId : string) (isLeader : bool) (totalNodes : Z) : Node :=
  {| nodeId := nodeId;
     pbftEngine := PBFT.new nodeId isLeader totalNodes None;
     isLeader := isLeader;
     taskStatuses := ∅; taskProofs := ∅; consensusQueue := [];
     processingConsensus := false; privateKey := "private_key";
     currentConsensusTaskId := None; pendingPrePrepareMessages := ∅;
     supplementaryReadyStatus := ∅; pendingSupplementaryConsensus := ∅;
     pendingFinalPrePrepareMessages := ∅; outbox := []; timers := [] |}.

Definition getProofsForTask (taskId : string) (n : Node) : list QoSProof :=
  default [] (taskProofs n !! taskId).

Definition storeProof (taskId : string) (proof : QoSProof) (n : Node) : Node :=
  set_taskProofs
    (<[taskId := (getProofsForTask taskId n ++ [proof])%list]> (taskProofs n)) n.

Definition getTaskStatus (taskId : string) (n : Node) : option TaskStatus :=
  taskStatuses n !! taskId.

(** [this.taskStatuses.set(taskId, status)], and the way a mutation of a
    status object that the map already holds shows in the map *)
Definition setStatus (taskId : string) (status : TaskStatus) (n : Node) : Node :=
  set_taskStatuses (<[taskId := status]> (taskStatuses n)) n.

Definition send (o : Outgoing) (n : Node) : Node :=
  set_outbox (outbox n ++ [o])%list n.

(** *** the consensus queue *)

(** [processConsensusQueue] once it has found the queue non-empty and no
    consensus in progress; [queue] is the content of [consensusQueue], a
    recursive call is the source's call after [shift()] *)
Fixpoint drainQueue (queue : list string) (n : Node) : Node :=
  match queue with
  | [] => set_processingConsensus false (set_consensusQueue [] n)
  | taskId :: rest =>
      let next := drainQueue rest in
      match taskStatuses n !! taskId with
      | None => next n
      | Some status =>
          if bool_decide (Task.state status = AwaitingSupplementary) then next n
          else if negb (bool_decide (Task.state status = Consensus)) then next n
          else
          match getProofsForTask taskId n with
          | [] => next n
          | first :: _ =>
              let consensusType :=
                match Task.conflictType (Task.info status) with
                | Some _ => Conflict
                | None => Normal
                end in
              let n := set_currentConsensusTaskId (Some taskId) n in
              let running n :=
                set_processingConsensus true (set_consensusQueue (taskId :: rest) n) in
              if isLeader n then
                match PBFT.startConsensus first consensusType (pbftEngine n) with
                | (e, Some prePrepareMsg) =>
                    let n := send (Broadcast prePrepareMsg) (set_pbftEngine e n) in
                    let '(e, prepareMsg) :=
                      PBFT.handlePrePrepare prePrepareMsg (pbftEngine n) in
                    let n := set_pbftEngine e n in
                    running match prepareMsg with
                            | Some m => send (Broadcast m) n
                            | None => n
                            end
                | (e, None) =>
                    let n := set_pbftEngine e n in
                    next (setStatus taskId (Task.set_state Validating status) n)
                end
              else running n
          end
      end
  end.

Definition processConsensusQueue (n : Node) : Node :=
  if processingConsensus n || bool_decide (length (consensusQueue n) = 0%nat) then n
  else drainQueue (consensusQueue n) n.

Definition enqueueConsensusTask (taskId : string) (n : Node) : Node :=
  let n := set_consensusQueue (consensusQueue n ++ [taskId])%list n in
  if negb (processingConsensus n) then processConsensusQueue n else n.

(** *** the callback of the engine *)

Definition requestSupplementaryValidation (now : Z) (taskId : string) (n : Node) : Node :=
  match taskStatuses n !! taskId with
  | None => n
  | Some status =>
      if negb (bool_decide (Task.state status = AwaitingSupplementary)) then n
      else
        let status :=
          Task.updInfo (fun i => Task.set_supplementaryRequestTime (Some now)
                                   (Task.set_supplementaryRequested true i)) status in
        (* setTimeout(() => this.checkSupplementaryTimeout(taskId), TWO_HOURS) *)
        set_timers (timers n ++ [taskId])%list (setStatus taskId status n)
  end.

Definition handleConflictConsensusReached (now : Z) (taskId : string) (n : Node) : Node :=
  match taskStatuses n !! taskId with
  | None => n
  | Some status =>
      let status := Task.set_updatedAt now (Task.set_state AwaitingSupplementary status) in
      requestSupplementaryValidation now taskId (setStatus taskId status n)
  end.

Definition onConsensusReached (now : Z) (proof : QoSProof)
           (consensusType : ConsensusType) (n : Node) : Node :=
  let taskId := Proof.taskId proof in
  let n :=
    if bool_decide (consensusType = Conflict) then
      handleConflictConsensusReached now taskId n
    else
      match taskStatuses n !! taskId with
      | Some status =>
          let status := Task.set_updatedAt now (Task.set_state Finalized status) in
          setStatus taskId (Task.set_consensusTimestamp (Some (Some now)) status) n
      | None => n
      end in
  let n :=
    match consensusQueue n with
    | head :: rest => if String.eqb head taskId then set_consensusQueue rest n else n
    | [] => n
    end in
  let n := set_processingConsensus false n in
  let n := set_currentConsensusTaskId None n in
  processConsensusQueue n.

(** [this.pbftEngine.handleCommit(message)]: the callback runs on the node
    while the engine is [Committed]; the engine resets afterwards *)
Definition engineHandleCommit (now : Z) (message : PBFTMessage) (n : Node) : Node :=
  match PBFT.handleCommit message (pbftEngine n) with
  | PBFT.Done e => set_pbftEngine e n
  | PBFT.Reached e callback =>
      let n := set_pbftEngine e n in
      let n :=
        match callback with
        | Some (proposal, consensusType) =>
            onConsensusReached now proposal consensusType n
        | None => n
        end in
      set_pbftEngine (PBFT.resetForNextConsensus (pbftEngine n)) n
  end.

Definition engineHandlePrepare (message : PBFTMessage) (n : Node)
  : Node * option PBFTMessage :=
  let '(e, r) := PBFT.handlePrepare message (pbftEngine n) in (set_pbftEngine e n, r).

Definition engineHandlePrePrepare (message : PBFTMessage) (n : Node)
  : Node * option PBFTMessage :=
  let '(e, r) := PBFT.handlePrePrepare message (pbftEngine n) in (set_pbftEngine e n, r).

(** *** PrePrepare *)

Definition processPrePrepareMessage (now : Z) (message : PBFTMessage) (n : Node)
  : Node * option PBFTMessage :=
  match Msg.data message with
  | None => (n, None)
  | Some data =>
      let taskId := Msg.taskId message in
      let localProofs := getProofsForTask taskId n in
      let n := set_currentConsensusTaskId (Some taskId) n in
      if bool_decide (length localProofs < 2)%nat then
        (set_pendingPrePrepareMessages
           (<[taskId := message]> (pendingPrePrepareMessages n)) n, None)
      else
      let status := taskStatuses n !! taskId in
      let stateIs s :=
        match status with
        | Some st => bool_decide (Task.state st = s)
        | None => false
        end in
      let isFinalConsensus :=
        bool_decide (Msg.consensusType message = Normal)
        && (stateIs Validated || stateIs AwaitingSupplementary) in
      match status with
      | Some st =>
          if isFinalConsensus && stateIs Validated then
            engineHandlePrePrepare message
              (setStatus taskId (Task.set_state Consensus st) n)
          else if isFinalConsensus && stateIs AwaitingSupplementary then
            (set_pendingFinalPrePrepareMessages
               (<[taskId := message]> (pendingFinalPrePrepareMessages n)) n, None)
          else
          if negb (isValid (Validator.quickValidate now data)) then (n, None)
          else
          let deepValidationResult := Validator.deepValidate localProofs in
          let st := Task.ensureInfo st in
          let st :=
            if isValid deepValidationResult then st
            else
              Task.updInfo
                (fun i =>
                   Task.set_conflictDetails (details deepValidationResult)
                     (Task.set_conflictType
                        (Some (Validator.analyzeConflictType deepValidationResult)) i))
                (Task.set_state ConflictState st) in
          engineHandlePrePrepare message
            (setStatus taskId (Task.set_state Consensus st) n)
      | None =>
          if negb (isValid (Validator.quickValidate now data)) then (n, None)
          else
          let deepValidationResult := Validator.deepValidate localProofs in
          let st :=
            {| Task.taskId := taskId; Task.state := Verified;
               Task.proofCount := length localProofs;
               Task.verifierIds := Proof.verifierId <$> localProofs;
               Task.createdAt := now; Task.updatedAt := now;
               Task.supplementaryVerifierIds := None;
               Task.validationInfo := Some Task.noInfo;
               Task.consensusTimestamp := None |} in
          let st :=
            if isValid deepValidationResult then st
            else
              Task.updInfo
                (fun i =>
                   Task.set_conflictDetails (details deepValidationResult)
                     (Task.set_conflictType
                        (Some (Validator.analyzeConflictType deepValidationResult)) i))
                (Task.set_state ConflictState st) in
          engineHandlePrePrepare message
            (setStatus taskId (Task.set_state Consensus st) n)
      end
  end.

(** The result tells whether the call threw: with no Prepare to send,
    [broadcast(response!)] reads [type] of [null]; the state is then the
    one reached at that point. *)
Definition checkPendingPrePrepareMessages (now : Z) (taskId : string) (n : Node)
  : Node * bool :=
  match pendingPrePrepareMessages n !! taskId with
  | None => (n, false)
  | Some pendingMessage =>
      let localProofs := getProofsForTask taskId n in
      if bool_decide (2 <= length localProofs)%nat then
        let n := set_pendingPrePrepareMessages
                   (delete taskId (pendingPrePrepareMessages n)) n in
        let '(n, response) := processPrePrepareMessage now pendingMessage n in
        match response with
        | None => (n, true)
        | Some response =>
            let n := send (Broadcast response) n in
            let '(n, commitMsg) := engineHandlePrepare response n in
            match commitMsg with
            | Some commitMsg =>
                (engineHandleCommit now commitMsg (send (Broadcast commitMsg) n), false)
            | None => (n, false)
            end
        end
      else (n, false)
  end.

(** *** ordinary proofs *)

(** The status is either the object the map holds, whose mutations the
    calls below see, or a new object that enters the map with the last
    statement only.  A call of [checkPendingPrePrepareMessages] that throws
    skips that statement. *)
Definition handleQoSProof (now : Z) (proof : QoSProof) (n : Node) : Node :=
  let taskId := Proof.taskId proof in
  let verifierId := Proof.verifierId proof in
  if negb (isValid (Validator.quickValidate now proof)) then n
  else
  let existing := taskStatuses n !! taskId in
  let status :=
    default {| Task.taskId := taskId; Task.state := Pending; Task.proofCount := 0;
               Task.verifierIds := []; Task.createdAt := now; Task.updatedAt := now;
               Task.supplementaryVerifierIds := None; Task.validationInfo := None;
               Task.consensusTimestamp := None |} existing in
  if bool_decide (verifierId ∈ Task.verifierIds status) then setStatus taskId status n
  else
  let n := storeProof taskId proof n in
  let status := Task.set_proofCount (S (Task.proofCount status)) status in
  let status := Task.set_verifierIds (Task.verifierIds status ++ [verifierId])%list status in
  let status := Task.set_updatedAt now status in
  let status :=
    if bool_decide (Task.state status = Pending) then Task.set_state Validating status
    else status in
  if isLeader n then
    if bool_decide (2 <= Task.proofCount status)%nat
       && negb (bool_decide (Task.state status = Consensus))
    then
      let proofs := getProofsForTask taskId n in
      if bool_decide (2 <= length proofs)%nat then
        let deepValidationResult := Validator.deepValidate proofs in
        let status :=
          if negb (isValid deepValidationResult) && hasConflict deepValidationResult
          then
            Task.updInfo
              (fun i =>
                 Task.set_conflictDetails (details deepValidationResult)
                   (Task.set_conflictType
                      (Some (Validator.analyzeConflictType deepValidationResult)) i))
              (Task.set_state ConflictState status)
          else status in
        let status := Task.set_state Consensus status in
        enqueueConsensusTask taskId (setStatus taskId status n)
      else setStatus taskId status n
    else setStatus taskId status n
  else
    match existing with
    | Some _ =>
        fst (checkPendingPrePrepareMessages now taskId (setStatus taskId status n))
    | None =>
        let '(n, thrown) := checkPendingPrePrepareMessages now taskId n in
        if thrown then n else setStatus taskId status n
    end.

(** *** inbound PBFT messages *)

Definition onMessageReceived (now : Z) (message : PBFTMessage) (n : Node) : Node :=
  let taskId := Msg.taskId message in
  let filtered :=
    match currentConsensusTaskId n with
    | Some current => JS.truthy current && negb (String.eqb taskId current)
    | None => false
    end in
  if filtered then n
  else
  match Msg.type message with
  | PrePrepare =>
      let '(n, response) := processPrePrepareMessage now message n in
      match response with
      | Some response =>
          let n := send (Broadcast response) n in
          let '(n, commitMsg) := engineHandlePrepare response n in
          match commitMsg with
          | Some commitMsg => send (Broadcast commitMsg) n
          | None => n
          end
      | None => n
      end
  | Prepare =>
      let '(n, response) := engineHandlePrepare message n in
      match response with
      | Some response => send (Broadcast response) n
      | None => n
      end
  | Commit => engineHandleCommit now message n
  | _ => n
  end.

(** *** the supplementary protocol *)

Definition ackMessage (now : Z) (self taskId supplementaryProofId : string)
  : SupplementaryMessage :=
  {| Supp.type := SupplementaryAck; Supp.taskId := taskId;
     Supp.supplementaryProofId := supplementaryProofId; Supp.nodeId := self;
     Supp.timestamp := now;
     Supp.signature :=
       sign (SignSupplementary SupplementaryAck taskId supplementaryProofId now)
            "private_key" |}.

Definition handleSupplementaryReadyMessage (now : Z) (message : SupplementaryMessage)
           (n : Node) : Node :=
  let taskId := Supp.taskId message in
  match taskStatuses n !! taskId with
  | None => n
  | Some status =>
      if negb (isLeader n)
         && (bool_decide (Task.state status = Validated)
             || bool_decide (Task.state status = Consensus)
             || bool_decide (Task.state status = Finalized))
      then
        send (SendSupplementaryAck (Supp.nodeId message)
                (ackMessage now (nodeId n) taskId (Supp.supplementaryProofId message))) n
      else n
  end.

Definition startFinalConsensus (taskId : string) (consensusData : QoSProof) (n : Node)
  : Node :=
  match taskStatuses n !! taskId with
  | None => n
  | Some status =>
      if negb (bool_decide (Task.state status = Validated)) then n
      else
      let status := Task.set_state Consensus status in
      let n := setStatus taskId status n in
      let n := set_currentConsensusTaskId (Some taskId) n in
      let n := set_supplementaryReadyStatus (delete taskId (supplementaryReadyStatus n)) n in
      let n := set_pendingSupplementaryConsensus
                 (delete taskId (pendingSupplementaryConsensus n)) n in
      match PBFT.startConsensus consensusData Normal (pbftEngine n) with
      | (e, Some prePrepareMsg) =>
          let n := send (Broadcast prePrepareMsg) (set_pbftEngine e n) in
          let '(n, prepareMsg) := engineHandlePrePrepare prePrepareMsg n in
          match prepareMsg with
          | Some m => send (Broadcast m) n
          | None => n
          end
      | (e, None) =>
          setStatus taskId (Task.set_state Validated status) (set_pbftEngine e n)
      end
  end.

(** the committee size the acknowledgement handler works with:
    [const totalNodes = 4; // 应该从配置中获取] *)
Definition ackTotalNodes : Z := 4.

Definition handleSupplementaryAckMessage (message : SupplementaryMessage) (n : Node)
  : Node :=
  if negb (isLeader n) then n
  else
  let taskId := Supp.taskId message in
  let late :=
    match taskStatuses n !! taskId with
    | Some status =>
        bool_decide (Task.state status = Consensus)
        || bool_decide (Task.state status = Finalized)
    | None => false
    end in
  if late then n
  else
  let readyNodes := default ∅ (supplementaryReadyStatus n !! taskId) in
  let readyNodes := readyNodes ∪ {[ Supp.nodeId message ]} in
  let requiredNodes := 2 * ((ackTotalNodes - 1) / 3) + 1 in
  let readyNodes := readyNodes ∪ {[ nodeId n ]} in
  let n := set_supplementaryReadyStatus
             (<[taskId := readyNodes]> (supplementaryReadyStatus n)) n in
  if bool_decide (requiredNodes <= Z.of_nat (size readyNodes)) then
    match pendingSupplementaryConsensus n !! taskId with
    | Some pendingConsensusData =>
        let n := startFinalConsensus taskId pendingConsensusData n in
        let n := set_pendingSupplementaryConsensus
                   (delete taskId (pendingSupplementaryConsensus n)) n in
        set_supplementaryReadyStatus (delete taskId (supplementaryReadyStatus n)) n
    | None => n
    end
  else n.

Definition handleSupplementaryMessage (now : Z) (message : SupplementaryMessage)
           (n : Node) : Node :=
  match Supp.type message with
  | SupplementaryReady => handleSupplementaryReadyMessage now message n
  | SupplementaryAck => handleSupplementaryAckMessage message n
  | _ => n
  end.

Definition checkSupplementaryTimeout (now : Z) (taskId : string) (n : Node) : Node :=
  match taskStatuses n !! taskId with
  | None => n
  | Some status =>
      if negb (bool_decide (Task.state status = AwaitingSupplementary)) then n
      else if bool_decide (0 < length (default [] (Task.supplementaryVerifierIds status)))%nat
      then n
      else
        let status := Task.set_updatedAt now (Task.set_state NeedsManualReview status) in
        let status :=
          Task.updInfo
            (Task.set_timeoutReason (Some "补充验证请求超时未收到响应（两小时）")) status in
        setStatus taskId status n
  end.

(** [originalProofs] is the array the map holds; [storeProof] pushes the
    supplementary proof onto that array, so the resolver is called with a
    list that already ends with it. *)
Definition handleSupplementaryProof (now : Z) (taskId : string) (proof : QoSProof)
           (n : Node) : Node :=
  match taskStatuses n !! taskId with
  | None => n
  | Some status =>
      if negb (bool_decide (Task.state status = AwaitingSupplementary)) then n
      else if bool_decide (length (getProofsForTask taskId n) < 2)%nat then n
      else
      let validationResult := Validator.quickValidate now proof in
      if negb (isValid validationResult) then
        let status := Task.set_updatedAt now (Task.set_state Failed status) in
        let supplementaryResult :=
          {| isValid := false; hasConflict := false; conflictingVerifiers := [];
             conflictType := None; needsManualReview := false; resolvedBy := None;
             details := details validationResult |} in
        let status :=
          Task.updInfo (Task.set_supplementaryResult (Some supplementaryResult)) status in
        setStatus taskId status n
      else
      let proof :=
        match Proof.id proof with
        | Some i => if JS.truthy i then proof
                    else Proof.withId proof ("supplementary-" +:+ taskId +:+ "-" +:+ pretty now)
        | None => Proof.withId proof ("supplementary-" +:+ taskId +:+ "-" +:+ pretty now)
        end in
      let proofId := default "" (Proof.id proof) in
      let n := storeProof taskId proof n in
      let status := Task.set_proofCount (S (Task.proofCount status)) status in
      let status :=
        Task.set_verifierIds (Task.verifierIds status ++ [Proof.verifierId proof])%list status in
      let status := Task.set_updatedAt now status in
      let status :=
        Task.set_supplementaryVerifierIds
          (Some (default [] (Task.supplementaryVerifierIds status)
                   ++ [Proof.verifierId proof])%list) status in
      let conflictType :=
        default structural
          (Task.validationInfo status ≫= Task.conflictType) in
      let initialResult :=
        {| isValid := false; hasConflict := true; conflictingVerifiers := [];
           conflictType := Some conflictType; needsManualReview := false;
           resolvedBy := None;
           details := Task.validationInfo status ≫= Task.conflictDetails |} in
      let originalProofs := getProofsForTask taskId n in
      let resolvedResult :=
        Validator.resolveWithSupplementaryProof originalProofs proof initialResult in
      let status := Task.updInfo (Task.set_resolvedResult (Some resolvedResult)) status in
      if isValid resolvedResult then
        let status := Task.set_state Validated status in
        let n := setStatus taskId status n in
        if isLeader n then
          match getProofsForTask taskId n with
          | first :: _ =>
              let consensusData := Proof.withSupplementaryInfo first resolvedResult in
              let n := set_pendingSupplementaryConsensus
                         (<[taskId := consensusData]> (pendingSupplementaryConsensus n)) n in
              let readyMessage :=
                {| Supp.type := SupplementaryReady; Supp.taskId := taskId;
                   Supp.supplementaryProofId := proofId; Supp.nodeId := nodeId n;
                   Supp.timestamp := now;
                   Supp.signature :=
                     sign (SignSupplementary SupplementaryReady taskId proofId now)
                          "private_key" |} in
              let n := send (BroadcastSupplementaryReady readyMessage) n in
              set_supplementaryReadyStatus
                (<[taskId := default ∅ (supplementaryReadyStatus n !! taskId)
                               ∪ {[ nodeId n ]}]> (supplementaryReadyStatus n)) n
          | [] => n
          end
        else
          match pendingFinalPrePrepareMessages n !! taskId with
          | Some pendingFinalPrePrepare =>
              let n := set_pendingFinalPrePrepareMessages
                         (delete taskId (pendingFinalPrePrepareMessages n)) n in
              let '(n, response) := processPrePrepareMessage now pendingFinalPrePrepare n in
              match response with
              | Some response =>
                  let n := send (Broadcast response) n in
                  let '(n, commitMsg) := engineHandlePrepare response n in
                  match commitMsg with
                  | Some commitMsg =>
                      engineHandleCommit now commitMsg (send (Broadcast commitMsg) n)
                  | None => n
                  end
              | None => n
              end
          | None =>
              send (SendSupplementaryAck "leader"
                      (ackMessage now (nodeId n) taskId proofId)) n
          end
      else if needsManualReview resolvedResult then
        setStatus taskId (Task.set_state NeedsManualReview status) n
      else
        setStatus taskId (Task.set_state Failed status) n
  end.

End Defs.
End Node.
Abbreviation Node := Node.Node.

(* ===================================================================== *)
(** ** Runs of a node                                                      *)
(* ===================================================================== *)

(** The entry points through which the outside reaches a node: the two HTTP
    routes, the two transport callbacks and the supplementary timer.  Each
    carries the reading of the clock at which it runs. *)
Inductive Op :=
  | OpProof (now : Z) (proof : QoSProof)
  | OpSupplementaryProof (now : Z) (taskId : string) (proof : QoSProof)
  | OpMessage (now : Z) (message : PBFTMessage)
  | OpSupplementaryMessage (now : Z) (message : SupplementaryMessage)
  | OpTimeout (now : Z) (taskId : string).

Section Runs.
Context `{Primitives}.

Definition step (op : Op) (n : Node) : Node :=
  match op with
  | OpProof now proof => Node.handleQoSProof now proof n
  | OpSupplementaryProof now taskId proof => Node.handleSupplementaryProof now taskId proof n
  | OpMessage now message => Node.onMessageReceived now message n
  | OpSupplementaryMessage now message => Node.handleSupplementaryMessage now message n
  | OpTimeout now taskId => Node.checkSupplementaryTimeout now taskId n
  end.

Definition run (ops : list Op) (n : Node) : Node := fold_left (fun n op => step op n) ops n.


(** [n] has the PrePrepare buffer and the stored proofs of [n0] *)
Definition keeps (n0 n : Node) : Prop :=
  Node.pendingPrePrepareMessages n = Node.pendingPrePrepareMessages n0
  /\ Node.taskProofs n = Node.taskProofs n0.


End Runs.

(* ===================================================================== *)
(** ** A reference instance of the primitives                              *)
(* ===================================================================== *)

(** Decimal literals without sign and exponent are enough for the GOP scores
    of the examples; the digest is a rendering of the identifying fields. *)
Module Reference.

Definition digit (c : ascii) : option Z :=
  let d := Z.of_nat (nat_of_ascii c) - 48 in
  if bool_decide (0 <= d <= 9) then Some d else None.

(** the digits at the head of [s]: their value, their number, the rest *)
Fixpoint digits (s : string) (acc : Z) (count : nat) : Z * nat * string :=
  match s with
  | EmptyString => (acc, count, s)
  | String c s' =>
      match digit c with
      | Some d => digits s' (10 * acc + d) (S count)
      | None => (acc, count, s)
      end
  end.

Definition parseDecimal (s : string) : JS.num :=
  let '(whole, n1, rest) := digits s 0 0 in
  match rest with
  | String "."%char rest' =>
      let '(frac, n2, _) := digits rest' 0 0 in
      if bool_decide (n1 + n2 = 0)%nat then None
      else Some (Q2Qc (inject_Z whole + (frac # Z.to_pos (10 ^ Z.of_nat n2)))%Q)
  | _ => if bool_decide (n1 = 0%nat) then None else Some (Q2Qc (inject_Z whole))
  end.

Definition digestOf (p : QoSProof) : string :=
  "sha256:" +:+ Proof.taskId p +:+ "/" +:+ Proof.verifierId p +:+ "/"
    +:+ Spec.codec (Proof.mediaSpecs p).

Definition signWith (d : SignedData) (privateKey : string) : string :=
  "sig_" +:+ match d with
             | SignPBFT _ _ _ _ digest => digest
             | SignSupplementary _ taskId _ _ => taskId
             end +:+ "_" +:+ String.substring 0 8 privateKey.

Definition primitives : Primitives :=
  {| parseFloat := parseDecimal; calculateHash := digestOf; sign := signWith |}.

End Reference.


(* ===================================================================== *)
(** ** Sample data                                                         *)
(* ===================================================================== *)

(** The proofs of the repository's tests: task [task-A], H.264 at 1920x1080
    with audio, one GOP score, audio score 92; the verifier, codec, bitrate
    and video score vary. *)
Module Sample.

Definition now : Z := 1700000000000.

Definition proof (verifier codec : string) (bitrate score : Z) : QoSProof :=
  {| Proof.id := None; Proof.taskId := "task-A"; Proof.verifierId := verifier;
     Proof.timestamp := now - 1000;
     Proof.mediaSpecs :=
       {| Spec.codec := codec; Spec.width := 1920; Spec.height := 1080;
          Spec.bitrate := Some (Q2Qc (inject_Z bitrate)); Spec.hasAudio := true |};
     Proof.videoQualityData :=
       {| overallScore := Q2Qc (inject_Z score); gopScores := [("0", "86.2")] |};
     Proof.audioQualityData := Some {| audioOverallScore := Q2Qc 92 |};
     Proof.signature := "sig-" +:+ verifier;
     Proof.supplementaryInfo := None |}.

(** the same with the GOP scores given *)
Definition withGops (p : QoSProof) (gops : list (string * string)) : QoSProof :=
  {| Proof.id := Proof.id p; Proof.taskId := Proof.taskId p;
     Proof.verifierId := Proof.verifierId p; Proof.timestamp := Proof.timestamp p;
     Proof.mediaSpecs := Proof.mediaSpecs p;
     Proof.videoQualityData :=
       {| overallScore := overallScore (Proof.videoQualityData p); gopScores := gops |};
     Proof.audioQualityData := Proof.audioQualityData p;
     Proof.signature := Proof.signature p;
     Proof.supplementaryInfo := Proof.supplementaryInfo p |}.

Definition v1 : QoSProof := proof "v1" "H.264" 5000 85.
Definition v2 : QoSProof := proof "v2" "H.264" 5000 85.
Definition v2_h265 : QoSProof := proof "v2" "H.265" 5000 85.
Definition v3 : QoSProof := proof "v3" "H.264" 5000 85.

(** the record of a task that waits for its supplementary proof after a
    conflict between [v1] and [v2] *)
Definition awaiting (info : option Task.ValidationInfo) : TaskStatus :=
  {| Task.taskId := "task-A"; Task.state := AwaitingSupplementary;
     Task.proofCount := 2; Task.verifierIds := ["v1"; "v2"];
     Task.createdAt := now - 500; Task.updatedAt := now - 100;
     Task.supplementaryVerifierIds := None; Task.validationInfo := info;
     Task.consensusTimestamp := None |}.

(** what the leader recorded about that conflict *)
Definition codecConflict : Task.ValidationInfo :=
  {| Task.conflictType := Some structural;
     Task.conflictDetails :=
       Some [("reason", JV (VStr "编码格式不一致"));
             ("codecs", JArr [VStr "H.264"; VStr "H.265"])];
     Task.resolvedResult := None;
     Task.supplementaryRequestTime := Some (now - 100);
     Task.supplementaryRequested := true; Task.timeoutReason := None;
     Task.supplementaryResult := None; Task.errorMessage := None |}.

(** a node of a committee of [totalNodes] that holds the two conflicting
    proofs of [task-A] and the given record *)
Definition holding `{Primitives} (nodeId : string) (isLeader : bool) (totalNodes : Z)
           (status : TaskStatus) : Node :=
  Node.set_taskProofs {[ "task-A" := [v1; v2_h265] ]}
    (Node.set_taskStatuses {[ "task-A" := status ]}
       (Node.new nodeId isLeader totalNodes)).

(** the leader of a committee of seven after it has resolved the conflict
    with a supplementary proof and one follower has acknowledged *)
Definition leaderOfSeven `{Primitives} : Node :=
  Node.set_supplementaryReadyStatus {[ "task-A" := {[ "leader"; "f1" ]} ]}
    (Node.set_pendingSupplementaryConsensus {[ "task-A" := v1 ]}
       (holding "leader" true 7 (Task.set_state Validated (awaiting (Some codecConflict))))).

Definition ackFrom (sender : string) : SupplementaryMessage :=
  {| Supp.type := SupplementaryAck; Supp.taskId := "task-A";
     Supp.supplementaryProofId := "supplementary-task-A-1"; Supp.nodeId := sender;
     Supp.timestamp := now; Supp.signature := "sig" |}.

(** four proofs that differ in bitrate only: 95, 95, 105, 105 *)
Definition spread : list QoSProof :=
  [proof "v1" "H.264" 95 85; proof "v2" "H.264" 95 85;
   proof "v3" "H.264" 105 85; proof "v4" "H.264" 105 85].

(** a supplementary proof whose score is out of range *)
Definition outOfRange : QoSProof := proof "v3" "H.264" 5000 150.

(** the PrePrepare of the leader for [task-A], first sequence of view 0 *)
Definition prePrepare `{Primitives} : PBFTMessage :=
  {| Msg.type := PrePrepare; Msg.consensusType := Normal; Msg.viewNumber := 0;
     Msg.sequenceNumber := 1; Msg.nodeId := "leader"; Msg.taskId := "task-A";
     Msg.data := Some v1; Msg.digest := Some (calculateHash v1); Msg.signature := "sig" |}.

(** a Prepare for that sequence with a digest of the sender's choosing *)
Definition prepareFrom (sender digest : string) : PBFTMessage :=
  {| Msg.type := Prepare; Msg.consensusType := Normal; Msg.viewNumber := 0;
     Msg.sequenceNumber := 1; Msg.nodeId := sender; Msg.taskId := "task-A";
     Msg.data := None; Msg.digest := Some digest; Msg.signature := "sig" |}.

(** a follower of a committee of four that has accepted the PrePrepare and
    holds its own Prepare and the leader's *)
Definition preparedByTwo `{Primitives} : Engine :=
  let e := (PBFT.handlePrePrepare prePrepare (PBFT.new "node2" false 4 None)).1 in
  let e := (PBFT.handlePrepare (prepareFrom "node2" (calculateHash v1)) e).1 in
  (PBFT.handlePrepare (prepareFrom "leader" (calculateHash v1)) e).1.

(** a Commit for that sequence *)
Definition commitFrom (sender digest : string) : PBFTMessage :=
  {| Msg.type := Commit; Msg.consensusType := Normal; Msg.viewNumber := 0;
     Msg.sequenceNumber := 1; Msg.nodeId := sender; Msg.taskId := "task-A";
     Msg.data := None; Msg.digest := Some digest; Msg.signature := "sig" |}.

(** that follower after the third Prepare and the Commits of the leader and
    of a third node: the round of sequence 1 is over *)
Definition completedOne `{Primitives} : Engine :=
  let e := (PBFT.handlePrepare (prepareFrom "node3" (calculateHash v1)) preparedByTwo).1 in
  let e := PBFT.afterCommit (PBFT.handleCommit (commitFrom "leader" (calculateHash v1)) e) in
  PBFT.afterCommit (PBFT.handleCommit (commitFrom "node3" (calculateHash v1)) e).

End Sample.


(* ===================================================================== *)
(** ** The words of the specification                                      *)
(* ===================================================================== *)

(** Notions that the specification uses and the program does not define as
    such; the properties below compare the program with them. *)
Module Words.




End Words.


(* ===================================================================== *)
(** ** Notions for the further properties                                  *)
(* ===================================================================== *)

(** *** The engine *)



(** [e'] is the engine [e] later on: same view, node and threshold, and
    no completed sequence forgotten *)
Definition sameIdentity (e e' : Engine) : Prop :=
  PBFT.viewNumber e' = PBFT.viewNumber e
  /\ PBFT.nodeId e' = PBFT.nodeId e
  /\ PBFT.isLeader e' = PBFT.isLeader e
  /\ PBFT.consensusThreshold e' = PBFT.consensusThreshold e
  /\ PBFT.completedSequences e ⊆ PBFT.completedSequences e'.

(** the engine that [handleCommit] leaves, before the callback runs *)
Definition resultEngine (r : PBFT.CommitResult) : Engine :=
  match r with PBFT.Done e => e | PBFT.Reached e _ => e end.

(** *** The validator *)

(** how often [v] is among [values] *)
Definition occurrences (v : Value) (values : list Value) : nat :=
  length (filter (fun w => w = v) values).

(** the counts [valueCounts] holds after the values [seen] *)
Definition counts (seen : list Value) (valueCounts : list (Value * nat)) : Prop :=
  NoDup valueCounts.*1
  /\ forall v c, (v, c) ∈ valueCounts <-> c = occurrences v seen /\ (0 < c)%nat.

(** no closing parenthesis in [s] *)
Fixpoint noClose (s : string) : bool :=
  match s with
  | EmptyString => true
  | String c s' => negb (Ascii.eqb c ")"%char) && noClose s'
  end.

(** *** The node *)

(** the identities a task record counts: who sent proofs and how many *)
Definition sameIds (st st' : TaskStatus) : Prop :=
  Task.verifierIds st' = Task.verifierIds st
  /\ Task.proofCount st' = Task.proofCount st
  /\ Task.supplementaryVerifierIds st' = Task.supplementaryVerifierIds st.

(** a record made from the stored proofs of its task *)
Definition madeFrom (proofs : list QoSProof) (st : TaskStatus) : Prop :=
  Task.verifierIds st = Proof.verifierId <$> proofs
  /\ Task.proofCount st = length proofs
  /\ (2 <= length proofs)%nat
  /\ Task.supplementaryVerifierIds st = None.

(** [n] stores the proofs of [n0]; the records of [n0] are there with their
    identities, and a record [n0] does not have is missing or made from the
    stored proofs *)
Definition idsKept (n0 n : Node) : Prop :=
  Node.taskProofs n = Node.taskProofs n0
  /\ forall taskId,
       match Node.taskStatuses n0 !! taskId with
       | Some st0 => exists st, Node.taskStatuses n !! taskId = Some st /\ sameIds st0 st
       | None =>
           Node.taskStatuses n !! taskId = None
           \/ exists st, Node.taskStatuses n !! taskId = Some st
                         /\ madeFrom (default [] (Node.taskProofs n0 !! taskId)) st
       end.

(** every record counts as many proofs as it lists verifiers *)
Definition counted (n : Node) : Prop :=
  forall taskId st,
    Node.taskStatuses n !! taskId = Some st ->
    Task.proofCount st = length (Task.verifierIds st).

(** no record lists a verifier twice, and a task without a record has no
    stored proof *)
Definition distinctIds (n : Node) : Prop :=
  forall taskId,
    match Node.taskStatuses n !! taskId with
    | Some st => NoDup (Task.verifierIds st)
    | None => Node.getProofsForTask taskId n = []
    end.

(** the entry points but the one that takes a supplementary proof *)
Definition ordinary (op : Op) : bool :=
  match op with OpSupplementaryProof _ _ _ => false | _ => true end.

(* ===================================================================== *)
(** ** utils/crypto.ts                                                     *)
(* ===================================================================== *)

Module Crypto.
Section Defs.
(** the data that is hashed, and the SHA-256 of its JSON text in
    hexadecimal, which [crypto.createHash] computes *)
Context {Data : Type} (calculateHash : Data -> string).

(** [`sig_${hash}_${privateKey.substring(0, 8)}`] *)
Definition sign (data : Data) (privateKey : string) : string :=
  let hash := calculateHash data in
  "sig_" +:+ hash +:+ "_" +:+ String.substring 0 8 privateKey.

(** The argument of [startsWith] is written between single quotes: it is
    the text itself, not a template. *)
Definition verifySignature (data : Data) (signature publicKey : string) : bool :=
  let hash := calculateHash data in
  let expectedSignature := "sig_" +:+ hash +:+ "_" +:+ String.substring 0 8 publicKey in
  JS.startsWith signature "sig_${hash.substring(0,20)}".

End Defs.
End Crypto.

(** a string of hexadecimal digits, as [digest('hex')] returns *)
Definition hexDigit (c : ascii) : bool :=
  existsb (Ascii.eqb c) (list_ascii_of_string "0123456789abcdef").

Fixpoint isHex (s : string) : bool :=
  match s with
  | EmptyString => true
  | String c s' => hexDigit c && isHex s'
  end.

(* ===================================================================== *)
(** ** network/ApiServer.ts                                                *)
(* ===================================================================== *)

Module Api.

(** [validateProof] on a request body that has the shape of a [QoSProof]:
    [mediaSpecs] and [videoQualityData] are there and the score is a
    number.  The result is the message of the rejection. *)
Definition validateProof (proof : QoSProof) : option string :=
  if negb (JS.truthy (Proof.taskId proof)) || negb (JS.truthy (Proof.verifierId proof))
  then Some "Missing required fields: taskId, verifierId"
  else if bool_decide (Proof.timestamp proof = 0) then Some "Invalid timestamp"
  else if negb (JS.truthy (Proof.signature proof)) then Some "Missing signature"
  else None.

End Api.

(* ===================================================================== *)
(** ** service/MetricsCollector.ts                                         *)
(* ===================================================================== *)

(** [sort] of an array with one more element at its end: the element goes
    behind the ones that are not after it *)
Fixpoint insertLast {A : Type} (le : A -> A -> bool) (x : A) (l : list A) : list A :=
  match l with
  | [] => [x]
  | y :: l' => if le y x then y :: insertLast le x l' else x :: l
  end.

Module Metrics.

Inductive EventType :=
  | SYSTEM_START | SYSTEM_STOP
  | TASK_CREATED | TASK_STARTED | TASK_COMPLETED | TASK_FAILED
  | PROOF_RECEIVED | PROOF_VALIDATED | PROOF_REJECTED | PROOF_CONFLICT
  | PREPREPARE_SENT | PREPREPARE_RECEIVED | PREPARE_SENT | PREPARE_RECEIVED
  | COMMIT_SENT | COMMIT_RECEIVED
  | CONSENSUS_STARTED | CONSENSUS_REACH_NORMAL | CONSENSUS_REACH_CONFLICT
  | CONSENSUS_REACH_FINAL | CONSENSUS_START_FINAL | CONSENSUS_FAILED
  | CONFLICT_DETECTED | SUPPLEMENTARY_PROOF_REQUESTED | SUPPLEMENTARY_PROOF_RECEIVED.

#[export] Instance EventType_eq_dec : EqDecision EventType.
Proof. solve_decision. Defined.

Section Defs.
(** [metadata], [validationResult] and [ConsensusResult] are objects that
    the collector stores and hands back *)
Context {Payload : Type}.

(** [BaseEventData] with the fields of its two extensions; a timestamp is
    a number of milliseconds *)
Record EventData := {
  id : option string;
  taskId : option string;
  nodeId : option string;
  timestamp : Z;
  eventType : EventType;
  metadata : option Payload;
  validationResult : option Payload;
  ConsensusResult : option Payload
}.

Record Collector := {
  enabled : bool;
  events : list EventData;
  taskEventsIndex : gmap string (list EventData);
  nodeEventsIndex : gmap string (list EventData);
  systemStartTime : Z
}.

Definition set_enabled (x : bool) (c : Collector) : Collector :=
  {| enabled := x; events := events c; taskEventsIndex := taskEventsIndex c;
     nodeEventsIndex := nodeEventsIndex c; systemStartTime := systemStartTime c |}.

Definition set_taskEventsIndex (x : gmap string (list EventData)) (c : Collector) : Collector :=
  {| enabled := enabled c; events := events c; taskEventsIndex := x;
     nodeEventsIndex := nodeEventsIndex c; systemStartTime := systemStartTime c |}.

(** an optional string in a condition: [undefined] and the empty string
    are falsy *)
Definition present (s : option string) : bool := from_option JS.truthy false s.

(** [{ ...event, id: event.id || uuidv4(), timestamp: event.timestamp || Date.now() }];
    [uuid] and [now] are what the two calls return *)
Definition withId (now : Z) (uuid : string) (event : EventData) : EventData :=
  {| id := Some (if present (id event) then default uuid (id event) else uuid);
     taskId := taskId event;
     nodeId := nodeId event;
     timestamp := if bool_decide (timestamp event = 0) then now else timestamp event;
     eventType := eventType event;
     metadata := metadata event;
     validationResult := validationResult event;
     ConsensusResult := ConsensusResult event |}.

(** [if (!index.has(key)) index.set(key, []); index.get(key)!.push(event)] *)
Definition push (key : string) (event : EventData)
    (index : gmap string (list EventData)) : gmap string (list EventData) :=
  <[key := (default [] (index !! key) ++ [event])%list]> index.

Definition pushIf (key : option string) (event : EventData)
    (index : gmap string (list EventData)) : gmap string (list EventData) :=
  match key with
  | Some k => if JS.truthy k then push k event index else index
  | None => index
  end.

Definition recordEvent (now : Z) (uuid : string) (event : EventData)
    (c : Collector) : Collector :=
  if negb (enabled c) then c
  else
    let eventWithId := withId now uuid event in
    {| enabled := enabled c;
       events := (events c ++ [eventWithId])%list;
       taskEventsIndex := pushIf (taskId event) eventWithId (taskEventsIndex c);
       nodeEventsIndex := pushIf (nodeId event) eventWithId (nodeEventsIndex c);
       systemStartTime := systemStartTime c |}.

(** an object is truthy: the test is on the field being there *)
Definition recordValidationEvent (now : Z) (uuid : string) (event : EventData)
    (c : Collector) : Collector :=
  if negb (bool_decide (is_Some (validationResult event))) then c
  else recordEvent now uuid event c.

Definition recordConsensusEvent (now : Z) (uuid : string) (event : EventData)
    (c : Collector) : Collector :=
  if negb (bool_decide (is_Some (ConsensusResult event))) then c
  else recordEvent now uuid event c.

Definition systemEvent (time : Z) (meta : Payload) : EventData :=
  {| id := None; taskId := None; nodeId := None; timestamp := time;
     eventType := SYSTEM_START; metadata := Some meta;
     validationResult := None; ConsensusResult := None |}.

(** the constructor: [start] is the time it reads, [version] the object
    [{ version: '1.0.0' }] *)
Definition new (enabled : bool) (start now : Z) (uuid : string) (version : Payload)
    : Collector :=
  recordEvent now uuid (systemEvent start version)
    {| enabled := enabled; events := []; taskEventsIndex := ∅;
       nodeEventsIndex := ∅; systemStartTime := start |}.

Definition enable (c : Collector) : Collector := set_enabled true c.
Definition disable (c : Collector) : Collector := set_enabled false c.
Definition isEnabled (c : Collector) : bool := enabled c.

(** the comparator [(a, b) => a.timestamp - b.timestamp] does not put [b]
    before [a] when [a.timestamp <= b.timestamp] *)
Definition byTimestamp (a b : EventData) : bool :=
  bool_decide (timestamp a <= timestamp b).

(** What [getTaskMetrics] does to the collector: it sorts the array of the
    index itself, not a copy. *)
Definition getTaskMetrics_sorts (task : string) (c : Collector) : Collector :=
  match taskEventsIndex c !! task with
  | None => c
  | Some [] => c
  | Some indexed =>
      set_taskEventsIndex (<[task := JS.sort byTimestamp indexed]> (taskEventsIndex c)) c
  end.

(** [getAllTaskMetrics], and [getAllMetrics] through it, ask for the
    metrics of every key of the index. *)
Definition getAllTaskMetrics_sorts (c : Collector) : Collector :=
  set_taskEventsIndex (JS.sort byTimestamp <$> taskEventsIndex c) c.

Record SystemMetrics := {
  startTime : Z;
  uptime : Z;
  taskCount : nat;
  successCount : nat;
  failureCount : nat;
  eventCount : nat
}.

(** the two sets that the [forEach] of [getSystemMetrics] fills *)
Definition tallyFinished (acc : gset string * gset string) (event : EventData)
    : gset string * gset string :=
  let '(completedTasks, failedTasks) := acc in
  match taskId event with
  | Some task =>
      if negb (JS.truthy task) then acc
      else if bool_decide (eventType event = TASK_COMPLETED)
           then ({[task]} ∪ completedTasks, failedTasks)
      else if bool_decide (eventType event = TASK_FAILED)
           then (completedTasks, {[task]} ∪ failedTasks)
      else acc
  | None => acc
  end.

Definition getSystemMetrics (now : Z) (c : Collector) : SystemMetrics :=
  let taskEvents := filter (fun e => present (taskId e) = true) (events c) in
  let taskIds : gset string := list_to_set (omap taskId taskEvents) in
  let '(completedTasks, failedTasks) := fold_left tallyFinished (events c) (∅, ∅) in
  {| startTime := systemStartTime c;
     uptime := now - systemStartTime c;
     taskCount := size taskIds;
     successCount := size completedTasks;
     failureCount := size failedTasks;
     eventCount := length (events c) |}.

(** [event.taskId !== taskId] *)
Definition otherTask (task : string) (event : EventData) : Prop :=
  taskId event <> Some task.

#[export] Instance otherTask_dec task event : Decision (otherTask task event).
Proof. unfold otherTask. apply _. Defined.

Definition clearTaskMetrics (task : string) (c : Collector) : bool * Collector :=
  match taskEventsIndex c !! task with
  | None => (false, c)
  | Some _ =>
      (true,
       {| enabled := enabled c;
          events := filter (otherTask task) (events c);
          taskEventsIndex := delete task (taskEventsIndex c);
          nodeEventsIndex := filter (otherTask task) <$> nodeEventsIndex c;
          systemStartTime := systemStartTime c |})
  end.

(** [start] is the time read, [reset] the object [{ reset: true }] *)
Definition clearAllMetrics (start now : Z) (uuid : string) (reset : Payload)
    (c : Collector) : Collector :=
  recordEvent now uuid (systemEvent start reset)
    {| enabled := enabled c; events := []; taskEventsIndex := ∅;
       nodeEventsIndex := ∅; systemStartTime := start |}.

Definition getTaskEvents (task : string) (c : Collector) : list EventData :=
  JS.sort byTimestamp (default [] (taskEventsIndex c !! task)).

Definition getNodeEvents (node : string) (c : Collector) : list EventData :=
  JS.sort byTimestamp (default [] (nodeEventsIndex c !! node)).

Definition getEventsByType (type : EventType) (c : Collector) : list EventData :=
  JS.sort byTimestamp (filter (fun event => eventType event = type) (events c)).

Definition getAllEvents (c : Collector) : list EventData :=
  JS.sort byTimestamp (events c).

Definition queryEventsByTimeRange (startTime endTime : Z) (c : Collector)
    : list EventData :=
  JS.sort byTimestamp
    (filter (fun event => startTime <= timestamp event /\ timestamp event <= endTime)
            (events c)).

(** the calls that change a collector *)
Inductive Call :=
  | Enable
  | Disable
  | RecordEvent (now : Z) (uuid : string) (event : EventData)
  | RecordValidationEvent (now : Z) (uuid : string) (event : EventData)
  | RecordConsensusEvent (now : Z) (uuid : string) (event : EventData)
  | GetTaskMetrics (task : string)
  | GetAllTaskMetrics
  | ClearTaskMetrics (task : string)
  | ClearAllMetrics (start now : Z) (uuid : string) (reset : Payload).

Definition call (c : Collector) (k : Call) : Collector :=
  match k with
  | Enable => enable c
  | Disable => disable c
  | RecordEvent now uuid event => recordEvent now uuid event c
  | RecordValidationEvent now uuid event => recordValidationEvent now uuid event c
  | RecordConsensusEvent now uuid event => recordConsensusEvent now uuid event c
  | GetTaskMetrics task => getTaskMetrics_sorts task c
  | GetAllTaskMetrics => getAllTaskMetrics_sorts c
  | ClearTaskMetrics task => snd (clearTaskMetrics task c)
  | ClearAllMetrics start now uuid reset => clearAllMetrics start now uuid reset c
  end.

Definition calls (ks : list Call) (c : Collector) : Collector := fold_left call ks c.

(** an index holds, for each key that is not empty, the events of the key:
    sorted by time, the array of the index and the events of the key are
    one list *)
Definition agree (key : EventData -> option string)
    (index : gmap string (list EventData))
    (events : list EventData) : Prop :=
  forall k : string, k <> "" ->
    JS.sort byTimestamp (default [] (index !! k))
    = JS.sort byTimestamp (filter (fun e => key e = Some k) events).

Definition indexed (c : Collector) : Prop :=
  agree taskId (taskEventsIndex c) (events c)
  /\ agree nodeId (nodeEventsIndex c) (events c).

End Defs.

Arguments EventData : clear implicits.
Arguments Collector : clear implicits.
Arguments Call : clear implicits.

End Metrics.


(* ===================================================================== *)
(** ** More sample data                                                    *)
(* ===================================================================== *)

Module MoreSamples.

(** a Prepare of view 1 *)
Definition prepareOfNextView : PBFTMessage :=
  {| Msg.type := Prepare; Msg.consensusType := Normal; Msg.viewNumber := 1;
     Msg.sequenceNumber := 1; Msg.nodeId := "node3"; Msg.taskId := "task-A";
     Msg.data := None; Msg.digest := Some "digest"; Msg.signature := "sig" |}.

(** the follower of [Sample.preparedByTwo] after the third Prepare and the
    Commit of the leader: one Commit short of the threshold *)
Definition awaitingLastCommit `{Primitives} : Engine :=
  let e := (PBFT.handlePrepare (Sample.prepareFrom "node3" (calculateHash Sample.v1))
              Sample.preparedByTwo).1 in
  PBFT.afterCommit (PBFT.handleCommit (Sample.commitFrom "leader" (calculateHash Sample.v1)) e).

(** the callback a result of [handleCommit] asks for *)
Definition callbackOf (r : PBFT.CommitResult) : option (QoSProof * ConsensusType) :=
  match r with PBFT.Done _ => None | PBFT.Reached _ callback => callback end.



(** the result of deep validation on the two proofs with different codecs *)
Definition codecVerdict `{Primitives} : ValidationResult :=
  Validator.deepValidate [Sample.v1; Sample.v2_h265].

(** the result of deep validation on the bitrates 95, 95 and 105 *)
Definition bitrateVerdict `{Primitives} : ValidationResult :=
  Validator.deepValidate (take 3 Sample.spread).

(** a digest of four hexadecimal digits for every text *)
Definition shortHash (data : string) : string := "0a1f".

(** an event of [task-A] at node [node2] *)
Definition event (type : Metrics.EventType) (time : Z) : Metrics.EventData string :=
  {| Metrics.id := None; Metrics.taskId := Some "task-A"; Metrics.nodeId := Some "node2";
     Metrics.timestamp := time; Metrics.eventType := type; Metrics.metadata := None;
     Metrics.validationResult := None; Metrics.ConsensusResult := None |}.

(** what a node does to the collector in a short life of [task-A] *)
Definition calls : list (Metrics.Call string) :=
  [Metrics.RecordEvent 30 "id-1" (event Metrics.PROOF_RECEIVED 20);
   Metrics.RecordEvent 30 "id-2" (event Metrics.TASK_CREATED 10);
   Metrics.GetTaskMetrics "task-A";
   Metrics.RecordEvent 40 "id-3" (event Metrics.TASK_COMPLETED 0);
   Metrics.ClearTaskMetrics "task-B"].

End MoreSamples.


(* ===================================================================== *)
(** ** Properties of the PBFT engine                                       *)
(* ===================================================================== *)

Section EngineProperties.
Context `{Primitives}.

(** A Prepare for a sequence number that has completed leaves the engine as
    it is. *)
Lemma handlePrepare_completed (message : PBFTMessage) (e : Engine) :
  Msg.sequenceNumber message ∈ PBFT.completedSequences e ->
  PBFT.handlePrepare message e = (e, None).
Proof.
  intros Hdone. unfold PBFT.handlePrepare.
  destruct (negb (PBFT.validateMessage message e)); [done|].
  by rewrite bool_decide_eq_true_2.
Qed.

(** So does a Commit: no callback, no reset, the same engine. *)
Lemma handleCommit_completed (message : PBFTMessage) (e : Engine) :
  Msg.sequenceNumber message ∈ PBFT.completedSequences e ->
  PBFT.handleCommit message e = PBFT.Done e.
Proof.
  intros Hdone. unfold PBFT.handleCommit.
  destruct (negb (PBFT.validateMessage message e)); [done|].
  by rewrite bool_decide_eq_true_2.
Qed.

(** [handlePrePrepare] never looks at [completedSequences]: two engines that
    differ only there answer alike. *)
Lemma handlePrePrepare_ignores_completed (message : PBFTMessage) (e : Engine)
      (done : gset Z) :
  PBFT.handlePrePrepare message (PBFT.set_completedSequences done e)
  = (PBFT.set_completedSequences done (PBFT.handlePrePrepare message e).1,
     (PBFT.handlePrePrepare message e).2).
Proof.
  unfold PBFT.handlePrePrepare, PBFT.validateMessage; cbn.
  repeat (case_match; cbn; try done).
Qed.

(** C2, at a failing input.  A follower that has completed sequence 1 of
    view 0 and is idle again receives the PrePrepare of that sequence once
    more.  [handlePrePrepare] has no test of [completedSequences], unlike
    [handlePrepare] and [handleCommit]: the engine adopts the proposal and
    the digest, enters [PrePrepared] and stores a Prepare of its own. *)
Theorem C2_preprepare_for_completed_sequence_mutates :
  let e := PBFT.set_completedSequences {[ 1 ]}
             (PBFT.set_sequenceNumber 1 (PBFT.new "node2" false 4 None)) in
  let message :=
    {| Msg.type := PrePrepare; Msg.consensusType := Normal; Msg.viewNumber := 0;
       Msg.sequenceNumber := 1; Msg.nodeId := "leader"; Msg.taskId := "task-A";
       Msg.data := Some Sample.v1; Msg.digest := Some (calculateHash Sample.v1);
       Msg.signature := "sig" |} in
  let e' := (PBFT.handlePrePrepare message e).1 in
  Msg.sequenceNumber message ∈ PBFT.completedSequences e
  /\ PBFT.state e = Idle /\ PBFT.currentProposal e = None
  /\ PBFT.prepareMessages e !! (0, 1) = None
  /\ PBFT.state e' = PrePrepared
  /\ PBFT.currentProposal e' = Some Sample.v1
  /\ PBFT.currentDigest e' = calculateHash Sample.v1
  /\ length (PBFT.listAt (PBFT.prepareMessages e') (0, 1)) = 1%nat.
Proof.
  cbn zeta. unfold PBFT.handlePrePrepare. cbn [Msg.data Msg.digest].
  rewrite (bool_decide_eq_true_2 (Some (calculateHash Sample.v1) = _)) by done.
  repeat split; by vm_compute.
Qed.

(** When nothing is drained, the list that [handlePrepare] tests for a
    duplicate is the stored one. *)
Lemma prepareListAtCheck_stored (message : PBFTMessage) (e : Engine) :
  Msg.nodeId message ≠ PBFT.nodeId e ->
  PBFT.prepareListAtCheck message e
  = PBFT.listAt (PBFT.prepareMessages e) (PBFT.keyOf message).
Proof.
  intros Hother. unfold PBFT.prepareListAtCheck.
  destruct (String.eqb_spec (Msg.nodeId message) (PBFT.nodeId e)); done.
Qed.

(** C9.  A Prepare of the current view for a sequence that has not
    completed, handled in [PrePrepared], from a sender whom the duplicate
    test of [handlePrepare] does not find in the Prepare list of the
    message's key: the message is appended to that list and counted.  When
    the count reaches the threshold the engine becomes [Prepared], answers
    with a Commit that carries the engine's own digest and stores that
    Commit.  The digest of the message is never read: nothing is assumed
    about it. *)
Theorem C9_prepare_counts_whatever_its_digest (message : PBFTMessage) (e : Engine) :
  Msg.viewNumber message = PBFT.viewNumber e ->
  Msg.sequenceNumber message ∉ PBFT.completedSequences e ->
  PBFT.state e = PrePrepared ->
  existsb (PBFT.sameSender message) (PBFT.prepareListAtCheck message e) = false ->
  let key := PBFT.keyOf message in
  let msgs := (PBFT.prepareListAtCheck message e ++ [message])%list in
  let e' := (PBFT.handlePrepare message e).1 in
  let reply := (PBFT.handlePrepare message e).2 in
  PBFT.prepareMessages e' !! key = Some msgs
  /\ (PBFT.consensusThreshold e <= Z.of_nat (length msgs) ->
      PBFT.state e' = Prepared
      /\ exists commitMsg,
           reply = Some commitMsg
           /\ Msg.type commitMsg = Commit
           /\ Msg.digest commitMsg = Some (PBFT.currentDigest e)
           /\ commitMsg ∈ PBFT.listAt (PBFT.commitMessages e') key)
  /\ (Z.of_nat (length msgs) < PBFT.consensusThreshold e ->
      PBFT.state e' = PrePrepared /\ reply = None).
Proof.
  intros Hview Hseq Hstate Hnew key msgs.
  unfold PBFT.handlePrepare, PBFT.validateMessage.
  rewrite (bool_decide_eq_true_2 _ Hview), (bool_decide_eq_false_2 _ Hseq), Hstate.
  cbn [negb rank]. rewrite !bool_decide_eq_false_2 by lia.
  rewrite Hnew. fold key. fold msgs.
  set (e1 := if _ && _ then _ else e).
  assert (He1 : PBFT.state e1 = PrePrepared /\ PBFT.currentDigest e1 = PBFT.currentDigest e
                /\ PBFT.consensusThreshold e1 = PBFT.consensusThreshold e).
  { subst e1. by destruct (_ && _). }
  destruct He1 as (Hs1 & Hd1 & Ht1).
  cbn [PBFT.set_prepareMessages PBFT.consensusThreshold PBFT.state].
  rewrite Ht1, Hs1. rewrite (bool_decide_eq_true_2 (PrePrepared = PrePrepared)) by done.
  rewrite andb_true_r.
  case_bool_decide as Hcount; cbn.
  - split; [by rewrite lookup_insert_eq|]. split; [|lia].
    intros _. split; [done|]. eexists. split; [done|]. cbn.
    split; [done|]. split; [by rewrite Hd1|].
    unfold PBFT.listAt at 1. rewrite lookup_insert_eq. cbn. set_solver.
  - split; [by rewrite lookup_insert_eq|]. split; [lia|done].
Qed.

End EngineProperties.

(* ===================================================================== *)
(** ** Properties of the validator                                         *)
(* ===================================================================== *)

Section ValidatorProperties.
Context `{Primitives}.

(** *** sets of reported values *)

(** [new Set(values).size > 1] fails exactly when all values are the same *)
Lemma remove_dups_at_most_one {A} `{EqDecision A} (l : list A) :
  (length (remove_dups l) <= 1)%nat <-> (forall x y, x ∈ l -> y ∈ l -> x = y).
Proof.
  split.
  - intros Hlen x y Hx Hy.
    apply elem_of_remove_dups in Hx. apply elem_of_remove_dups in Hy.
    destruct (remove_dups l) as [|a [|b t]]; cbn in Hlen; [| |lia].
    + by apply elem_of_nil in Hx.
    + apply list_elem_of_singleton in Hx, Hy. congruence.
  - intros Hall.
    pose proof (NoDup_remove_dups l) as Hnd.
    destruct (remove_dups l) as [|a [|b t]] eqn:Hr; cbn; [lia|lia|].
    assert (a = b) as ->.
    { apply Hall; apply elem_of_remove_dups; rewrite Hr; set_solver. }
    apply NoDup_cons_1_1 in Hnd. set_solver.
Qed.

Lemma one_value_on_subset {A B} `{EqDecision B} (f : A -> B) (l l' : list A) :
  (length (remove_dups (f <$> l)) <= 1)%nat -> l' ⊆ l ->
  (length (remove_dups (f <$> l')) <= 1)%nat.
Proof.
  rewrite !remove_dups_at_most_one. intros Hall Hsub x y Hx Hy.
  apply list_elem_of_fmap in Hx as (a & -> & Ha), Hy as (b & -> & Hb).
  apply Hall; apply list_elem_of_fmap; eauto.
Qed.

(** *** the mean *)




(** *** the shape of the results of deep validation *)

(** the four outcomes of the media-specification check, in its order *)
Lemma validateMediaSpecsConsistency_cases (proofs : list QoSProof) :
  let r := Validator.validateMediaSpecsConsistency proofs in
  let specs := Proof.mediaSpecs <$> proofs in
  let bitrates : list JS.num := Spec.bitrate <$> specs in
  let avgBitrate := JS.divLen (JS.sum bitrates) (length bitrates) in
  let maxDeviation := JS.mul avgBitrate (Some (Q2Qc (5 # 100))) in
  let bitrateTest :=
    existsb (fun br => JS.gt (JS.abs (JS.sub br avgBitrate)) maxDeviation) bitrates in
  ((1 < length (remove_dups (Spec.codec <$> specs)))%nat
   /\ isValid r = false /\ hasConflict r = true
   /\ reasonOf (details r) = "编码格式不一致")
  \/ ((length (remove_dups (Spec.codec <$> specs)) <= 1)%nat
      /\ (1 < length (remove_dups (Validator.resolution <$> specs)))%nat
      /\ isValid r = false /\ hasConflict r = true
      /\ reasonOf (details r) = "分辨率不一致")
  \/ ((length (remove_dups (Spec.codec <$> specs)) <= 1)%nat
      /\ (length (remove_dups (Validator.resolution <$> specs)) <= 1)%nat
      /\ bitrateTest = true
      /\ isValid r = false /\ hasConflict r = true
      /\ reasonOf (details r) = "码率差异过大")
  \/ ((length (remove_dups (Spec.codec <$> specs)) <= 1)%nat
      /\ (length (remove_dups (Validator.resolution <$> specs)) <= 1)%nat
      /\ bitrateTest = false
      /\ (1 < length (remove_dups (Spec.hasAudio <$> specs)))%nat
      /\ isValid r = false /\ hasConflict r = true
      /\ reasonOf (details r) = "音频存在性不一致")
  \/ ((length (remove_dups (Spec.codec <$> specs)) <= 1)%nat
      /\ (length (remove_dups (Validator.resolution <$> specs)) <= 1)%nat
      /\ bitrateTest = false
      /\ (length (remove_dups (Spec.hasAudio <$> specs)) <= 1)%nat
      /\ r = Validator.valid).
Proof.
  cbn zeta. unfold Validator.validateMediaSpecsConsistency.
  case_bool_decide as Hc; [left; by repeat split|right].
  case_bool_decide as Hr; [left; repeat split; try done; lia|right].
  destruct (existsb _ _) eqn:Hb; [left; repeat split; try done; lia|right].
  case_bool_decide as Ha; [left|right]; repeat split; try done; lia.
Qed.

(** the video check fails on the overall score or on a common GOP only *)
Lemma validateVideoQualityConsistency_reason (proofs : list QoSProof) :
  let r := Validator.validateVideoQualityConsistency proofs in
  r = Validator.valid
  \/ (isValid r = false /\ hasConflict r = true
      /\ (reasonOf (details r) = "视频质量评分存在显著差异"
          \/ exists gopId, reasonOf (details r) = "特定GOP(" +:+ gopId +:+ ")评分不一致")).
Proof.
  cbn zeta. unfold Validator.validateVideoQualityConsistency.
  destruct (Validator.firstOutlier _ _ _) as [[i p]|].
  { right. repeat split; try done. by left. }
  destruct (existsb _ _); [|by left].
  destruct (Validator.firstGopConflict _ _) as [[gopId scores]|]; [|by left].
  right. repeat split; try done. right. by exists gopId.
Qed.

(** the audio check has three ways to fail *)
Lemma validateAudioConsistency_reason (proofs : list QoSProof) :
  let r := Validator.validateAudioConsistency proofs in
  r = Validator.valid
  \/ (isValid r = false /\ hasConflict r = true
      /\ (reasonOf (details r) = "音频存在性报告不一致"
          \/ reasonOf (details r) = "部分证明缺少音频质量数据"
          \/ reasonOf (details r) = "音频质量评分不一致")).
Proof.
  cbn zeta. unfold Validator.validateAudioConsistency.
  destruct proofs as [|first rest]; [by left|].
  destruct (Spec.hasAudio _); cbn [negb].
  - case_bool_decide; [right; repeat split; try done; tauto|].
    destruct (existsb _ _); [right; repeat split; try done; tauto|by left].
  - destruct (forallb _ _); cbn [negb]; [by left|].
    right; repeat split; try done; tauto.
Qed.

(** deep validation of two proofs or more is the first failing check, or
    the result that says that all checks passed *)
Lemma deepValidate_cases (proofs : list QoSProof) :
  (2 <= length proofs)%nat ->
  let r := Validator.deepValidate proofs in
  let spec := Validator.validateMediaSpecsConsistency proofs in
  let video := Validator.validateVideoQualityConsistency proofs in
  let audio := Validator.validateAudioConsistency proofs in
  (isValid spec = false /\ r = spec)
  \/ (isValid spec = true /\ isValid video = false /\ r = video)
  \/ (isValid spec = true /\ isValid video = true /\ isValid audio = false /\ r = audio)
  \/ (isValid spec = true /\ isValid video = true /\ isValid audio = true
      /\ isValid r = true /\ hasConflict r = false /\ reasonOf (details r) = "").
Proof.
  intros Hlen. cbn zeta. unfold Validator.deepValidate.
  rewrite bool_decide_eq_false_2 by lia.
  destruct (isValid (Validator.validateMediaSpecsConsistency proofs)); cbn [negb];
    [right|by left].
  destruct (isValid (Validator.validateVideoQualityConsistency proofs)); cbn [negb];
    [right|by left].
  destruct (isValid (Validator.validateAudioConsistency proofs)); cbn [negb];
    [right|by left].
  by repeat split.
Qed.

(** *** the bitrate check *)



(** *** deep validation of a part of a validated set *)

(** what a passed audio check says about each proof, given that all report
    the same [hasAudio] *)
Lemma validateAudioConsistency_valid_inv (proofs : list QoSProof) :
  (length (remove_dups (Spec.hasAudio <$> (Proof.mediaSpecs <$> proofs))) <= 1)%nat ->
  isValid (Validator.validateAudioConsistency proofs) = true ->
  (forall p, p ∈ proofs -> Spec.hasAudio (Proof.mediaSpecs p) = false)
  \/ (forall p, p ∈ proofs ->
        Spec.hasAudio (Proof.mediaSpecs p) = true
        /\ Proof.audioQualityData p <> None
        /\ forall q, q ∈ proofs -> Validator.audioScore p = Validator.audioScore q).
Proof.
  intros Hone Hvalid. rewrite remove_dups_at_most_one in Hone.
  assert (Hsame : forall p q, p ∈ proofs -> q ∈ proofs ->
            Spec.hasAudio (Proof.mediaSpecs p) = Spec.hasAudio (Proof.mediaSpecs q)).
  { intros p q Hp Hq. apply Hone; apply list_elem_of_fmap; eexists; (split; [done|]);
      apply list_elem_of_fmap; eauto. }
  unfold Validator.validateAudioConsistency in Hvalid.
  destruct proofs as [|first rest]; [left; intros p Hp; by apply elem_of_nil in Hp|].
  destruct (Spec.hasAudio (Proof.mediaSpecs first)) eqn:Hfirst; cbn [negb] in Hvalid.
  - right. case_bool_decide as Hmissing; [done|].
    destruct (existsb _ _) eqn:Hscores; [done|].
    assert (Hpresent : forall p, p ∈ first :: rest -> Proof.audioQualityData p <> None).
    { intros p Hp Hnone. apply Hmissing.
      assert (p ∈ filter (fun p => Proof.audioQualityData p = None) (first :: rest))
        as Hin by (by apply list_elem_of_filter).
      destruct (filter _ _); [by apply elem_of_nil in Hin|cbn; lia]. }
    assert (Hfirstscore : forall p, p ∈ first :: rest ->
              Validator.audioScore p = Validator.audioScore first).
    { intros p Hp. destruct (decide (Validator.audioScore p = Validator.audioScore first))
        as [|Hne]; [done|].
      assert (existsb (fun s => negb (bool_decide (s = Validator.audioScore first)))
                (Validator.audioScore <$> first :: rest) = true) as Hex; [|congruence].
      apply existsb_exists. exists (Validator.audioScore p). split.
      - apply list_elem_of_In, list_elem_of_fmap. eauto.
      - by rewrite bool_decide_eq_false_2. }
    intros p Hp. split; [|split].
    + rewrite <- Hfirst. apply Hsame; [done|first [by left | done]].
    + by apply Hpresent.
    + intros q Hq. by rewrite (Hfirstscore p Hp), (Hfirstscore q Hq).
  - left. intros p Hp. rewrite <- Hfirst. apply Hsame; [done|first [by left | done]].
Qed.

Lemma validateAudioConsistency_valid_intro (proofs : list QoSProof) :
  (forall p, p ∈ proofs -> Spec.hasAudio (Proof.mediaSpecs p) = false)
  \/ (forall p, p ∈ proofs ->
        Spec.hasAudio (Proof.mediaSpecs p) = true
        /\ Proof.audioQualityData p <> None
        /\ forall q, q ∈ proofs -> Validator.audioScore p = Validator.audioScore q) ->
  Validator.validateAudioConsistency proofs = Validator.valid.
Proof.
  intros Hcases. unfold Validator.validateAudioConsistency.
  destruct proofs as [|first rest]; [done|].
  destruct Hcases as [Hno|Hyes].
  - rewrite (Hno first) by set_solver. cbn [negb].
    assert (forallb (fun p => negb (Spec.hasAudio (Proof.mediaSpecs p))) (first :: rest)
            = true) as ->; [|done].
    apply forallb_forall. intros p Hp. apply list_elem_of_In in Hp. by rewrite (Hno p Hp).
  - destruct (Hyes first) as (-> & _ & _); [first [by left | done]|]. cbn [negb].
    assert (filter (fun p => Proof.audioQualityData p = None) (first :: rest) = []) as ->.
    { destruct (filter _ _) as [|p l] eqn:Hf; [done|].
      assert (p ∈ filter (fun p => Proof.audioQualityData p = None) (first :: rest))
        as Hin by (rewrite Hf; left).
      apply list_elem_of_filter in Hin as [Hnone Hp].
      by destruct (Hyes p Hp) as (_ & ? & _). }
    rewrite bool_decide_eq_false_2 by (cbn; lia).
    destruct (existsb _ _) eqn:Hscores; [|done].
    apply existsb_exists in Hscores as (s & Hs & Hdiff).
    apply list_elem_of_In, list_elem_of_fmap in Hs as (p & -> & Hp).
    destruct (Hyes p Hp) as (_ & _ & Heq).
    rewrite (Heq first), bool_decide_eq_true_2 in Hdiff by first [by left | done]. done.
Qed.

(** C5, as amended.  When deep validation succeeds on [S], then on every
    list of two or more proofs taken from [S] it succeeds or fails in one of
    three ways only: on the bitrate, on the overall video score (both are
    compared with the mean of the list at hand) or on a GOP score that the
    proofs of the list have in common.  The checks of codec, resolution,
    [hasAudio], audio presence and audio score do not fail on such a list. *)
Theorem C5_part_fails_only_on_means_or_common_gops (S S' : list QoSProof) :
  isValid (Validator.deepValidate S) = true ->
  S' ⊆ S ->
  (2 <= length S')%nat ->
  let r := Validator.deepValidate S' in
  isValid r = true
  \/ reasonOf (details r) = "码率差异过大"
  \/ reasonOf (details r) = "视频质量评分存在显著差异"
  \/ exists gopId, reasonOf (details r) = "特定GOP(" +:+ gopId +:+ ")评分不一致".
Proof.
  intros Hvalid Hsub Hlen'. cbn zeta.
  assert (Hlen : (2 <= length S)%nat).
  { unfold Validator.deepValidate in Hvalid. by case_bool_decide; [|lia]. }
  destruct (deepValidate_cases S Hlen : let r := Validator.deepValidate S in _)
    as [(Hf & Hr)|[(_ & Hf & Hr)|[(_ & _ & Hf & Hr)|(Hspec & _ & Haudio & _)]]];
    try (rewrite Hr in Hvalid; congruence).
  pose proof (validateMediaSpecsConsistency_cases S) as HS. cbn zeta in HS.
  destruct HS as [(_&?&_)|[(_&_&?&_)|[(_&_&_&?&_)|[(_&_&_&_&?&_)|(Hc&Hres&_&Ha&_)]]]];
    try congruence.
  assert (Hsub' : Proof.mediaSpecs <$> S' ⊆ Proof.mediaSpecs <$> S).
  { intros x Hx. apply list_elem_of_fmap in Hx as (p & -> & Hp).
    apply list_elem_of_fmap. eauto. }
  pose proof (one_value_on_subset Spec.codec _ _ Hc Hsub') as Hc'.
  pose proof (one_value_on_subset Validator.resolution _ _ Hres Hsub') as Hres'.
  pose proof (one_value_on_subset Spec.hasAudio _ _ Ha Hsub') as Ha'.
  assert (Haudio' : Validator.validateAudioConsistency S' = Validator.valid).
  { apply validateAudioConsistency_valid_intro.
    destruct (validateAudioConsistency_valid_inv S Ha Haudio) as [Hno|Hyes].
    - left. intros p Hp. apply Hno, Hsub, Hp.
    - right. intros p Hp. destruct (Hyes p (Hsub p Hp)) as (? & ? & Heq).
      split; [done|]. split; [done|]. intros q Hq. apply Heq, Hsub, Hq. }
  destruct (deepValidate_cases S' Hlen' : let r := Validator.deepValidate S' in _)
    as [(Hs' & ->)|[(_ & _ & ->)|[(_ & _ & Ha'' & _)|(_ & _ & _ & ? & _)]]].
  - pose proof (validateMediaSpecsConsistency_cases S') as HS'. cbn zeta in HS'.
    destruct HS' as [(?&_)|[(_&?&_)|[(_&_&_&_&_&Hre)|[(_&_&_&?&_)|(_&_&_&_&Hv)]]]];
      try lia.
    + by right; left.
    + rewrite Hv in Hs'. discriminate.
  - destruct (validateVideoQualityConsistency_reason S') as [-> | (_&_&[Hre | Hre])].
    + by left.
    + by right; right; left.
    + by right; right; right.
  - rewrite Haudio' in Ha''. discriminate.
  - by left.
Qed.

(** C7, at a failing input.  A proof with every field in place and a
    bitrate of 0: the bitrate is present and not greater than 0, and the
    range step passes, because [bitrate && bitrate <= 0] takes 0 for
    falsy before it compares. *)
Theorem C7_zero_bitrate_passes_range_step :
  let proof := Sample.proof "v1" "H.264" 0 85 in
  isValid (Validator.validateStructure proof) = true
  /\ Spec.bitrate (Proof.mediaSpecs proof) = Some 0%Qc
  /\ isValid (Validator.validateValueRanges proof) = true
  /\ isValid (Validator.quickValidate Sample.now proof) = true.
Proof. by vm_compute. Qed.

(** What the range step does: it fails on a score outside [0, 100] and on a
    bitrate below 0, and on nothing else. *)
Lemma validateValueRanges_spec (proof : QoSProof) :
  isValid (Validator.validateValueRanges proof) = false
  <-> (overallScore (Proof.videoQualityData proof) < 0)%Qc
      \/ (Q2Qc 100 < overallScore (Proof.videoQualityData proof))%Qc
      \/ exists br, Spec.bitrate (Proof.mediaSpecs proof) = Some br /\ (br < 0)%Qc.
Proof.
  unfold Validator.validateValueRanges.
  set (sc := overallScore _). set (obr := Spec.bitrate _).
  destruct (bool_decide (sc < 0)%Qc) eqn:Hlo; cbn.
  { apply bool_decide_eq_true in Hlo. tauto. }
  destruct (bool_decide (Q2Qc 100 < sc)%Qc) eqn:Hhi; cbn.
  { apply bool_decide_eq_true in Hhi. tauto. }
  apply bool_decide_eq_false in Hlo, Hhi.
  destruct obr as [br|]; cbn.
  - destruct (bool_decide (br = 0%Qc)) eqn:Hz; cbn.
    + apply bool_decide_eq_true in Hz. subst br. split; [done|].
      intros [?|[?|(br' & [= <-] & Hlt)]]; try done.
    + apply bool_decide_eq_false in Hz.
      destruct (bool_decide (br <= 0)%Qc) eqn:Hle; cbn.
      * apply bool_decide_eq_true in Hle. split; [|done]. intros _. right. right.
        exists br. split; [done|]. by apply Qcle_lt_or_eq in Hle as [?|?].
      * apply bool_decide_eq_false in Hle. split; [done|].
        intros [?|[?|(br' & [= <-] & Hlt)]]; try done.
        by apply Qclt_le_weak in Hlt.
  - split; [done|]. by intros [?|[?|(br' & [=] & _)]].
Qed.

(** C1, at a failing input, the one of test 3.2 of the repository: v1
    reports H.264, v2 reports H.265, the supplementary proof reports H.264.
    The resolver is given the two originals and the supplementary proof; it
    tallies the originals alone, finds no value twice and asks for a manual
    review.  Had the supplementary proof been part of the tally (the list in
    the last line) the majority would be H.264 with v1 and v3 reliable. *)
Theorem C1_supplementary_proof_is_not_tallied :
  let originalProofs := [Sample.v1; Sample.v2_h265] in
  let initialResult := Validator.deepValidate originalProofs in
  let resolved :=
    Validator.resolveWithSupplementaryProof originalProofs Sample.v3 initialResult in
  reasonOf (details initialResult) = "编码格式不一致"
  /\ Validator.analyzeConflictType initialResult = structural
  /\ isValid resolved = false
  /\ needsManualReview resolved = true
  /\ resolvedBy resolved = Some manual
  /\ getProp (default [] (details resolved)) "values"
     = Some (JArr [VStr "H.264"; VStr "H.265"])
  /\ Validator.resolveStructuralConflict (originalProofs ++ [Sample.v3])%list initialResult
     = {| isValid := true; hasConflict := false; conflictingVerifiers := [];
          conflictType := None; needsManualReview := false;
          resolvedBy := Some majority;
          details := Some [("message", Validator.str "通过多数表决解决codec冲突");
                           ("majorityValue", JV (VStr "H.264"));
                           ("reliableVerifiers", Validator.strs ["v1"; "v3"]);
                           ("unreliableVerifiers", Validator.strs ["v2"])] |}.
Proof. by vm_compute. Qed.

End ValidatorProperties.

(* ===================================================================== *)
(** ** Properties of the committee node                                    *)
(* ===================================================================== *)

Section NodeProperties.
Context `{Primitives}.

(** *** the ready/ack handshake *)

(** the leader's own PrePrepare passes the digest test of its engine *)
Lemma leader_starts_round (proof : QoSProof) (consensusType : ConsensusType) (e : Engine) :
  PBFT.isLeader e = true -> PBFT.state e = Idle ->
  exists e1 prePrepareMsg e2 prepareMsg,
    PBFT.startConsensus proof consensusType e = (e1, Some prePrepareMsg)
    /\ PBFT.handlePrePrepare prePrepareMsg e1 = (e2, Some prepareMsg)
    /\ PBFT.state e2 = PrePrepared
    /\ PBFT.currentProposal e2 = Some proof
    /\ PBFT.sequenceNumber e2 = PBFT.sequenceNumber e + 1.
Proof.
  intros Hleader Hidle. unfold PBFT.startConsensus. rewrite Hleader, Hidle. cbn.
  do 4 eexists. split; [done|].
  unfold PBFT.handlePrePrepare, PBFT.validateMessage. cbn.
  rewrite Hleader. cbn.
  rewrite (bool_decide_eq_true_2 (PrePrepared = PrePrepared)) by done.
  rewrite (bool_decide_eq_true_2 (PBFT.viewNumber e = _)) by done.
  rewrite (bool_decide_eq_true_2 (Some (calculateHash proof) = _)) by done.
  rewrite andb_false_r, String.eqb_refl. cbn. done.
Qed.

(** on a leader whose engine is idle, [startFinalConsensus] takes a validated
    task into the second round *)
Lemma startFinalConsensus_started (taskId : string) (payload : QoSProof) (n : Node)
      (status : TaskStatus) :
  Node.taskStatuses n !! taskId = Some status ->
  Task.state status = Validated ->
  PBFT.isLeader (Node.pbftEngine n) = true ->
  PBFT.state (Node.pbftEngine n) = Idle ->
  let n' := Node.startFinalConsensus taskId payload n in
  Task.state <$> (Node.taskStatuses n' !! taskId) = Some Consensus
  /\ PBFT.state (Node.pbftEngine n') = PrePrepared
  /\ PBFT.currentProposal (Node.pbftEngine n') = Some payload
  /\ Node.pendingSupplementaryConsensus n'
     = delete taskId (Node.pendingSupplementaryConsensus n)
  /\ Node.supplementaryReadyStatus n' = delete taskId (Node.supplementaryReadyStatus n)
  /\ length (Node.outbox n') = (length (Node.outbox n) + 2)%nat.
Proof.
  intros Hstatus Hstate Hleader Hidle. cbn zeta.
  unfold Node.startFinalConsensus. rewrite Hstatus, Hstate. cbn.
  destruct (leader_starts_round payload Normal (Node.pbftEngine n) Hleader Hidle)
    as (e1 & m & e2 & prep & -> & Hhandle & Hs2 & Hp2 & _).
  unfold Node.engineHandlePrePrepare. cbn. rewrite Hhandle.
  rewrite (bool_decide_eq_true_2 (Validated = Validated)) by done.
  unfold Node.send, Node.setStatus.
  cbn [Node.taskStatuses Node.pbftEngine Node.pendingSupplementaryConsensus Node.outbox
       Node.supplementaryReadyStatus Node.set_supplementaryReadyStatus
       Node.set_pendingSupplementaryConsensus Node.set_pbftEngine Node.set_outbox
       Node.set_taskStatuses Node.set_currentConsensusTaskId negb].
  rewrite lookup_insert_eq. repeat split; try done.
  rewrite !length_app. cbn. lia.
Qed.

(** What the acknowledgement handler of a leader does once three nodes are
    ready and a payload is pending, whatever the threshold of its engine. *)
Lemma ack_starts_final_consensus (message : SupplementaryMessage) (n : Node)
      (payload : QoSProof) :
  let taskId := Supp.taskId message in
  let readyNodes :=
    default ∅ (Node.supplementaryReadyStatus n !! taskId)
      ∪ {[ Supp.nodeId message ]} ∪ {[ Node.nodeId n ]} in
  Node.isLeader n = true ->
  (forall status, Node.taskStatuses n !! taskId = Some status ->
     Task.state status <> Consensus /\ Task.state status <> Finalized) ->
  Node.pendingSupplementaryConsensus n !! taskId = Some payload ->
  (3 <= size readyNodes)%nat ->
  Node.handleSupplementaryAckMessage message n
  = let n2 := Node.startFinalConsensus taskId payload
                (Node.set_supplementaryReadyStatus
                   (<[taskId := readyNodes]> (Node.supplementaryReadyStatus n)) n) in
    Node.set_supplementaryReadyStatus (delete taskId (Node.supplementaryReadyStatus n2))
      (Node.set_pendingSupplementaryConsensus
         (delete taskId (Node.pendingSupplementaryConsensus n2)) n2).
Proof.
  intros taskId readyNodes Hleader Hearly Hpending Hready.
  unfold Node.handleSupplementaryAckMessage. rewrite Hleader. cbn [negb].
  fold taskId.
  assert (match Node.taskStatuses n !! taskId with
          | Some status =>
              bool_decide (Task.state status = Consensus)
              || bool_decide (Task.state status = Finalized)
          | None => false
          end = false) as ->.
  { destruct (Node.taskStatuses n !! taskId) as [status|]; [|done].
    destruct (Hearly status eq_refl) as [? ?].
    by rewrite !bool_decide_eq_false_2. }
  fold readyNodes. cbn [Node.pendingSupplementaryConsensus Node.set_supplementaryReadyStatus].
  rewrite bool_decide_eq_true_2, Hpending; [done|].
  change (2 * ((Node.ackTotalNodes - 1) / 3) + 1) with 3. lia.
Qed.

(** C3, at a failing input.  The leader of a committee of seven, whose
    engine was built with the threshold 5, holds a pending payload for
    [task-A]; it is ready itself and follower f1 has acknowledged.  The
    acknowledgement of f2 makes three ready nodes, fewer than 5, and the
    leader starts the final consensus: the handler compares with the
    threshold of a committee of four, whatever the size the node was built
    with. *)
Theorem C3_final_consensus_starts_below_threshold_of_seven :
  let n := Sample.leaderOfSeven in
  let n' := Node.handleSupplementaryAckMessage (Sample.ackFrom "f2") n in
  PBFT.consensusThreshold (Node.pbftEngine n) = 5
  /\ PBFT.threshold Node.ackTotalNodes = 3
  /\ Node.supplementaryReadyStatus n !! "task-A" = Some {[ "leader"; "f1" ]}
  /\ Task.state <$> (Node.taskStatuses n !! "task-A") = Some Validated
  /\ Task.state <$> (Node.taskStatuses n' !! "task-A") = Some Consensus
  /\ PBFT.state (Node.pbftEngine n') = PrePrepared
  /\ PBFT.currentProposal (Node.pbftEngine n') = Some Sample.v1
  /\ Node.pendingSupplementaryConsensus n' !! "task-A" = None
  /\ length (Node.outbox n') = 2%nat.
Proof.
  cbn zeta.
  rewrite (ack_starts_final_consensus (Sample.ackFrom "f2") Sample.leaderOfSeven Sample.v1);
    [|by vm_compute| |by vm_compute|by vm_compute].
  2:{ intros status Hstatus. vm_compute in Hstatus. by injection Hstatus as <-. }
  cbn zeta. change (Supp.taskId (Sample.ackFrom "f2")) with "task-A".
  match goal with
  | |- context [Node.startFinalConsensus ?t ?p ?n] =>
      pose proof (startFinalConsensus_started t p n
                    (Task.set_state Validated (Sample.awaiting (Some Sample.codecConflict))))
        as Hstarted;
      generalize dependent (Node.startFinalConsensus t p n)
  end.
  intros n2 Hstarted.
  destruct Hstarted as (Hs & He & Hp & _ & _ & Hout); [vm_compute; reflexivity..|].
  cbn [Node.taskStatuses Node.pbftEngine Node.pendingSupplementaryConsensus Node.outbox
       Node.set_supplementaryReadyStatus Node.set_pendingSupplementaryConsensus].
  rewrite Hs, He, Hp, Hout, lookup_delete_eq. clear Hs He Hp Hout.
  repeat apply conj; vm_compute; reflexivity.
Qed.

(** *** supplementary proofs *)

(** C4, at a failing input.  The task waits for a supplementary proof with
    the proofs of v1 and v2 on record; the supplementary proof comes from v1
    again.  [handleSupplementaryProof] appends the verifier without the
    test of [handleQoSProof]: v1 is listed twice.  ([proofCount] follows the
    list: it is 3.) *)
Theorem C4_supplementary_proof_repeats_a_verifier :
  let n := Sample.holding "leader" true 4 (Sample.awaiting (Some Sample.codecConflict)) in
  let n' := Node.handleSupplementaryProof Sample.now "task-A" Sample.v1 n in
  Task.verifierIds <$> (Node.taskStatuses n !! "task-A") = Some ["v1"; "v2"]
  /\ Task.verifierIds <$> (Node.taskStatuses n' !! "task-A") = Some ["v1"; "v2"; "v1"]
  /\ Task.proofCount <$> (Node.taskStatuses n' !! "task-A") = Some 3%nat
  /\ Task.state <$> (Node.taskStatuses n' !! "task-A") = Some Validated
  /\ length (Node.getProofsForTask "task-A" n') = 3%nat.
Proof. cbn zeta. repeat apply conj; vm_compute; reflexivity. Qed.

(** C8.  When the task does not await a supplementary proof with two
    original proofs on record, [handleSupplementaryProof] returns the node as
    it was.  When it does and the supplementary proof fails quick
    validation, the task becomes [Failed], the failed result is recorded in
    [validationInfo.supplementaryResult], and the proof is not stored: the
    proofs of every task, and the task's [proofCount] and [verifierIds],
    are as before, like the records of all other tasks. *)
Theorem C8_invalid_supplementary_proof_fails_the_task
        (now : Z) (taskId : string) (proof : QoSProof) (n : Node) :
  let n' := Node.handleSupplementaryProof now taskId proof n in
  let awaits :=
    exists status,
      Node.taskStatuses n !! taskId = Some status
      /\ Task.state status = AwaitingSupplementary
      /\ (2 <= length (Node.getProofsForTask taskId n))%nat in
  (~ awaits -> n' = n)
  /\ (forall status,
        Node.taskStatuses n !! taskId = Some status ->
        Task.state status = AwaitingSupplementary ->
        (2 <= length (Node.getProofsForTask taskId n))%nat ->
        isValid (Validator.quickValidate now proof) = false ->
        exists status' info failed,
          Node.taskStatuses n' = <[taskId := status']> (Node.taskStatuses n)
          /\ Task.state status' = Failed
          /\ Task.validationInfo status' = Some info
          /\ Task.supplementaryResult info = Some failed
          /\ isValid failed = false
          /\ details failed = details (Validator.quickValidate now proof)
          /\ Task.proofCount status' = Task.proofCount status
          /\ Task.verifierIds status' = Task.verifierIds status
          /\ Task.supplementaryVerifierIds status' = Task.supplementaryVerifierIds status
          /\ Node.taskProofs n' = Node.taskProofs n
          /\ Node.pbftEngine n' = Node.pbftEngine n
          /\ Node.outbox n' = Node.outbox n).
Proof.
  cbn zeta. unfold Node.handleSupplementaryProof. split.
  - intros Hnot. destruct (Node.taskStatuses n !! taskId) as [status|] eqn:Hstatus; [|done].
    case_bool_decide as Hstate; cbn [negb]; [|done].
    case_bool_decide as Hlen; [done|].
    exfalso. apply Hnot. exists status. repeat split; [done|lia].
  - intros status Hstatus Hstate Hlen Hinvalid.
    rewrite Hstatus, Hinvalid. rewrite (bool_decide_eq_true_2 _ Hstate).
    rewrite bool_decide_eq_false_2 by lia. cbn [negb].
    do 3 eexists. unfold Node.setStatus.
    cbn [Node.taskStatuses Node.taskProofs Node.pbftEngine Node.outbox Node.set_taskStatuses].
    split; [reflexivity|]. by repeat split.
Qed.

(** *** the buffer of early PrePrepares *)

(** Most of the node leaves the buffer and the stored proofs alone.  The
    lemmas have the shape that lets [eauto] follow a chain of calls. *)
Create HintDb frame.

Lemma keeps_refl (n : Node) : keeps n n.
Proof. by split. Qed.

Lemma keeps_set_pbftEngine n0 n x : keeps n0 n -> keeps n0 (Node.set_pbftEngine x n).
Proof. by intros [? ?]. Qed.
Lemma keeps_set_taskStatuses n0 n x : keeps n0 n -> keeps n0 (Node.set_taskStatuses x n).
Proof. by intros [? ?]. Qed.
Lemma keeps_set_consensusQueue n0 n x : keeps n0 n -> keeps n0 (Node.set_consensusQueue x n).
Proof. by intros [? ?]. Qed.
Lemma keeps_set_processingConsensus n0 n x :
  keeps n0 n -> keeps n0 (Node.set_processingConsensus x n).
Proof. by intros [? ?]. Qed.
Lemma keeps_set_currentConsensusTaskId n0 n x :
  keeps n0 n -> keeps n0 (Node.set_currentConsensusTaskId x n).
Proof. by intros [? ?]. Qed.
Lemma keeps_set_supplementaryReadyStatus n0 n x :
  keeps n0 n -> keeps n0 (Node.set_supplementaryReadyStatus x n).
Proof. by intros [? ?]. Qed.
Lemma keeps_set_pendingSupplementaryConsensus n0 n x :
  keeps n0 n -> keeps n0 (Node.set_pendingSupplementaryConsensus x n).
Proof. by intros [? ?]. Qed.
Lemma keeps_set_pendingFinalPrePrepareMessages n0 n x :
  keeps n0 n -> keeps n0 (Node.set_pendingFinalPrePrepareMessages x n).
Proof. by intros [? ?]. Qed.
Lemma keeps_set_outbox n0 n x : keeps n0 n -> keeps n0 (Node.set_outbox x n).
Proof. by intros [? ?]. Qed.
Lemma keeps_set_timers n0 n x : keeps n0 n -> keeps n0 (Node.set_timers x n).
Proof. by intros [? ?]. Qed.
Lemma keeps_setStatus n0 n taskId status :
  keeps n0 n -> keeps n0 (Node.setStatus taskId status n).
Proof. by intros [? ?]. Qed.
Lemma keeps_send n0 n o : keeps n0 n -> keeps n0 (Node.send o n).
Proof. by intros [? ?]. Qed.

#[local] Hint Resolve keeps_refl keeps_set_pbftEngine keeps_set_taskStatuses
  keeps_set_consensusQueue keeps_set_processingConsensus keeps_set_currentConsensusTaskId
  keeps_set_supplementaryReadyStatus keeps_set_pendingSupplementaryConsensus
  keeps_set_pendingFinalPrePrepareMessages keeps_set_outbox keeps_set_timers
  keeps_setStatus keeps_send : frame.

(** split on what a function body branches on, then follow the calls *)
Ltac frame :=
  cbv zeta;
  repeat match goal with
         | |- keeps _ ?n =>
             match n with
             | context [if ?b then _ else _] => destruct b
             | context [match ?x with _ => _ end] => destruct x eqn:?
             end
         end;
  cbn [fst]; eauto 20 with frame.

Lemma keeps_drainQueue queue : forall n0 n, keeps n0 n -> keeps n0 (Node.drainQueue queue n).
Proof.
  induction queue as [|taskId rest IH]; intros n0 n Hn; cbn [Node.drainQueue]; [frame|].
  frame.
Qed.
#[local] Hint Resolve keeps_drainQueue : frame.

Lemma keeps_processConsensusQueue n0 n :
  keeps n0 n -> keeps n0 (Node.processConsensusQueue n).
Proof. intros Hn. unfold Node.processConsensusQueue. frame. Qed.
#[local] Hint Resolve keeps_processConsensusQueue : frame.

Lemma keeps_enqueueConsensusTask n0 n taskId :
  keeps n0 n -> keeps n0 (Node.enqueueConsensusTask taskId n).
Proof. intros Hn. unfold Node.enqueueConsensusTask. frame. Qed.
#[local] Hint Resolve keeps_enqueueConsensusTask : frame.

Lemma keeps_requestSupplementaryValidation n0 n now taskId :
  keeps n0 n -> keeps n0 (Node.requestSupplementaryValidation now taskId n).
Proof. intros Hn. unfold Node.requestSupplementaryValidation. frame. Qed.
#[local] Hint Resolve keeps_requestSupplementaryValidation : frame.

Lemma keeps_handleConflictConsensusReached n0 n now taskId :
  keeps n0 n -> keeps n0 (Node.handleConflictConsensusReached now taskId n).
Proof. intros Hn. unfold Node.handleConflictConsensusReached. frame. Qed.
#[local] Hint Resolve keeps_handleConflictConsensusReached : frame.

Lemma keeps_onConsensusReached n0 n now proof consensusType :
  keeps n0 n -> keeps n0 (Node.onConsensusReached now proof consensusType n).
Proof. intros Hn. unfold Node.onConsensusReached. frame. Qed.
#[local] Hint Resolve keeps_onConsensusReached : frame.

Lemma keeps_engineHandleCommit n0 n now message :
  keeps n0 n -> keeps n0 (Node.engineHandleCommit now message n).
Proof. intros Hn. unfold Node.engineHandleCommit. frame. Qed.
#[local] Hint Resolve keeps_engineHandleCommit : frame.

Lemma keeps_engineHandlePrepare n0 n message :
  keeps n0 n -> keeps n0 (Node.engineHandlePrepare message n).1.
Proof.
  intros Hn. unfold Node.engineHandlePrepare.
  destruct (PBFT.handlePrepare _ _). cbn [fst]. frame.
Qed.
#[local] Hint Resolve keeps_engineHandlePrepare : frame.

Lemma keeps_engineHandlePrePrepare n0 n message :
  keeps n0 n -> keeps n0 (Node.engineHandlePrePrepare message n).1.
Proof.
  intros Hn. unfold Node.engineHandlePrePrepare.
  destruct (PBFT.handlePrePrepare _ _). cbn [fst]. frame.
Qed.
#[local] Hint Resolve keeps_engineHandlePrePrepare : frame.

(** [processPrePrepareMessage] either buffers the message, which it does
    exactly when the node has fewer than two proofs of the task, or leaves
    the buffer alone; it stores no proof *)
Lemma processPrePrepareMessage_buffer (now : Z) (message : PBFTMessage) (n : Node) :
  let n' := (Node.processPrePrepareMessage now message n).1 in
  Node.taskProofs n' = Node.taskProofs n
  /\ (Node.pendingPrePrepareMessages n' = Node.pendingPrePrepareMessages n
      \/ ((length (Node.getProofsForTask (Msg.taskId message) n) < 2)%nat
          /\ Node.pendingPrePrepareMessages n'
             = <[Msg.taskId message := message]> (Node.pendingPrePrepareMessages n))).
Proof.
  cbn zeta.
  assert (Hkeeps : (2 <= length (Node.getProofsForTask (Msg.taskId message) n))%nat
                   \/ Msg.data message = None
                   -> keeps n (Node.processPrePrepareMessage now message n).1).
  { intros Hcase. unfold Node.processPrePrepareMessage.
    destruct (Msg.data message) as [data|]; [|frame].
    destruct Hcase as [Hlen|?]; [|done].
    cbn [Node.getProofsForTask Node.taskProofs Node.set_currentConsensusTaskId] in *.
    unfold Node.getProofsForTask. cbn [Node.taskProofs Node.set_currentConsensusTaskId].
    fold (Node.getProofsForTask (Msg.taskId message) n).
    rewrite bool_decide_eq_false_2 by lia. frame. }
  destruct (Msg.data message) as [data|] eqn:Hdata.
  - destruct (decide (length (Node.getProofsForTask (Msg.taskId message) n) < 2)%nat)
      as [Hlen|Hlen].
    + unfold Node.processPrePrepareMessage. rewrite Hdata.
      unfold Node.getProofsForTask in *.
      cbn [Node.taskProofs Node.set_currentConsensusTaskId].
      rewrite bool_decide_eq_true_2 by done. cbn [fst].
      split; [done|]. right. done.
    + destruct Hkeeps as [? ?]; [left; lia|]. split; [done|by left].
  - destruct Hkeeps as [? ?]; [by right|]. split; [done|by left].
Qed.

(** [checkPendingPrePrepareMessages] takes the buffered PrePrepare of the
    task out when the node has two proofs of the task or more, and then
    only; the message it processes again is not buffered again under that
    task *)
Lemma checkPendingPrePrepareMessages_buffer (now : Z) (taskId : string) (n : Node) :
  let n' := (Node.checkPendingPrePrepareMessages now taskId n).1 in
  Node.taskProofs n' = Node.taskProofs n
  /\ (Node.pendingPrePrepareMessages n' = Node.pendingPrePrepareMessages n
      \/ ((2 <= length (Node.getProofsForTask taskId n))%nat
          /\ is_Some (Node.pendingPrePrepareMessages n !! taskId)
          /\ (Node.pendingPrePrepareMessages n'
              = delete taskId (Node.pendingPrePrepareMessages n)
              \/ exists m,
                   (length (Node.getProofsForTask (Msg.taskId m) n) < 2)%nat
                   /\ Node.pendingPrePrepareMessages n'
                      = <[Msg.taskId m := m]>
                          (delete taskId (Node.pendingPrePrepareMessages n))))).
Proof.
  cbn zeta. unfold Node.checkPendingPrePrepareMessages.
  destruct (Node.pendingPrePrepareMessages n !! taskId) as [pendingMessage|] eqn:Hpending;
    [|by split; [|left]].
  case_bool_decide as Hlen; [|by split; [|left]].
  set (n1 := Node.set_pendingPrePrepareMessages _ n).
  pose proof (processPrePrepareMessage_buffer now pendingMessage n1) as Hprocess.
  cbn zeta in Hprocess.
  destruct (Node.processPrePrepareMessage now pendingMessage n1) as [n2 response].
  cbn [fst] in Hprocess.
  assert (Htail : keeps n2
                    (match response with
                     | Some response =>
                         let '(n, commitMsg) :=
                           Node.engineHandlePrepare response
                             (Node.send (Broadcast response) n2) in
                         match commitMsg with
                         | Some commitMsg =>
                             (Node.engineHandleCommit now commitMsg
                                (Node.send (Broadcast commitMsg) n), false)
                         | None => (n, false)
                         end
                     | None => (n2, true)
                     end).1).
  { destruct response as [response|]; [|frame].
    pose proof (keeps_engineHandlePrepare n2 (Node.send (Broadcast response) n2) response)
      as Hprepare.
    destruct (Node.engineHandlePrepare response _) as [n3 commitMsg].
    cbn [fst] in Hprepare. frame. }
  destruct Htail as [Hbuffer Hproofs]. rewrite Hbuffer, Hproofs.
  destruct Hprocess as [Hsame Hmoves]. split; [by rewrite Hsame|].
  right. split; [done|]. split; [done|].
  destruct Hmoves as [-> | [Hfew ->]]; [by left|].
  right. exists pendingMessage. split; [|done].
  unfold Node.getProofsForTask in *. by subst n1.
Qed.

(** what follows a call of [processPrePrepareMessage] in the three places
    that make one: the node's own Prepare and Commit, which keep the buffer *)
Lemma keeps_own_votes (now : Z) (feedCommit : bool) (response : option PBFTMessage)
      (n0 n : Node) :
  keeps n0 n ->
  keeps n0
    match response with
    | Some response =>
        let '(n, commitMsg) :=
          Node.engineHandlePrepare response (Node.send (Broadcast response) n) in
        match commitMsg with
        | Some commitMsg =>
            if feedCommit
            then Node.engineHandleCommit now commitMsg (Node.send (Broadcast commitMsg) n)
            else Node.send (Broadcast commitMsg) n
        | None => n
        end
    | None => n
    end.
Proof.
  intros Hn. destruct response as [response|]; [|done].
  pose proof (keeps_engineHandlePrepare n0 (Node.send (Broadcast response) n) response)
    as Hprepare.
  destruct (Node.engineHandlePrepare response _) as [n3 commitMsg].
  cbn [fst] in Hprepare. frame.
Qed.

Lemma onMessageReceived_buffer (now : Z) (message : PBFTMessage) (n : Node) :
  let n' := Node.onMessageReceived now message n in
  Node.taskProofs n' = Node.taskProofs n
  /\ (Node.pendingPrePrepareMessages n' = Node.pendingPrePrepareMessages n
      \/ ((length (Node.getProofsForTask (Msg.taskId message) n) < 2)%nat
          /\ Node.pendingPrePrepareMessages n'
             = <[Msg.taskId message := message]> (Node.pendingPrePrepareMessages n))).
Proof.
  cbn zeta. unfold Node.onMessageReceived.
  destruct (match Node.currentConsensusTaskId n with Some _ => _ | None => _ end);
    [by split; [|left]|].
  destruct (Msg.type message).
  - pose proof (processPrePrepareMessage_buffer now message n) as Hprocess.
    cbn zeta in Hprocess.
    destruct (Node.processPrePrepareMessage now message n) as [n2 response].
    cbn [fst] in Hprocess.
    destruct (keeps_own_votes now false response n2 n2 (keeps_refl n2)) as [Hb Hp].
    cbn zeta in Hb, Hp. by rewrite Hb, Hp.
  - pose proof (keeps_engineHandlePrepare n n message (keeps_refl n)) as [Hb Hp].
    destruct (Node.engineHandlePrepare message n) as [n2 response]. cbn [fst] in Hb, Hp.
    destruct response; cbn [Node.send Node.set_outbox Node.taskProofs
                              Node.pendingPrePrepareMessages]; by split; [|left].
  - destruct (keeps_engineHandleCommit n n now message (keeps_refl n)) as [Hb Hp].
    by split; [|left].
  - by split; [|left].
  - by split; [|left].
  - by split; [|left].
Qed.

Lemma handleQoSProof_buffer (now : Z) (proof : QoSProof) (n : Node) :
  let taskId := Proof.taskId proof in
  let n' := Node.handleQoSProof now proof n in
  (Node.taskProofs n' = Node.taskProofs n
   \/ Node.taskProofs n'
      = <[taskId := (Node.getProofsForTask taskId n ++ [proof])%list]> (Node.taskProofs n))
  /\ (Node.pendingPrePrepareMessages n' = Node.pendingPrePrepareMessages n
      \/ ((2 <= length (Node.getProofsForTask taskId n'))%nat
          /\ is_Some (Node.pendingPrePrepareMessages n !! taskId)
          /\ (Node.pendingPrePrepareMessages n'
              = delete taskId (Node.pendingPrePrepareMessages n)
              \/ exists m,
                   (length (Node.getProofsForTask (Msg.taskId m) n') < 2)%nat
                   /\ Node.pendingPrePrepareMessages n'
                      = <[Msg.taskId m := m]>
                          (delete taskId (Node.pendingPrePrepareMessages n))))).
Proof.
  cbn zeta. unfold Node.handleQoSProof.
  destruct (negb (isValid _)); [by split; left|].
  case_bool_decide; [by split; left|].
  set (status := Task.set_updatedAt _ _).
  set (status' := if bool_decide (Task.state status = Pending) then _ else status).
  set (n1 := Node.storeProof (Proof.taskId proof) proof n).
  assert (Hstored : forall n', keeps n1 n' ->
            (Node.taskProofs n' = Node.taskProofs n
             \/ Node.taskProofs n'
                = <[Proof.taskId proof :=
                      (Node.getProofsForTask (Proof.taskId proof) n ++ [proof])%list]>
                    (Node.taskProofs n))
            /\ (Node.pendingPrePrepareMessages n' = Node.pendingPrePrepareMessages n
                \/ ((2 <= length (Node.getProofsForTask (Proof.taskId proof) n'))%nat
                    /\ is_Some (Node.pendingPrePrepareMessages n !! Proof.taskId proof)
                    /\ (Node.pendingPrePrepareMessages n'
                        = delete (Proof.taskId proof) (Node.pendingPrePrepareMessages n)
                        \/ exists m,
                             (length (Node.getProofsForTask (Msg.taskId m) n') < 2)%nat
                             /\ Node.pendingPrePrepareMessages n'
                                = <[Msg.taskId m := m]>
                                    (delete (Proof.taskId proof)
                                       (Node.pendingPrePrepareMessages n)))))).
  { intros n' [Hb Hp]. split; [by right; rewrite Hp|by left; rewrite Hb]. }
  assert (Hchecked : forall n2 n', keeps n1 n2 ->
            keeps (Node.checkPendingPrePrepareMessages now (Proof.taskId proof) n2).1 n' ->
            (Node.taskProofs n' = Node.taskProofs n
             \/ Node.taskProofs n'
                = <[Proof.taskId proof :=
                      (Node.getProofsForTask (Proof.taskId proof) n ++ [proof])%list]>
                    (Node.taskProofs n))
            /\ (Node.pendingPrePrepareMessages n' = Node.pendingPrePrepareMessages n
                \/ ((2 <= length (Node.getProofsForTask (Proof.taskId proof) n'))%nat
                    /\ is_Some (Node.pendingPrePrepareMessages n !! Proof.taskId proof)
                    /\ (Node.pendingPrePrepareMessages n'
                        = delete (Proof.taskId proof) (Node.pendingPrePrepareMessages n)
                        \/ exists m,
                             (length (Node.getProofsForTask (Msg.taskId m) n') < 2)%nat
                             /\ Node.pendingPrePrepareMessages n'
                                = <[Msg.taskId m := m]>
                                    (delete (Proof.taskId proof)
                                       (Node.pendingPrePrepareMessages n)))))).
  { intros n2 n' [Hb2 Hp2] [Hb' Hp'].
    destruct (checkPendingPrePrepareMessages_buffer now (Proof.taskId proof) n2)
      as [Hsame Hmoves].
    unfold Node.getProofsForTask in *.
    rewrite Hp', Hsame, Hp2, Hb'. split; [by right|].
    rewrite Hp2, Hb2 in Hmoves. exact Hmoves. }
  destruct (Node.isLeader n1).
  - apply Hstored. frame.
  - destruct (Node.taskStatuses n !! Proof.taskId proof).
    + apply (Hchecked (Node.setStatus (Proof.taskId proof) status' n1)); frame.
    + pose proof (Hchecked n1) as Hfresh.
      destruct (Node.checkPendingPrePrepareMessages now (Proof.taskId proof) n1)
        as [n2 thrown].
      cbn [fst] in Hfresh. destruct thrown; apply Hfresh; frame.
Qed.

Lemma keeps_startFinalConsensus n0 n taskId payload :
  keeps n0 n -> keeps n0 (Node.startFinalConsensus taskId payload n).
Proof.
  intros Hn. unfold Node.startFinalConsensus.
  destruct (Node.taskStatuses n !! taskId) as [status|]; [|done].
  destruct (negb _); [done|].
  destruct (PBFT.startConsensus _ _ _) as [e [prePrepareMsg|]]; [|frame].
  match goal with
  | |- context [Node.engineHandlePrePrepare ?m ?n1] =>
      pose proof (keeps_engineHandlePrePrepare n0 n1 m) as Hhandle;
      destruct (Node.engineHandlePrePrepare m n1) as [n2 prepareMsg]
  end.
  cbn [fst] in Hhandle. destruct prepareMsg; [apply keeps_send|]; apply Hhandle; frame.
Qed.
#[local] Hint Resolve keeps_startFinalConsensus : frame.

Lemma keeps_handleSupplementaryMessage n0 n now message :
  keeps n0 n -> keeps n0 (Node.handleSupplementaryMessage now message n).
Proof.
  intros Hn.
  unfold Node.handleSupplementaryMessage, Node.handleSupplementaryReadyMessage,
    Node.handleSupplementaryAckMessage.
  frame.
Qed.

Lemma keeps_checkSupplementaryTimeout n0 n now taskId :
  keeps n0 n -> keeps n0 (Node.checkSupplementaryTimeout now taskId n).
Proof. intros Hn. unfold Node.checkSupplementaryTimeout. frame. Qed.

(** a supplementary proof is stored under its task or not at all; the
    buffer changes only when the PrePrepare of the final round that was kept
    back is processed and finds fewer than two proofs of its task *)
Lemma handleSupplementaryProof_buffer (now : Z) (taskId : string) (proof : QoSProof)
      (n : Node) :
  let n' := Node.handleSupplementaryProof now taskId proof n in
  (Node.taskProofs n' = Node.taskProofs n
   \/ exists stored,
        Node.taskProofs n'
        = <[taskId := (Node.getProofsForTask taskId n ++ [stored])%list]> (Node.taskProofs n))
  /\ (Node.pendingPrePrepareMessages n' = Node.pendingPrePrepareMessages n
      \/ exists m,
           (length (Node.getProofsForTask (Msg.taskId m) n') < 2)%nat
           /\ Node.pendingPrePrepareMessages n'
              = <[Msg.taskId m := m]> (Node.pendingPrePrepareMessages n)).
Proof.
  intros n'. pattern n'.
  match goal with |- ?P n' => set (changes := P) end.
  assert (Hsame : changes n) by (split; by left).
  subst n'. unfold Node.handleSupplementaryProof.
  destruct (Node.taskStatuses n !! taskId) as [status|]; [|exact Hsame].
  destruct (negb _); [exact Hsame|].
  case_bool_decide; [exact Hsame|].
  destruct (negb _); [exact Hsame|].
  clear Hsame.
  set (stored := match Proof.id proof with Some _ => _ | None => _ end).
  set (n1 := Node.storeProof taskId stored n).
  assert (Hstored : forall n', keeps n1 n' -> changes n').
  { intros n' [Hb Hp]. split; [right; exists stored; by rewrite Hp|by left; rewrite Hb]. }
  destruct (isValid _); [|apply Hstored; frame].
  match goal with |- context [Node.setStatus taskId ?st n1] => set (n2 := Node.setStatus taskId st n1) end.
  destruct (Node.isLeader n2); [apply Hstored; subst n2; frame|].
  destruct (Node.pendingFinalPrePrepareMessages n2 !! taskId) as [pendingFinal|];
    [|apply Hstored; subst n2; frame].
  set (n3 := Node.set_pendingFinalPrePrepareMessages _ n2).
  pose proof (processPrePrepareMessage_buffer now pendingFinal n3) as Hprocess.
  cbn zeta in Hprocess.
  destruct (Node.processPrePrepareMessage now pendingFinal n3) as [n4 response].
  cbn [fst] in Hprocess.
  destruct (keeps_own_votes now true response n4 n4 (keeps_refl n4)) as [Hb Hp].
  cbn zeta in Hb, Hp. subst changes. cbv beta.
  unfold Node.getProofsForTask. rewrite Hb, Hp.
  destruct Hprocess as [Hsame Hmoves]. rewrite Hsame.
  split; [right; by exists stored|].
  destruct Hmoves as [-> | [Hfew ->]]; [by left|].
  right. exists pendingFinal. split; [|done].
  unfold Node.getProofsForTask in Hfew. by subst n3 n2.
Qed.

(** *** one entry point *)










(** *** runs *)




End NodeProperties.

(* ===================================================================== *)
(** ** The properties at sample inputs                                     *)
(* ===================================================================== *)

(** The properties above hold for every implementation of the primitives;
    here they are applied with the reference instance. *)
Module AtSamples.
#[local] Existing Instance Reference.primitives.

(** C5 as the specification states it fails: deep validation passes the
    four proofs with bitrates 95, 95, 105, 105 (mean 100, every deviation
    exactly five percent) and fails the first three of them (mean 295/3,
    105 is more than five percent away). *)
Lemma C5_counterexample :
  let S := Sample.spread in
  let S' := take 3 Sample.spread in
  isValid (Validator.deepValidate S) = true
  /\ S' ⊆ S
  /\ (2 <= length S')%nat
  /\ isValid (Validator.deepValidate S') = false
  /\ reasonOf (details (Validator.deepValidate S')) = "码率差异过大".
Proof.
  cbn zeta. split; [by vm_compute|]. split.
  - intros p Hp. apply (subseteq_take 3). exact Hp.
  - split; [vm_compute; lia|]. split; by vm_compute.
Qed.

(** The engine state of C2 comes about in a run: a follower goes through
    the round of sequence 1, is idle again with the sequence completed, and
    the PrePrepare of that round, delivered once more, starts the round
    anew. *)
Example completed_round_restarts :
  let e := Sample.completedOne in
  let e' := (PBFT.handlePrePrepare Sample.prePrepare e).1 in
  PBFT.state e = Idle
  /\ bool_decide (1 ∈ PBFT.completedSequences e) = true
  /\ PBFT.currentProposal e = None
  /\ PBFT.state e' = PrePrepared
  /\ PBFT.currentProposal e' = Some Sample.v1
  /\ length (PBFT.listAt (PBFT.prepareMessages e') (0, 1)) = 4%nat.
Proof. cbn zeta. repeat apply conj; vm_compute; reflexivity. Qed.

(** C5, the amended statement, at a part of three equal proofs. *)
Lemma C5_witness :
  let S := [Sample.v1; Sample.v2; Sample.v3] in
  let S' := [Sample.v3; Sample.v1] in
  let r := Validator.deepValidate S' in
  isValid (Validator.deepValidate S) = true
  /\ S' ⊆ S
  /\ (2 <= length S')%nat
  /\ (isValid r = true
      \/ reasonOf (details r) = "码率差异过大"
      \/ reasonOf (details r) = "视频质量评分存在显著差异"
      \/ exists gopId, reasonOf (details r) = "特定GOP(" +:+ gopId +:+ ")评分不一致").
Proof.
  cbn zeta.
  assert (Hsub : [Sample.v3; Sample.v1] ⊆ [Sample.v1; Sample.v2; Sample.v3]).
  { intros p Hp. apply list_elem_of_In in Hp. apply list_elem_of_In.
    cbn [In] in *. tauto. }
  assert (Hall : isValid (Validator.deepValidate [Sample.v1; Sample.v2; Sample.v3]) = true)
    by (vm_compute; reflexivity).
  assert (Hlen : (2 <= length [Sample.v3; Sample.v1])%nat) by (simpl; lia).
  split; [exact Hall|]. split; [exact Hsub|]. split; [exact Hlen|].
  exact (C5_part_fails_only_on_means_or_common_gops _ _ Hall Hsub Hlen).
Defined.


(** C9 at a follower of a committee of four (threshold 3) that holds two
    Prepares: a third Prepare whose digest is not the engine's is counted
    and brings the engine to [Prepared]. *)
Lemma C9_witness :
  let e := Sample.preparedByTwo in
  let message := Sample.prepareFrom "node3" "no such digest" in
  let e' := (PBFT.handlePrepare message e).1 in
  Msg.digest message <> Some (PBFT.currentDigest e)
  /\ Msg.viewNumber message = PBFT.viewNumber e
  /\ (Msg.sequenceNumber message ∉ PBFT.completedSequences e)
  /\ PBFT.state e = PrePrepared
  /\ existsb (PBFT.sameSender message) (PBFT.prepareListAtCheck message e) = false
  /\ PBFT.consensusThreshold e
     <= Z.of_nat (length (PBFT.prepareListAtCheck message e ++ [message])%list)
  /\ PBFT.prepareMessages e' !! PBFT.keyOf message
     = Some (PBFT.prepareListAtCheck message e ++ [message])%list
  /\ PBFT.state e' = Prepared.
Proof.
  cbn zeta.
  set (e := Sample.preparedByTwo).
  set (message := Sample.prepareFrom "node3" "no such digest").
  assert (Hdigest : Msg.digest message <> Some (PBFT.currentDigest e))
    by (vm_compute; discriminate).
  assert (Hview : Msg.viewNumber message = PBFT.viewNumber e) by (vm_compute; reflexivity).
  assert (Hseq : Msg.sequenceNumber message ∉ PBFT.completedSequences e).
  { replace (PBFT.completedSequences e) with (∅ : gset Z) by (vm_compute; reflexivity).
    apply not_elem_of_empty. }
  assert (Hstate : PBFT.state e = PrePrepared) by (vm_compute; reflexivity).
  assert (Hnew : existsb (PBFT.sameSender message) (PBFT.prepareListAtCheck message e) = false)
    by (vm_compute; reflexivity).
  assert (Hcount : PBFT.consensusThreshold e
                   <= Z.of_nat (length (PBFT.prepareListAtCheck message e ++ [message])%list))
    by (vm_compute; discriminate).
  pose proof (C9_prepare_counts_whatever_its_digest message e Hview Hseq Hstate Hnew)
    as (Hstored & Hreached & _).
  repeat (split; [assumption|]).
  exact (proj1 (Hreached Hcount)).
Defined.

(** C8 at a node that waits for the supplementary proof of [task-A] and is
    handed one whose score is 150; and at a task the node does not know. *)
Lemma C8_witness :
  let n := Sample.holding "node2" false 4 (Sample.awaiting (Some Sample.codecConflict)) in
  let status := Sample.awaiting (Some Sample.codecConflict) in
  let n' := Node.handleSupplementaryProof Sample.now "task-A" Sample.outOfRange n in
  (Node.taskStatuses n !! "task-A" = Some status
   /\ Task.state status = AwaitingSupplementary
   /\ (2 <= length (Node.getProofsForTask "task-A" n))%nat
   /\ isValid (Validator.quickValidate Sample.now Sample.outOfRange) = false)
  /\ (exists status' info failed,
        Node.taskStatuses n' = <["task-A" := status']> (Node.taskStatuses n)
        /\ Task.state status' = Failed
        /\ Task.validationInfo status' = Some info
        /\ Task.supplementaryResult info = Some failed
        /\ isValid failed = false
        /\ details failed = details (Validator.quickValidate Sample.now Sample.outOfRange)
        /\ Task.proofCount status' = Task.proofCount status
        /\ Task.verifierIds status' = Task.verifierIds status
        /\ Task.supplementaryVerifierIds status' = Task.supplementaryVerifierIds status
        /\ Node.taskProofs n' = Node.taskProofs n
        /\ Node.pbftEngine n' = Node.pbftEngine n
        /\ Node.outbox n' = Node.outbox n)
  /\ Node.handleSupplementaryProof Sample.now "task-B" Sample.outOfRange n = n.
Proof.
  cbn zeta.
  set (n := Sample.holding "node2" false 4 (Sample.awaiting (Some Sample.codecConflict))).
  set (status := Sample.awaiting (Some Sample.codecConflict)).
  assert (Hstatus : Node.taskStatuses n !! "task-A" = Some status) by (vm_compute; reflexivity).
  assert (Hstate : Task.state status = AwaitingSupplementary) by reflexivity.
  assert (Hproofs : (2 <= length (Node.getProofsForTask "task-A" n))%nat)
    by (vm_compute; lia).
  assert (Hbad : isValid (Validator.quickValidate Sample.now Sample.outOfRange) = false)
    by (vm_compute; reflexivity).
  assert (Hother : ~ exists status,
             Node.taskStatuses n !! "task-B" = Some status
             /\ Task.state status = AwaitingSupplementary
             /\ (2 <= length (Node.getProofsForTask "task-B" n))%nat).
  { intros (other & Hlookup & _). vm_compute in Hlookup. discriminate. }
  split; [by repeat split|]. split.
  - exact (proj2 (C8_invalid_supplementary_proof_fails_the_task
                    Sample.now "task-A" Sample.outOfRange n)
             status Hstatus Hstate Hproofs Hbad).
  - exact (proj1 (C8_invalid_supplementary_proof_fails_the_task
                    Sample.now "task-B" Sample.outOfRange n) Hother).
Defined.


End AtSamples.


(* ===================================================================== *)
(** ** Lemmas on strings and on sorting                                   *)
(* ===================================================================== *)

(** the two tests of a string that is not empty *)
Lemma truthy_spec (s : string) : JS.truthy s = true <-> s <> "".
Proof.
  unfold JS.truthy. destruct (String.eqb_spec s ""); cbn; split; congruence.
Qed.

(** insertion sort permutes *)
Lemma insert_Permutation {A} (le : A -> A -> bool) (x : A) (l : list A) :
  JS.insert le x l ≡ₚ x :: l.
Proof.
  induction l as [|y l IH]; cbn; [done|].
  destruct (le x y); [done|]. rewrite IH. apply Permutation_swap.
Qed.

Lemma sort_Permutation {A} (le : A -> A -> bool) (l : list A) : JS.sort le l ≡ₚ l.
Proof.
  unfold JS.sort. induction l as [|x l IH]; cbn; [done|].
  by rewrite insert_Permutation, IH.
Qed.

(** The sort is stable: for a comparator that is total and transitive it
    lets a filter through, and an element put at the end of the array goes
    behind the elements of the result that are not after it. *)
Section SortFacts.
Context {A : Type} (le : A -> A -> bool).
Hypothesis le_total : forall a b, le a b = true \/ le b a = true.
Hypothesis le_trans : forall a b c, le a b = true -> le b c = true -> le a c = true.

Lemma insert_first (a : A) (l : list A) :
  Forall (fun z => le a z = true) l -> JS.insert le a l = a :: l.
Proof. destruct 1 as [|y l Hy _]; cbn; [done|]. by rewrite Hy. Qed.

Lemma insert_sorted (a : A) (l : list A) :
  StronglySorted (fun x y => le x y = true) l ->
  StronglySorted (fun x y => le x y = true) (JS.insert le a l).
Proof.
  induction 1 as [|y l Hl IH Hy]; cbn.
  { repeat constructor. }
  destruct (le a y) eqn:Hay.
  - constructor; [by constructor|]. constructor; [done|].
    eapply list.Forall_impl; [apply Hy|]. intros z Hz. by eapply le_trans.
  - constructor; [done|]. rewrite insert_Permutation. constructor; [|done].
    destruct (le_total a y); congruence.
Qed.

Lemma sort_sorted (l : list A) :
  StronglySorted (fun x y => le x y = true) (JS.sort le l).
Proof.
  unfold JS.sort. induction l as [|a l IH]; cbn; [constructor|].
  by apply insert_sorted.
Qed.

Lemma sort_of_sorted (l : list A) :
  StronglySorted (fun x y => le x y = true) l -> JS.sort le l = l.
Proof.
  unfold JS.sort. induction 1 as [|a l Hl IH Ha]; cbn; [done|].
  rewrite IH. by apply insert_first.
Qed.

Lemma sort_sort (l : list A) : JS.sort le (JS.sort le l) = JS.sort le l.
Proof. apply sort_of_sorted, sort_sorted. Qed.

Lemma insert_insertLast (a x : A) (s : list A) :
  JS.insert le a (insertLast le x s) = insertLast le x (JS.insert le a s).
Proof.
  induction s as [|y s IH]; cbn.
  { destruct (le a x); reflexivity. }
  destruct (le y x) eqn:Hyx, (le a y) eqn:Hay; cbn; rewrite ?Hyx, ?Hay.
  - by rewrite (le_trans a y x).
  - by rewrite IH.
  - destruct (le a x) eqn:Hax; cbn; by rewrite ?Hyx, ?Hay.
  - destruct (le a x) eqn:Hax; cbn; rewrite ?Hyx, ?Hay; [|done].
    destruct (le_total y x) as [?|Hxy]; [congruence|].
    rewrite (le_trans a x y) in Hay; done.
Qed.

Lemma sort_snoc (l : list A) (x : A) :
  JS.sort le (l ++ [x]) = insertLast le x (JS.sort le l).
Proof.
  unfold JS.sort. induction l as [|a l IH]; cbn; [done|].
  by rewrite IH, insert_insertLast.
Qed.

Lemma filter_insert (P : A -> Prop) `{!forall x, Decision (P x)} (a : A) (s : list A) :
  StronglySorted (fun x y => le x y = true) s ->
  filter P (JS.insert le a s)
  = if decide (P a) then JS.insert le a (filter P s) else filter P s.
Proof.
  induction 1 as [|y s Hs IH Hy]; cbn [JS.insert].
  { rewrite filter_cons, !filter_nil. by destruct (decide (P a)). }
  destruct (le a y) eqn:Hay.
  - rewrite (filter_cons _ a). destruct (decide (P a)); [|done].
    rewrite insert_first; [done|].
    apply list.Forall_forall. intros z Hz%list_elem_of_filter. destruct Hz as [_ Hz].
    apply elem_of_cons in Hz as [->|Hz]; [done|].
    rewrite list.Forall_forall in Hy. eapply le_trans; eauto.
  - rewrite !(filter_cons _ y), IH.
    destruct (decide (P y)), (decide (P a)); cbn [JS.insert]; by rewrite ?Hay.
Qed.

Lemma filter_sort (P : A -> Prop) `{!forall x, Decision (P x)} (l : list A) :
  filter P (JS.sort le l) = JS.sort le (filter P l).
Proof.
  induction l as [|a l IH]; [done|].
  change (JS.sort le (a :: l)) with (JS.insert le a (JS.sort le l)).
  rewrite filter_insert by apply sort_sorted. rewrite filter_cons, IH.
  by destruct (decide (P a)).
Qed.

End SortFacts.


(* ===================================================================== *)
(** ** Further properties of the engine                                 *)
(* ===================================================================== *)

Section EngineFurther.
Context `{Primitives}.

(** X1. A message of another view changes nothing: [handlePrePrepare] and
    [handlePrepare] return the engine as it was and no reply, and
    [handleCommit] returns it without a consensus. *)
Theorem wrong_view_is_dropped (message : PBFTMessage) (e : Engine) :
  Msg.viewNumber message <> PBFT.viewNumber e ->
  PBFT.handlePrePrepare message e = (e, None)
  /\ PBFT.handlePrepare message e = (e, None)
  /\ PBFT.handleCommit message e = PBFT.Done e.
Proof.
  intros Hview.
  unfold PBFT.handlePrePrepare, PBFT.handlePrepare, PBFT.handleCommit, PBFT.validateMessage.
  rewrite !(bool_decide_eq_false_2 (Msg.viewNumber message = PBFT.viewNumber e)) by done.
  cbn [negb].
  split; [|done]. by destruct (_ && _).
Qed.

(** X2. [handlePrepare] answers with a Commit exactly when it takes the engine
    from [PrePrepared] to [Prepared]: the Commit is the node's own, for the
    engine's view, sequence and digest, the Prepare list of the key has
    reached the threshold, and the Commit is appended to the node's Commit
    list.  Without an answer the state and the Commit lists are as before. *)
Theorem handlePrepare_replies_exactly_when_prepared (message : PBFTMessage) (e : Engine) :
  let e' := (PBFT.handlePrepare message e).1 in
  match (PBFT.handlePrepare message e).2 with
  | Some commitMsg =>
      PBFT.state e = PrePrepared /\ PBFT.state e' = Prepared
      /\ Msg.type commitMsg = Commit
      /\ Msg.nodeId commitMsg = PBFT.nodeId e
      /\ Msg.viewNumber commitMsg = PBFT.viewNumber e
      /\ Msg.sequenceNumber commitMsg = PBFT.sequenceNumber e
      /\ Msg.digest commitMsg = Some (PBFT.currentDigest e)
      /\ PBFT.consensusThreshold e
         <= Z.of_nat (length (PBFT.listAt (PBFT.prepareMessages e') (PBFT.keyOf message)))
      /\ PBFT.commitMessages e'
         = <[PBFT.keyOf message :=
               (PBFT.listAt (PBFT.commitMessages e) (PBFT.keyOf message) ++ [commitMsg])%list]>
             (PBFT.commitMessages e)
  | None =>
      PBFT.state e' = PBFT.state e /\ PBFT.commitMessages e' = PBFT.commitMessages e
  end.
Proof.
  cbn zeta. unfold PBFT.handlePrepare.
  destruct (negb _); [done|].
  case_bool_decide; [done|].
  case_bool_decide; [done|].
  case_bool_decide. { unfold PBFT.storePendingPrepareMessage. cbn zeta. by destruct (existsb _ _). }
  set (msgs := if existsb _ (PBFT.prepareListAtCheck message e) then _ else _).
  set (e1 := if _ && _ then _ else e).
  assert (He1 : PBFT.state e1 = PBFT.state e /\ PBFT.commitMessages e1 = PBFT.commitMessages e
                /\ PBFT.consensusThreshold e1 = PBFT.consensusThreshold e
                /\ PBFT.nodeId e1 = PBFT.nodeId e /\ PBFT.viewNumber e1 = PBFT.viewNumber e
                /\ PBFT.sequenceNumber e1 = PBFT.sequenceNumber e
                /\ PBFT.currentDigest e1 = PBFT.currentDigest e).
  { subst e1. by destruct (_ && _). }
  destruct He1 as (Hs & Hc & Ht & Hn & Hv & Hq & Hd).
  cbn [PBFT.consensusThreshold PBFT.state PBFT.set_prepareMessages].
  case_bool_decide as Hreach; cbn [andb]; [|by cbn].
  case_bool_decide as Hpp; cbn [fst snd]; [|by cbn].
  cbn. rewrite Hs in Hpp. unfold PBFT.listAt. rewrite lookup_insert_eq. cbn.
  rewrite <- Ht, Hc, Hn, Hv, Hq, Hd. done.
Qed.

Lemma sameIdentity_refl (e : Engine) : sameIdentity e e.
Proof. by repeat split. Qed.

(** X3. No operation of the engine changes its view, node id, role or
    threshold, and none forgets a completed sequence. *)
Theorem engine_identity_is_kept (e : Engine) :
  (forall proof consensusType,
      sameIdentity e (PBFT.startConsensus proof consensusType e).1)
  /\ (forall message, sameIdentity e (PBFT.handlePrePrepare message e).1)
  /\ (forall message, sameIdentity e (PBFT.handlePrepare message e).1)
  /\ (forall message,
        sameIdentity e (resultEngine (PBFT.handleCommit message e))
        /\ sameIdentity e (PBFT.afterCommit (PBFT.handleCommit message e))).
Proof.
  split; [|split; [|split]].
  - intros proof consensusType. unfold PBFT.startConsensus.
    destruct (negb _); [apply sameIdentity_refl|].
    destruct (negb _); [apply sameIdentity_refl|]. by repeat split.
  - intros message. unfold PBFT.handlePrePrepare, PBFT.validateMessage.
    destruct (_ && _); [apply sameIdentity_refl|].
    case_bool_decide as Hview; cbn [negb]; [|apply sameIdentity_refl].
    destruct (Msg.data message) as [data|]; [|apply sameIdentity_refl].
    destruct (negb _); [apply sameIdentity_refl|].
    destruct (_ || _); by repeat split.
  - intros message. unfold PBFT.handlePrepare.
    destruct (negb _); [apply sameIdentity_refl|].
    case_bool_decide; [apply sameIdentity_refl|].
    case_bool_decide; [apply sameIdentity_refl|].
    case_bool_decide.
    { unfold PBFT.storePendingPrepareMessage. cbn zeta.
      destruct (existsb _ _); by repeat split. }
    destruct (String.eqb _ _ && bool_decide _); cbn [PBFT.consensusThreshold
      PBFT.set_prepareMessages PBFT.set_pendingPrepareMessages PBFT.state];
      destruct (_ && _); by repeat split.
  - intros message. unfold PBFT.handleCommit.
    destruct (negb _); [split; apply sameIdentity_refl|].
    case_bool_decide; [split; apply sameIdentity_refl|].
    case_bool_decide; [split; apply sameIdentity_refl|].
    case_bool_decide. { by repeat split. }
    unfold PBFT.checkCommitConsensus.
    destruct (String.eqb _ _ && bool_decide _); cbn [PBFT.consensusThreshold
      PBFT.set_commitMessages PBFT.set_pendingCommitMessages PBFT.state];
      destruct (_ && _); cbn; repeat split; try done; set_solver.
Qed.

(** X4. When [handleCommit] reaches consensus the engine was [Prepared], the
    callback gets the current proposal and consensus type, the sequence is
    among the completed ones and the Commit list has reached the threshold;
    after the reset the engine is idle without proposal or digest, and
    Prepares and Commits of that sequence that come late are dropped. *)
Theorem commit_quorum_completes_the_round (message : PBFTMessage) (e e' : Engine)
        (callback : option (QoSProof * ConsensusType)) :
  PBFT.handleCommit message e = PBFT.Reached e' callback ->
  let idle := PBFT.afterCommit (PBFT.Reached e' callback) in
  PBFT.state e = Prepared
  /\ callback = (fun proposal => (proposal, PBFT.currentConsensusType e))
                  <$> PBFT.currentProposal e
  /\ PBFT.state e' = Committed
  /\ PBFT.completedSequences e' = {[ PBFT.sequenceNumber e ]} ∪ PBFT.completedSequences e
  /\ PBFT.consensusThreshold e
     <= Z.of_nat (length (PBFT.listAt (PBFT.commitMessages e') (PBFT.keyOf message)))
  /\ PBFT.state idle = Idle
  /\ PBFT.currentProposal idle = None
  /\ PBFT.currentDigest idle = ""
  /\ PBFT.currentConsensusType idle = Normal
  /\ forall late,
       Msg.sequenceNumber late = PBFT.sequenceNumber e ->
       PBFT.handlePrepare late idle = (idle, None)
       /\ PBFT.handleCommit late idle = PBFT.Done idle.
Proof.
  intros Hreached idle. subst idle.
  unfold PBFT.handleCommit in Hreached.
  destruct (negb _); [done|].
  case_bool_decide; [done|].
  case_bool_decide; [done|].
  case_bool_decide as Hlow; [done|].
  unfold PBFT.checkCommitConsensus in Hreached.
  assert (Hstate : PBFT.state e = Prepared).
  { destruct (PBFT.state e); cbn in *; done || lia. }
  destruct (String.eqb _ _ && bool_decide _);
    cbn [PBFT.consensusThreshold PBFT.set_commitMessages PBFT.set_pendingCommitMessages
         PBFT.state PBFT.sequenceNumber PBFT.completedSequences PBFT.currentProposal
         PBFT.currentConsensusType] in Hreached;
    (case_bool_decide as Hcount; cbn [andb] in Hreached; [|done]);
    (case_bool_decide; [|done]);
    injection Hreached as <- <-;
    (split; [done|]); (split; [done|]); (split; [done|]); (split; [done|]);
    (split; [unfold PBFT.listAt in *; cbn in *; rewrite lookup_insert_eq in *; exact Hcount|]);
    (split; [done|]); (split; [done|]); (split; [done|]); (split; [done|]);
    intros late Hlate;
    (split; [apply handlePrepare_completed|apply handleCommit_completed]);
    cbn; rewrite Hlate; set_solver.
Qed.







(** X5. A Prepare of another node that reaches an idle follower before the
    PrePrepare of its round, when the follower holds no Prepare of that
    round yet, is not lost: it is put aside, and after the PrePrepare it is
    counted behind the follower's own Prepare and no longer pending. *)
Theorem early_prepare_is_counted (early prePrepare : PBFTMessage) (data : QoSProof)
        (e : Engine) :
  PBFT.state e = Idle ->
  PBFT.isLeader e = false ->
  Msg.viewNumber early = PBFT.viewNumber e ->
  Msg.sequenceNumber early ∉ PBFT.completedSequences e ->
  Msg.nodeId early <> PBFT.nodeId e ->
  PBFT.keyOf prePrepare = PBFT.keyOf early ->
  Msg.data prePrepare = Some data ->
  Msg.digest prePrepare = Some (calculateHash data) ->
  PBFT.prepareMessages e !! PBFT.keyOf early = None ->
  PBFT.pendingPrepareMessages e !! PBFT.keyOf early = None ->
  let e1 := (PBFT.handlePrepare early e).1 in
  let e2 := (PBFT.handlePrePrepare prePrepare e1).1 in
  PBFT.handlePrepare early e = (e1, None)
  /\ PBFT.state e1 = Idle
  /\ PBFT.prepareMessages e1 = PBFT.prepareMessages e
  /\ PBFT.pendingPrepareMessages e1 !! PBFT.keyOf early = Some [early]
  /\ exists own,
       PBFT.handlePrePrepare prePrepare e1 = (e2, Some own)
       /\ Msg.nodeId own = PBFT.nodeId e
       /\ PBFT.state e2 = PrePrepared
       /\ PBFT.prepareMessages e2 !! PBFT.keyOf early = Some [own]
       /\ let e3 := (PBFT.handlePrepare own e2).1 in
          PBFT.prepareMessages e3 !! PBFT.keyOf early = Some [own; early]
          /\ PBFT.pendingPrepareMessages e3 !! PBFT.keyOf early = None.
Proof.
  intros Hidle Hfollower Hview Hseq Hother Hkey Hdata Hdigest Hnone Hnopending.
  assert (Hbuffered : PBFT.handlePrepare early e
                      = (PBFT.set_pendingPrepareMessages
                           (<[PBFT.keyOf early := [early]]> (PBFT.pendingPrepareMessages e)) e,
                         None)).
  { unfold PBFT.handlePrepare, PBFT.validateMessage, PBFT.storePendingPrepareMessage.
    rewrite (bool_decide_eq_true_2 _ Hview). cbn [negb].
    rewrite (bool_decide_eq_false_2 _ Hseq), Hidle. cbn [rank].
    rewrite bool_decide_eq_false_2 by lia. rewrite bool_decide_eq_true_2 by lia.
    cbn zeta. unfold PBFT.listAt. rewrite Hnopending. done. }
  cbn zeta. rewrite Hbuffered. cbn [fst].
  split; [done|]. split; [done|]. split; [done|].
  split; [by cbn; rewrite lookup_insert_eq|].
  injection Hkey as Hv Hs.
  unfold PBFT.handlePrePrepare, PBFT.validateMessage.
  cbn [PBFT.state PBFT.isLeader PBFT.viewNumber PBFT.set_pendingPrepareMessages].
  rewrite Hidle, Hfollower, Hdata, Hdigest, Hv, Hview.
  rewrite (bool_decide_eq_true_2 (Idle = Idle)) by done.
  rewrite (bool_decide_eq_true_2 (PBFT.viewNumber e = PBFT.viewNumber e)) by done.
  rewrite (bool_decide_eq_true_2 (Some (calculateHash data) = Some (calculateHash data)))
    by done.
  cbn [negb andb orb fst snd].
  eexists. split; [reflexivity|]. cbn.
  unfold PBFT.keyOf in *. rewrite Hs, <- Hview.
  unfold PBFT.listAt. rewrite Hnone. cbn.
  split; [done|]. split; [done|]. split; [by rewrite lookup_insert_eq|].
  match goal with |- context [PBFT.handlePrepare ?m ?e2] => set (own := m) end.
  assert (Hown : Msg.nodeId own = PBFT.nodeId e /\ Msg.viewNumber own = Msg.viewNumber early
                 /\ Msg.sequenceNumber own = Msg.sequenceNumber early) by done.
  destruct Hown as (Hown & Hownv & Howns). clearbody own.
  assert (Hsender : String.eqb (PBFT.nodeId e) (Msg.nodeId early) = false)
    by (apply String.eqb_neq; congruence).
  unfold PBFT.handlePrepare, PBFT.validateMessage, PBFT.prepareListAtCheck, PBFT.keyOf,
    PBFT.listAt, PBFT.drain, PBFT.sameSender.
  rewrite Hown, Hownv, Howns.
  cbn [Msg.viewNumber Msg.sequenceNumber Msg.nodeId PBFT.viewNumber PBFT.state
       PBFT.completedSequences PBFT.nodeId PBFT.prepareMessages PBFT.pendingPrepareMessages
       PBFT.set_prepareMessages PBFT.set_currentConsensusType PBFT.set_state
       PBFT.set_sequenceNumber PBFT.set_viewNumber PBFT.set_currentDigest
       PBFT.set_currentProposal PBFT.set_pendingPrepareMessages rank].
  rewrite (bool_decide_eq_true_2 (Msg.viewNumber early = Msg.viewNumber early)) by done.
  rewrite (bool_decide_eq_false_2 _ Hseq).
  rewrite !(bool_decide_eq_false_2 (1 < 1)) by lia.
  rewrite !lookup_insert_eq, String.eqb_refl.
  cbn [negb andb default from_option id length fold_left existsb orb].
  rewrite !(bool_decide_eq_true_2 (1%nat = 1%nat)) by done.
  cbn [negb andb default from_option id length fold_left existsb orb app].
  rewrite Hown, Hsender.
  cbn [negb andb default from_option id length fold_left existsb orb app].
  rewrite Hown, String.eqb_refl.
  cbn [negb andb default from_option id length fold_left existsb orb app].
  destruct (_ && _); cbn; by rewrite lookup_insert_eq, ?lookup_delete_eq.
Qed.

End EngineFurther.


(* ===================================================================== *)
(** ** The threshold                                                    *)
(* ===================================================================== *)

Section Quorum.

(** X7. In a committee of [3f + 1] nodes the threshold of the constructor is
    [2f + 1], and two sets of nodes that reach it share at least [f + 1]
    nodes. *)
Theorem quorums_of_3f_plus_1_intersect (f : Z) (committee Q1 Q2 : gset string) :
  0 <= f ->
  Z.of_nat (size committee) = 3 * f + 1 ->
  Q1 ⊆ committee -> Q2 ⊆ committee ->
  PBFT.threshold (Z.of_nat (size committee)) <= Z.of_nat (size Q1) ->
  PBFT.threshold (Z.of_nat (size committee)) <= Z.of_nat (size Q2) ->
  PBFT.threshold (Z.of_nat (size committee)) = 2 * f + 1
  /\ f + 1 <= Z.of_nat (size (Q1 ∩ Q2)).
Proof.
  intros Hf Hsize Hsub1 Hsub2 Hq1 Hq2. unfold PBFT.threshold in *.
  assert (Hunion : (size (Q1 ∪ Q2) <= size committee)%nat)
    by (by apply subseteq_size, union_least).
  rewrite size_union_alt, size_difference_alt in Hunion.
  assert (Hinter : (size (Q2 ∩ Q1) <= size Q2)%nat)
    by apply subseteq_size, intersection_subseteq_l.
  rewrite (comm_L (∩) Q1 Q2).
  rewrite Hsize in *. replace (3 * f + 1 - 1) with (f * 3) in * by lia.
  rewrite Z.div_mul in * by done. lia.
Qed.

(** with six nodes the threshold is 3, and two quorums need not meet *)
Example quorums_of_six_may_be_disjoint :
  let committee : gset string := {[ "n1"; "n2"; "n3"; "n4"; "n5"; "n6" ]} in
  let Q1 : gset string := {[ "n1"; "n2"; "n3" ]} in
  let Q2 : gset string := {[ "n4"; "n5"; "n6" ]} in
  PBFT.threshold (Z.of_nat (size committee)) = 3
  /\ Z.of_nat (size Q1) = 3 /\ Z.of_nat (size Q2) = 3 /\ Q1 ∩ Q2 = ∅.
Proof. cbn zeta. repeat split; by vm_compute. Qed.

End Quorum.


(* ===================================================================== *)
(** ** Further properties of the validator                              *)
(* ===================================================================== *)

Section ValidatorFurther.
Context `{Primitives}.

Lemma validateStructure_spec (proof : QoSProof) :
  isValid (Validator.validateStructure proof) = true
  <-> Proof.taskId proof <> "" /\ Proof.verifierId proof <> ""
      /\ Proof.signature proof <> "".
Proof.
  unfold Validator.validateStructure. rewrite <- !truthy_spec.
  destruct (JS.truthy (Proof.taskId proof)), (JS.truthy (Proof.verifierId proof)),
    (JS.truthy (Proof.signature proof)); cbn; intuition congruence.
Qed.

Lemma validateTimeLogic_spec (now : Z) (proof : QoSProof) :
  isValid (Validator.validateTimeLogic now proof) = true
  <-> Proof.timestamp proof <= now /\ now - Proof.timestamp proof <= Validator.ONE_WEEK.
Proof.
  unfold Validator.validateTimeLogic. cbn zeta.
  repeat case_bool_decide; cbn; split; try done; lia.
Qed.

(** a proof with a signature passes the signature step *)
Lemma validateSignature_after_structure (proof : QoSProof) :
  isValid (Validator.validateStructure proof) = true ->
  Validator.validateSignature proof = Validator.valid.
Proof.
  intros Hs. apply validateStructure_spec in Hs as (_ & _ & Hsig).
  unfold Validator.validateSignature.
  apply truthy_spec in Hsig as Htruthy. rewrite Htruthy. cbn [negb orb].
  rewrite bool_decide_eq_false_2; [done|]. by destruct (Proof.signature proof).
Qed.

(** X9. The signature step of [quickValidate] decides nothing: a proof that
    passes the structure step passes it, and [quickValidate] never gives
    the reason of an invalid signature. *)
Theorem quickValidate_signature_step_never_fails (now : Z) (proof : QoSProof) :
  (isValid (Validator.validateStructure proof) = true ->
   Validator.validateSignature proof = Validator.valid)
  /\ reasonOf (details (Validator.quickValidate now proof)) <> "签名无效".
Proof.
  split; [apply validateSignature_after_structure|].
  unfold Validator.quickValidate. cbn zeta.
  destruct (isValid (Validator.validateStructure proof)) eqn:Hs; cbn [negb].
  2:{ unfold Validator.validateStructure in *. by case_bool_decide. }
  rewrite (validateSignature_after_structure proof Hs).
  destruct (isValid (Validator.validateValueRanges proof)) eqn:Hr; cbn [negb].
  2:{ unfold Validator.validateValueRanges in *.
      destruct (_ || _); [done|]. destruct (Spec.bitrate _); [|done].
      by destruct (_ && _). }
  destruct (isValid (Validator.validateTimeLogic now proof)) eqn:Ht; cbn [negb].
  2:{ unfold Validator.validateTimeLogic in *. by repeat case_bool_decide. }
  by case_bool_decide.
Qed.

(** X8. [quickValidate] accepts a proof exactly when task id, verifier id and
    signature are not empty, the score is between 0 and 100, a bitrate that
    is given is not negative, the timestamp is not in the future and not
    older than a week, and there is a GOP score. *)
Theorem quickValidate_accepts_iff (now : Z) (proof : QoSProof) :
  isValid (Validator.quickValidate now proof) = true
  <-> Proof.taskId proof <> "" /\ Proof.verifierId proof <> ""
      /\ Proof.signature proof <> ""
      /\ (0 <= overallScore (Proof.videoQualityData proof))%Qc
      /\ (overallScore (Proof.videoQualityData proof) <= Q2Qc 100)%Qc
      /\ (forall br, Spec.bitrate (Proof.mediaSpecs proof) = Some br -> (0 <= br)%Qc)
      /\ Proof.timestamp proof <= now
      /\ now - Proof.timestamp proof <= 7 * 24 * 60 * 60 * 1000
      /\ gopScores (Proof.videoQualityData proof) <> [].
Proof.
  pose proof (validateStructure_spec proof) as Hstructure.
  pose proof (validateValueRanges_spec proof) as Hranges.
  pose proof (validateTimeLogic_spec now proof) as Htime.
  pose proof (validateSignature_after_structure proof) as Hsig.
  unfold Validator.quickValidate. cbn zeta.
  destruct (isValid (Validator.validateStructure proof)) eqn:Hs; cbn [negb].
  2:{ rewrite Hs. split; [done|]. intros (? & ? & ? & _). apply Hstructure. auto. }
  rewrite (Hsig eq_refl). cbn [isValid Validator.valid negb].
  destruct (isValid (Validator.validateValueRanges proof)) eqn:Hr; cbn [negb].
  2:{ rewrite Hr. split; [done|]. intros (_ & _ & _ & Hlo & Hhi & Hbr & _). exfalso.
      destruct (proj1 Hranges eq_refl) as [Hneg|[Hbig|(br & Hsome & Hneg)]].
      - by apply Qclt_not_le in Hneg.
      - by apply Qclt_not_le in Hbig.
      - apply Qclt_not_le in Hneg. by apply Hneg, Hbr. }
  destruct (isValid (Validator.validateTimeLogic now proof)) eqn:Ht; cbn [negb].
  2:{ rewrite Ht. split; [done|]. intros (_ & _ & _ & _ & _ & _ & ? & ? & _).
      apply Htime. auto. }
  destruct (proj1 Hstructure eq_refl) as (Htask & Hver & Hsignature).
  destruct (proj1 Htime eq_refl) as (Hpast & Hfresh).
  assert (Hin : (0 <= overallScore (Proof.videoQualityData proof))%Qc
                /\ (overallScore (Proof.videoQualityData proof) <= Q2Qc 100)%Qc
                /\ (forall br, Spec.bitrate (Proof.mediaSpecs proof) = Some br ->
                               (0 <= br)%Qc)).
  { repeat split.
    - apply Qcnot_lt_le. intros Hneg. by assert (true = false) by (apply Hranges; auto).
    - apply Qcnot_lt_le. intros Hbig. by assert (true = false) by (apply Hranges; auto).
    - intros br Hbr. apply Qcnot_lt_le. intros Hneg.
      by assert (true = false) by (apply Hranges; eauto). }
  destruct Hin as (Hlo & Hhi & Hbr).
  case_bool_decide as Hgops; cbn.
  - split; [done|]. intros (_ & _ & _ & _ & _ & _ & _ & _ & Hsome).
    by destruct (gopScores _).
  - split; [|done]. intros _. repeat split; try done.
    intros Hnil. by rewrite Hnil in Hgops.
Qed.

(** what [analyzeConflictType] makes of each reason deep validation gives *)
Lemma deepValidate_shapes (proofs : list QoSProof) :
  let r := Validator.deepValidate proofs in
  ((length proofs < 2)%nat /\ isValid r = false /\ hasConflict r = false)
  \/ ((2 <= length proofs)%nat /\ isValid r = true /\ hasConflict r = false)
  \/ ((2 <= length proofs)%nat /\ isValid r = false /\ hasConflict r = true
      /\ (reasonOf (details r) = "码率差异过大"
          \/ reasonOf (details r) = "视频质量评分存在显著差异")
      /\ Validator.analyzeConflictType r = score)
  \/ ((2 <= length proofs)%nat /\ isValid r = false /\ hasConflict r = true
      /\ reasonOf (details r) <> "码率差异过大"
      /\ reasonOf (details r) <> "视频质量评分存在显著差异"
      /\ Validator.analyzeConflictType r = structural).
Proof.
  cbn zeta. destruct (decide (length proofs < 2)%nat) as [Hfew|Hmany].
  { left. unfold Validator.deepValidate. by rewrite bool_decide_eq_true_2. }
  right. assert (Hlen : (2 <= length proofs)%nat) by lia. clear Hmany.
  pose proof (deepValidate_cases proofs Hlen) as Hcases. cbn zeta in Hcases.
  pose proof (validateMediaSpecsConsistency_cases proofs) as Hspec. cbn zeta in Hspec.
  pose proof (validateVideoQualityConsistency_reason proofs) as Hvideo. cbn zeta in Hvideo.
  pose proof (validateAudioConsistency_reason proofs) as Haudio. cbn zeta in Haudio.
  unfold Validator.analyzeConflictType.
  destruct Hcases as [(Hf & ->)|[(_ & Hf & ->)|[(_ & _ & Hf & ->)|(_ & _ & _ & Hv & Hc & _)]]].
  - destruct Hspec as [(_ & _ & -> & ->)|[(_ & _ & _ & -> & ->)|[(_ & _ & _ & _ & -> & ->)
      |[(_ & _ & _ & _ & _ & -> & ->)|(_ & _ & _ & _ & Hvalid)]]]];
      [right; right; by vm_compute|right; right; by vm_compute|right; left
      |right; right; by vm_compute|by rewrite Hvalid in Hf].
    repeat split; try done. by left.
  - destruct Hvideo as [Hvalid|(_ & -> & [->|(gopId & ->)])]; [by rewrite Hvalid in Hf| |].
    + right; left. repeat split; try done. by right.
    + right; right. repeat split; try done. cbn [negb].
      by destruct (JS.includes _ "编码格式不一致"), (JS.includes _ "分辨率不一致").
  - destruct Haudio as [Hvalid|(_ & -> & [->|[->| ->]])]; [by rewrite Hvalid in Hf|..];
      right; right; by vm_compute.
  - left. by repeat split.
Qed.

(** X10. [deepValidate] reports no conflict exactly when it accepts or has fewer
    than two proofs; [analyzeConflictType] gives [none] exactly without a
    conflict, [score] exactly for a conflict whose reason is the bitrate
    or the overall score, and [structural] for every other conflict. *)
Theorem deepValidate_classification (proofs : list QoSProof) :
  let r := Validator.deepValidate proofs in
  (hasConflict r = false <-> isValid r = true \/ (length proofs < 2)%nat)
  /\ (Validator.analyzeConflictType r = none <-> hasConflict r = false)
  /\ (Validator.analyzeConflictType r = score
      <-> hasConflict r = true
          /\ (reasonOf (details r) = "码率差异过大"
              \/ reasonOf (details r) = "视频质量评分存在显著差异"))
  /\ (Validator.analyzeConflictType r = structural
      <-> hasConflict r = true
          /\ reasonOf (details r) <> "码率差异过大"
          /\ reasonOf (details r) <> "视频质量评分存在显著差异").
Proof.
  cbn zeta.
  destruct (deepValidate_shapes proofs)
    as [(Hlen & Hv & Hc)|[(Hlen & Hv & Hc)|[(Hlen & Hv & Hc & Hr & Ht)
       |(Hlen & Hv & Hc & Hr1 & Hr2 & Ht)]]]; cbn zeta in *.
  - assert (Ht : Validator.analyzeConflictType (Validator.deepValidate proofs) = none)
      by (unfold Validator.analyzeConflictType; by rewrite Hc).
    rewrite Ht, Hv, Hc. repeat split; try done; try tauto; intros []; done.
  - assert (Ht : Validator.analyzeConflictType (Validator.deepValidate proofs) = none)
      by (unfold Validator.analyzeConflictType; by rewrite Hc).
    rewrite Ht, Hv, Hc. repeat split; try done; try tauto; intros []; done.
  - rewrite Ht, Hv, Hc. repeat split; try done; try tauto.
    all: try (intros [?|?]; (done || lia)).
    all: try (intros (_ & ? & ?); destruct Hr; done).
  - rewrite Ht, Hv, Hc. repeat split; try done; try tauto.
    all: try (intros [?|?]; (done || lia)).
    all: try (intros (_ & [?|?]); done).
Qed.

Lemma firstOutlier_elem (avg : JS.num) (proofs : list QoSProof) :
  forall i j p, Validator.firstOutlier avg i proofs = Some (j, p) -> p ∈ proofs.
Proof.
  induction proofs as [|q rest IH]; intros i j p Hfound; [done|].
  cbn in Hfound. destruct (JS.gt _ _).
  - injection Hfound as _ <-. left.
  - right. by eapply IH.
Qed.

(** X11. The verifiers that [deepValidate] names as conflicting sent one of the
    proofs, and a result that is valid names none. *)
Theorem conflicting_verifiers_are_submitters (proofs : list QoSProof) :
  let r := Validator.deepValidate proofs in
  (forall verifier, verifier ∈ conflictingVerifiers r ->
                    verifier ∈ Validator.verifiers proofs)
  /\ (isValid r = true -> conflictingVerifiers r = []).
Proof.
  cbn zeta. unfold Validator.deepValidate.
  case_bool_decide; [split; [by intros v Hv; apply elem_of_nil in Hv|done]|].
  assert (Hspec : forall v,
             v ∈ conflictingVerifiers (Validator.validateMediaSpecsConsistency proofs) ->
             v ∈ Validator.verifiers proofs).
  { unfold Validator.validateMediaSpecsConsistency. cbn zeta.
    repeat (case_bool_decide || destruct (existsb _ _)); cbn; try done;
      by intros v Hv; apply elem_of_nil in Hv. }
  assert (Hvideo : forall v,
             v ∈ conflictingVerifiers (Validator.validateVideoQualityConsistency proofs) ->
             v ∈ Validator.verifiers proofs).
  { unfold Validator.validateVideoQualityConsistency. cbn zeta.
    destruct (Validator.firstOutlier _ _ _) as [[i p]|] eqn:Hout.
    - cbn. intros v Hv. apply list_elem_of_singleton in Hv as ->.
      apply list_elem_of_fmap. exists p. split; [done|]. by eapply firstOutlier_elem.
    - destruct (existsb _ _); [|by intros v Hv; apply elem_of_nil in Hv].
      destruct (Validator.firstGopConflict _ _) as [[gopId scores]|]; cbn; [done|].
      by intros v Hv; apply elem_of_nil in Hv. }
  assert (Haudio : forall v,
             v ∈ conflictingVerifiers (Validator.validateAudioConsistency proofs) ->
             v ∈ Validator.verifiers proofs).
  { unfold Validator.validateAudioConsistency.
    destruct proofs as [|first rest]; [by intros v Hv; apply elem_of_nil in Hv|].
    destruct (negb _).
    - destruct (negb _); cbn; [done|]. by intros v Hv; apply elem_of_nil in Hv.
    - cbn zeta. case_bool_decide.
      + cbn [conflictingVerifiers Validator.conflict]. unfold Validator.verifiers. intros v Hv.
        apply list_elem_of_fmap in Hv as (p & -> & Hp).
        apply list_elem_of_filter in Hp as [_ Hp].
        apply list_elem_of_fmap. eauto.
      + destruct (existsb _ _); cbn; [done|]. by intros v Hv; apply elem_of_nil in Hv. }
  destruct (isValid (Validator.validateMediaSpecsConsistency proofs)); cbn [negb];
    [|split; [done|]].
  2:{ unfold Validator.validateMediaSpecsConsistency. cbn zeta.
      repeat (case_bool_decide || destruct (existsb _ _)); cbn; done. }
  destruct (isValid (Validator.validateVideoQualityConsistency proofs)); cbn [negb];
    [|split; [done|]].
  2:{ unfold Validator.validateVideoQualityConsistency. cbn zeta.
      destruct (Validator.firstOutlier _ _ _) as [[i p]|]; [done|].
      destruct (existsb _ _); [|done].
      by destruct (Validator.firstGopConflict _ _) as [[gopId scores]|]. }
  destruct (isValid (Validator.validateAudioConsistency proofs)); cbn [negb];
    [|split; [done|]].
  2:{ unfold Validator.validateAudioConsistency.
      destruct proofs as [|first rest]; [done|].
      destruct (negb _); [by destruct (negb _)|].
      cbn zeta. case_bool_decide; [done|]. by destruct (existsb _ _). }
  split; [|done]. by intros v Hv; apply elem_of_nil in Hv.
Qed.

End ValidatorFurther.


(* ===================================================================== *)
(** ** The resolution of conflicts                                      *)
(* ===================================================================== *)

Section Resolution.
Context `{Primitives}.

Lemma occurrences_snoc (v x : Value) (values : list Value) :
  occurrences v (values ++ [x]) = (occurrences v values + if decide (x = v) then 1 else 0)%nat.
Proof.
  unfold occurrences. rewrite list.filter_app, length_app. f_equal.
  rewrite filter_cons, filter_nil. by destruct (decide (x = v)).
Qed.

Lemma bump_fresh (valueCounts : list (Value * nat)) (x : Value) :
  x ∉ valueCounts.*1 -> Validator.bump valueCounts x = (valueCounts ++ [(x, 1%nat)])%list.
Proof.
  induction valueCounts as [|[k c] rest IH]; intros Hfresh; [done|].
  cbn in *. apply not_elem_of_cons in Hfresh as [Hne Hfresh].
  rewrite bool_decide_eq_false_2 by done. by rewrite IH.
Qed.

Lemma bump_known (valueCounts : list (Value * nat)) (x : Value) (c : nat) :
  NoDup valueCounts.*1 -> (x, c) ∈ valueCounts ->
  exists before after,
    valueCounts = (before ++ (x, c) :: after)%list
    /\ Validator.bump valueCounts x = (before ++ (x, S c) :: after)%list.
Proof.
  induction valueCounts as [|[k c'] rest IH]; intros Hnd Hin.
  { by apply elem_of_nil in Hin. }
  cbn in Hnd. apply list.NoDup_cons in Hnd as [Hk Hnd]. cbn.
  apply elem_of_cons in Hin as [Heq|Hin].
  - injection Heq as <- <-. rewrite bool_decide_eq_true_2 by done.
    by exists [], rest.
  - assert (k <> x) as Hne.
    { intros ->. apply Hk. apply list_elem_of_fmap. by exists (x, c). }
    rewrite bool_decide_eq_false_2 by done.
    destruct (IH Hnd Hin) as (before & after & -> & ->).
    by exists ((k, c') :: before), after.
Qed.

Lemma counts_bump (seen : list Value) (valueCounts : list (Value * nat)) (x : Value) :
  counts seen valueCounts -> counts (seen ++ [x]) (Validator.bump valueCounts x).
Proof.
  intros [Hnd Hc].
  destruct (decide (x ∈ valueCounts.*1)) as [Hin|Hfresh].
  - apply list_elem_of_fmap in Hin as ([k c] & Hk & Hin). cbn in Hk. subst k.
    destruct (bump_known _ _ _ Hnd Hin) as (before & after & Hsplit & ->).
    destruct (proj1 (Hc x c) Hin) as [Hcx Hpos].
    rewrite Hsplit in Hnd, Hc. split.
    + by rewrite fmap_app, fmap_cons in *.
    + intros v n. rewrite occurrences_snoc.
      rewrite elem_of_app, elem_of_cons. specialize (Hc v n).
      rewrite elem_of_app, elem_of_cons in Hc.
      rewrite fmap_app, fmap_cons in Hnd. cbn in Hnd.
      apply list.NoDup_app in Hnd as (_ & Hdisj & Hnd).
      apply list.NoDup_cons in Hnd as [Hafter _].
      destruct (decide (x = v)) as [<-|Hne].
      * split.
        -- intros [Hb|[Heq|Ha]].
           ++ exfalso. eapply Hdisj; [|left]. apply list_elem_of_fmap. by exists (x, n).
           ++ injection Heq as ->. lia.
           ++ exfalso. apply Hafter. apply list_elem_of_fmap. by exists (x, n).
        -- intros [-> _]. right. left. f_equal. lia.
      * rewrite Nat.add_0_r. rewrite <- Hc. split.
        -- intros [?|[Heq|?]]; [by left|congruence|by right; right].
        -- intros [?|[Heq|?]]; [by left|congruence|by right; right].
  - rewrite (bump_fresh _ _ Hfresh). split.
    + rewrite fmap_app. apply list.NoDup_app. split; [done|].
      split; [|apply NoDup_singleton].
      intros v Hv Hx. apply list_elem_of_singleton in Hx. by subst v.
    + intros v n. rewrite occurrences_snoc, elem_of_app, list_elem_of_singleton.
      rewrite (Hc v n).
      destruct (decide (x = v)) as [<-|Hne].
      * assert (occurrences x seen = 0%nat) as Hzero.
        { destruct (occurrences x seen) as [|m] eqn:Hocc; [done|].
          exfalso. apply Hfresh. apply list_elem_of_fmap. exists (x, S m).
          split; [done|]. apply Hc. split; [done|lia]. }
        rewrite Hzero. split.
        -- intros [[-> ?]|Heq]; [lia|]. injection Heq as ->. lia.
        -- intros [-> _]. by right.
      * rewrite Nat.add_0_r. split; [|by left].
        intros [?|Heq]; [done|congruence].
Qed.

Lemma counts_tally (values : list Value) : counts values (Validator.tally values).
Proof.
  unfold Validator.tally.
  assert (Hgen : forall seen valueCounts,
             counts seen valueCounts ->
             counts (seen ++ values) (fold_left Validator.bump values valueCounts)).
  { induction values as [|x values IH]; intros seen valueCounts Hc; cbn.
    - by rewrite app_nil_r.
    - replace (seen ++ x :: values)%list with ((seen ++ [x]) ++ values)%list
        by (by rewrite <- app_assoc).
      apply IH. by apply counts_bump. }
  apply (Hgen [] []). split; [constructor|].
  intros v c. split; [by intros Hin; apply elem_of_nil in Hin|].
  intros [-> Hpos]. cbn in Hpos. lia.
Qed.

Lemma pickMajority_fold (valueCounts : list (Value * nat)) :
  forall maxCount majorityValue,
    let r := fold_left
               (fun '(maxCount, majorityValue) '(value, count) =>
                  if bool_decide (maxCount < count)%nat then (count, value)
                  else (maxCount, majorityValue))
               valueCounts (maxCount, majorityValue) in
    (maxCount <= r.1)%nat
    /\ (forall v c, (v, c) ∈ valueCounts -> (c <= r.1)%nat)
    /\ (r = (maxCount, majorityValue) \/ (r.2, r.1) ∈ valueCounts).
Proof.
  induction valueCounts as [|[value count] rest IH]; intros maxCount majorityValue.
  { cbn. split; [done|]. split; [|by left]. by intros v c Hin; apply elem_of_nil in Hin. }
  cbn [fold_left]. cbn zeta.
  case_bool_decide as Hlt.
  - destruct (IH count value) as (Hle & Hall & Hwhich). cbn zeta in *.
    split; [lia|]. split.
    + intros v c Hin. apply elem_of_cons in Hin as [Heq|Hin]; [|by eapply Hall].
      by injection Heq as -> ->.
    + right. destruct Hwhich as [-> |Hin]; [cbn; left|by right].
  - destruct (IH maxCount majorityValue) as (Hle & Hall & Hwhich). cbn zeta in *.
    split; [done|]. split.
    + intros v c Hin. apply elem_of_cons in Hin as [Heq|Hin]; [|by eapply Hall].
      injection Heq as -> ->. lia.
    + destruct Hwhich as [Hsame|Hin]; [by left|by right; right].
Qed.

(** the value the loop picks occurs most often *)
Lemma pickMajority_tally (values : list Value) :
  values <> [] ->
  let picked := Validator.pickMajority (Validator.tally values) in
  picked.1 = occurrences picked.2 values
  /\ (0 < picked.1)%nat
  /\ forall v, (occurrences v values <= picked.1)%nat.
Proof.
  intros Hsome. cbn zeta.
  destruct (counts_tally values) as [_ Hcounts].
  destruct (pickMajority_fold (Validator.tally values) 0%nat VNull)
    as (_ & Hall & Hwhich).
  cbn zeta in *. fold (Validator.pickMajority (Validator.tally values)) in *.
  set (picked := Validator.pickMajority (Validator.tally values)) in *.
  assert (Hmax : forall v, (occurrences v values <= picked.1)%nat).
  { intros v. destruct (occurrences v values) as [|n] eqn:Hocc; [lia|].
    apply (Hall v). apply Hcounts. split; [done|lia]. }
  assert (Hpos : (0 < picked.1)%nat).
  { destruct values as [|x values]; [done|].
    specialize (Hmax x). unfold occurrences in Hmax.
    rewrite filter_cons in Hmax. destruct (decide (x = x)); [|done]. cbn [length] in Hmax. lia. }
  split; [|done].
  destruct Hwhich as [Hnone|Hin].
  - rewrite Hnone in Hpos. cbn in Hpos. lia.
  - by apply Hcounts in Hin as [-> _].
Qed.

Lemma structuralField_values (proofs : list QoSProof) (reason field : string)
      (values : list Value) :
  Validator.structuralField proofs reason = (field, values) ->
  field <> "" ->
  values = (fun p => Validator.getValueByField p field) <$> proofs.
Proof.
  unfold Validator.structuralField. intros Hfield Hsome.
  assert (Hempty : ("", @nil Value) = (field, values) -> values = []) by congruence.
  repeat match type of Hfield with
         | (if ?c then _ else _) = _ => destruct c
         | match ?o with Some _ => _ | None => _ end = _ => destruct o as [gop|]
         end;
    try (injection Hfield as <- <-; first [done | by apply list_fmap_ext; intros i p _]).
  injection Hfield as <- <-. apply list_fmap_ext. intros i p _.
  unfold Validator.getValueByField. cbv [String.append]. cbn. by destruct gop.
Qed.

Lemma occurrences_fmap {A} (g : A -> Value) (v : Value) (l : list A) :
  occurrences v (g <$> l) = length (filter (fun a => g a = v) l).
Proof.
  unfold occurrences. induction l as [|a l IH]; [done|].
  rewrite fmap_cons, !filter_cons. destruct (decide (g a = v)); cbn; by rewrite IH.
Qed.

(** X12. [resolveStructuralConflict] on a field with values: if some value is
    reported twice or more, the result is valid, resolved by majority, and
    its majority value is one that no other value outnumbers; if every
    value is reported once, the result is invalid and asks for a manual
    review. *)
Theorem structural_resolution_by_majority (proofs : list QoSProof)
        (initialResult : ValidationResult) (field : string) (values : list Value) :
  Validator.structuralField proofs (reasonOf (details initialResult)) = (field, values) ->
  field <> "" -> values <> [] ->
  let r := Validator.resolveStructuralConflict proofs initialResult in
  ((exists v, (2 <= occurrences v values)%nat) ->
   isValid r = true /\ resolvedBy r = Some majority /\ needsManualReview r = false
   /\ exists v, getProp (default [] (details r)) "majorityValue" = Some (JV v)
                /\ (2 <= occurrences v values)%nat
                /\ forall w, (occurrences w values <= occurrences v values)%nat)
  /\ ((forall v, (occurrences v values < 2)%nat) ->
      isValid r = false /\ resolvedBy r = Some manual /\ needsManualReview r = true
      /\ getProp (default [] (details r)) "values" = Some (JArr values)).
Proof.
  intros Hfield Hnamed Hsome. cbn zeta.
  unfold Validator.resolveStructuralConflict. cbn zeta. rewrite Hfield.
  apply truthy_spec in Hnamed as ->. cbn [negb orb].
  rewrite bool_decide_eq_false_2 by (by destruct values).
  destruct (pickMajority_tally values Hsome) as (Hcount & Hpos & Hmax). cbn zeta in *.
  destruct (Validator.pickMajority (Validator.tally values)) as [maxCount majorityValue].
  cbn [fst snd] in *. split.
  - intros (v & Hv). pose proof (Hmax v).
    rewrite bool_decide_eq_true_2 by lia. cbn.
    repeat split; try done. exists majorityValue.
    split; [done|]. split; [lia|]. intros w. rewrite <- Hcount. apply Hmax.
  - intros Hfew. specialize (Hfew majorityValue).
    rewrite bool_decide_eq_false_2 by lia. by cbn.
Qed.

(** X13. A valid result of [resolveStructuralConflict] splits the verifiers of
    the proofs into reliable and unreliable ones, none lost and none twice,
    with two reliable ones at least. *)
Theorem structural_resolution_partitions_verifiers (proofs : list QoSProof)
        (initialResult : ValidationResult) :
  let r := Validator.resolveStructuralConflict proofs initialResult in
  isValid r = true ->
  exists reliable unreliable,
    getProp (default [] (details r)) "reliableVerifiers" = Some (Validator.strs reliable)
    /\ getProp (default [] (details r)) "unreliableVerifiers"
       = Some (Validator.strs unreliable)
    /\ (reliable ++ unreliable)%list ≡ₚ Validator.verifiers proofs
    /\ (2 <= length reliable)%nat.
Proof.
  cbn zeta. unfold Validator.resolveStructuralConflict. cbn zeta.
  destruct (Validator.structuralField proofs _) as [field values] eqn:Hfield.
  destruct (negb (JS.truthy field)) eqn:Hnamed; cbn [orb]; [done|].
  case_bool_decide as Hsome; [done|].
  apply negb_false_iff, truthy_spec in Hnamed.
  assert (Hvalues : values <> []) by (by destruct values).
  destruct (pickMajority_tally values Hvalues) as (Hcount & _ & _). cbn zeta in *.
  destruct (Validator.pickMajority (Validator.tally values)) as [maxCount majorityValue].
  cbn [fst snd] in *.
  case_bool_decide as Htwice; [|done]. intros _.
  eexists _, _. split; [reflexivity|]. split; [reflexivity|]. split.
  - unfold Validator.verifiers. rewrite <- fmap_app.
    apply fmap_Permutation, filter_app_complement.
  - unfold Validator.verifiers. rewrite length_fmap.
    rewrite (structuralField_values _ _ _ _ Hfield Hnamed), occurrences_fmap in Hcount.
    by rewrite <- Hcount.
Qed.

Lemma indices_of_imap {A} (l : list A) :
  forall n, (imap (fun i x => ((n + i)%nat, x)) l).*1 = seq n (length l).
Proof.
  induction l as [|x l IH]; intros n; [done|].
  rewrite imap_cons. cbn. rewrite Nat.add_0_r. f_equal.
  rewrite <- (IH (S n)). f_equal. apply imap_ext. intros i y _. cbn. f_equal. lia.
Qed.

Lemma indices_of_indexed {A} (l : list A) :
  (imap (fun i x => (i, x)) l).*1 = seq 0 (length l).
Proof. apply (indices_of_imap l 0). Qed.

Lemma values_of_imap {A B} (g : A -> B) (l : list A) :
  forall n, (fun ip => g (snd ip)) <$> imap (fun i x => ((n + i)%nat, x)) l = g <$> l.
Proof.
  induction l as [|x l IH]; intros n; [done|].
  rewrite imap_cons. cbn. f_equal.
  rewrite <- (IH (S n)). f_equal. apply imap_ext. intros i y _. cbn. f_equal. lia.
Qed.

Lemma filter_members {A} `{EqDecision A} (chosen l : list A) :
  NoDup l -> NoDup chosen -> chosen ⊆ l ->
  filter (fun x => x ∈ chosen) l ≡ₚ chosen.
Proof.
  intros Hl Hc Hsub. apply list.NoDup_Permutation; [by apply list.NoDup_filter|done|].
  intros x. rewrite list_elem_of_filter. split; [tauto|]. intros Hx. split; [done|].
  by apply Hsub.
Qed.

Lemma length_filter_indices {A} (chosen : list nat) (l : list (nat * A)) :
  length (filter (fun ip => fst ip ∈ chosen) l)
  = length (filter (fun i => i ∈ chosen) l.*1).
Proof.
  induction l as [|[i x] l IH]; [done|].
  rewrite fmap_cons, !filter_cons. cbn [fst].
  destruct (decide (i ∈ chosen)); cbn; by rewrite IH.
Qed.

(** X14. [resolveScoreConflict] on two or more proofs with a conflict of scores
    or bitrates is valid and statistical, and it keeps exactly two verifiers
    as reliable; the others are the unreliable ones. *)
Theorem score_resolution_keeps_two (proofs : list QoSProof)
        (initialResult : ValidationResult) :
  JS.includes (reasonOf (details initialResult)) "视频质量评分存在显著差异" = true
  \/ JS.includes (reasonOf (details initialResult)) "码率差异过大" = true ->
  (2 <= length proofs)%nat ->
  let r := Validator.resolveScoreConflict proofs initialResult in
  isValid r = true /\ resolvedBy r = Some statistical /\ needsManualReview r = false
  /\ exists reliable unreliable,
       getProp (default [] (details r)) "reliableVerifiers"
       = Some (Validator.strs reliable)
       /\ getProp (default [] (details r)) "unreliableVerifiers"
          = Some (Validator.strs unreliable)
       /\ length reliable = 2%nat
       /\ (reliable ++ unreliable)%list ≡ₚ Validator.verifiers proofs.
Proof.
  intros Hreason Hlen. cbn zeta. unfold Validator.resolveScoreConflict. cbn zeta.
  destruct (Validator.scoreField proofs _) as [field values] eqn:Hfield.
  assert (Hnamed : JS.truthy field = true /\ length values = length proofs).
  { unfold Validator.scoreField in Hfield.
    destruct (JS.includes _ "视频质量评分存在显著差异").
    - injection Hfield as <- <-. by rewrite length_fmap.
    - destruct (JS.includes _ "码率差异过大").
      + injection Hfield as <- <-. by rewrite length_fmap.
      + by destruct Hreason. }
  destruct Hnamed as [-> Hvalues]. cbn [negb orb].
  rewrite bool_decide_eq_false_2 by lia.
  cbn [isValid resolvedBy needsManualReview details default getProp String.eqb
       Ascii.eqb Bool.eqb].
  split; [done|]. split; [done|]. split; [done|].
  eexists _, _. split; [reflexivity|]. split; [reflexivity|].
  set (deviations := (fun v => JS.abs (JS.sub v _)) <$> values).
  set (sorted := Validator.sortByDeviation (imap (fun i dev => (i, dev)) deviations)).
  set (closestIndices := (take 2 sorted).*1).
  assert (Hsorted : sorted.*1 ≡ₚ seq 0 (length proofs)).
  { subst sorted. unfold Validator.sortByDeviation.
    rewrite sort_Permutation, indices_of_indexed. subst deviations.
    by rewrite length_fmap, Hvalues. }
  assert (Hclosest : NoDup closestIndices /\ length closestIndices = 2%nat
                     /\ closestIndices ⊆ seq 0 (length proofs)).
  { subst closestIndices. rewrite fmap_take.
    assert (Hnd : NoDup sorted.*1) by (rewrite Hsorted; apply NoDup_seq).
    split; [|split].
    - eapply sublist_NoDup; [apply Hnd|apply sublist_take].
    - rewrite length_take_le; [done|]. by rewrite Hsorted, length_seq.
    - intros i Hi. apply (subseteq_take 2) in Hi. by rewrite Hsorted in Hi. }
  destruct Hclosest as (Hnd & Htwo & Hsub). split.
  - rewrite length_fmap, length_filter_indices, indices_of_indexed.
    rewrite (filter_members closestIndices); [done|apply NoDup_seq|done|done].
  - unfold Validator.verifiers. rewrite <- fmap_app, filter_app_complement.
    by rewrite <- (values_of_imap Proof.verifierId proofs 0).
Qed.

End Resolution.


(* ===================================================================== *)
(** ** The GOPs                                                         *)
(* ===================================================================== *)

Section Gops.
Context `{Primitives}.

Lemma spanNotClose_run (run rest : string) :
  noClose run = true ->
  JS.spanNotClose (run +:+ String ")"%char rest) = (run, String ")"%char rest).
Proof.
  induction run as [|c run IH]; intros Hrun; [done|].
  cbn in Hrun. apply andb_true_iff in Hrun as [Hc Hrun].
  apply negb_true_iff in Hc.
  change (JS.spanNotClose (String c (run +:+ String ")"%char rest))
          = (String c run, String ")"%char rest)).
  cbn [JS.spanNotClose]. by rewrite Hc, (IH Hrun).
Qed.

Lemma gop_prefix (tail : string) :
  JS.startsWith ("特定GOP(" +:+ tail) "特定GOP(" = true
  /\ JS.drop (String.length "特定GOP(") ("特定GOP(" +:+ tail) = tail.
Proof. unfold JS.startsWith. cbv [String.append]. cbn. by destruct tail. Qed.

(** X15. The GOP id that [validateVideoQualityConsistency] writes into its reason
    is the one [extractGopTimestampFromReason] reads back, when the id is
    not empty and has no closing parenthesis. *)
Theorem gop_id_is_read_back (gopId : string) :
  gopId <> "" -> noClose gopId = true ->
  Validator.extractGopTimestampFromReason ("特定GOP(" +:+ gopId +:+ ")评分不一致")
  = Some gopId.
Proof.
  intros Hsome Hrun.
  assert (Hat : Validator.gopAt ("特定GOP(" +:+ gopId +:+ ")评分不一致") = Some gopId).
  { unfold Validator.gopAt.
    destruct (gop_prefix (gopId +:+ ")评分不一致")) as [-> ->].
    change (")评分不一致") with (String ")"%char "评分不一致").
    rewrite (spanNotClose_run _ _ Hrun).
    apply truthy_spec in Hsome as ->. done. }
  remember ("特定GOP(" +:+ gopId +:+ ")评分不一致") as reason.
  destruct reason; cbn [Validator.extractGopTimestampFromReason]; by rewrite Hat.
Qed.

(** a closing parenthesis inside the id cuts it short, and an empty id is
    not found *)
Example gop_id_with_parenthesis_is_cut :
  Validator.extractGopTimestampFromReason "特定GOP(a)b)评分不一致" = Some "a"
  /\ Validator.extractGopTimestampFromReason "特定GOP()评分不一致" = None.
Proof. split; by vm_compute. Qed.


End Gops.


(* ===================================================================== *)
(** ** Further properties of the node                                   *)
(* ===================================================================== *)

Section NodeFurther.
Context `{Primitives}.

Lemma stored_or_same (n n' : Node) (taskId : string) :
  (Node.taskProofs n' = Node.taskProofs n
   \/ exists task stored,
        Node.taskProofs n'
        = <[task := (Node.getProofsForTask task n ++ [stored])%list]> (Node.taskProofs n)) ->
  Node.getProofsForTask taskId n `prefix_of` Node.getProofsForTask taskId n'.
Proof.
  unfold Node.getProofsForTask. intros [->|(task & stored & ->)]; [done|].
  destruct (decide (task = taskId)) as [->|Hne].
  - rewrite lookup_insert_eq. cbn. by apply prefix_app_r.
  - by rewrite lookup_insert_ne.
Qed.

Lemma step_appends (op : Op) (n : Node) (taskId : string) :
  Node.getProofsForTask taskId n `prefix_of` Node.getProofsForTask taskId (step op n).
Proof.
  apply stored_or_same.
  destruct op as [now proof|now task proof|now message|now message|now task];
    cbn [step].
  - destruct (handleQoSProof_buffer now proof n) as [[Hp|Hp] _]; [by left|right; eauto].
  - destruct (handleSupplementaryProof_buffer now task proof n) as [[Hp|[stored Hp]] _];
      [by left|right; eauto].
  - destruct (onMessageReceived_buffer now message n) as [Hp _]. by left.
  - destruct (keeps_handleSupplementaryMessage n n now message (keeps_refl n)) as [_ Hp].
    by left.
  - destruct (keeps_checkSupplementaryTimeout n n now task (keeps_refl n)) as [_ Hp].
    by left.
Qed.

(** X17. Whatever the node is asked to do, the proofs it stored for a task stay
    where they are: the list after a run begins with the list before. *)
Theorem stored_proofs_are_only_appended (ops : list Op) (n : Node) (taskId : string) :
  Node.getProofsForTask taskId n `prefix_of` Node.getProofsForTask taskId (run ops n).
Proof.
  revert n. unfold run.
  induction ops as [|op ops IH]; intros n; [done|].
  cbn [fold_left]. etrans; [apply step_appends|apply IH].
Qed.

Lemma set_taskStatuses_same (n : Node) : Node.set_taskStatuses (Node.taskStatuses n) n = n.
Proof. by destruct n. Qed.

(** X18. [handleQoSProof] leaves the node as it is when quick validation rejects
    the proof, and when the verifier of the proof is already listed for the
    task. *)
Theorem handleQoSProof_ignores_invalid_and_repeated (now : Z) (proof : QoSProof) (n : Node) :
  (isValid (Validator.quickValidate now proof) = false -> Node.handleQoSProof now proof n = n)
  /\ (forall status,
         Node.taskStatuses n !! Proof.taskId proof = Some status ->
         Proof.verifierId proof ∈ Task.verifierIds status ->
         Node.handleQoSProof now proof n = n).
Proof.
  split.
  - intros Hinvalid. unfold Node.handleQoSProof. by rewrite Hinvalid.
  - intros status Hstatus Hrepeated. unfold Node.handleQoSProof.
    destruct (negb _); [done|]. cbn zeta. rewrite Hstatus. cbn [default].
    rewrite bool_decide_eq_true_2 by done.
    unfold Node.setStatus. rewrite insert_id by done. apply set_taskStatuses_same.
Qed.

(** X19. [checkSupplementaryTimeout] acts once: a second check changes nothing.
    A task that waits without a supplementary verifier goes to manual
    review with the timeout as reason and its verifiers kept; in every
    other case the check changes nothing. *)
Theorem supplementary_timeout_is_idempotent (now now' : Z) (taskId : string) (n : Node) :
  let n' := Node.checkSupplementaryTimeout now taskId n in
  Node.checkSupplementaryTimeout now' taskId n' = n'
  /\ ((forall status,
          Node.taskStatuses n !! taskId = Some status ->
          Task.state status = AwaitingSupplementary ->
          default [] (Task.supplementaryVerifierIds status) = [] ->
          exists status',
            Node.taskStatuses n' !! taskId = Some status'
            /\ Task.state status' = NeedsManualReview
            /\ Task.timeoutReason (Task.info status')
               = Some "补充验证请求超时未收到响应（两小时）"
            /\ Task.verifierIds status' = Task.verifierIds status
            /\ Task.proofCount status' = Task.proofCount status)
      /\ ((forall status,
              Node.taskStatuses n !! taskId = Some status ->
              Task.state status <> AwaitingSupplementary
              \/ default [] (Task.supplementaryVerifierIds status) <> []) ->
          n' = n)).
Proof.
  cbn zeta. unfold Node.checkSupplementaryTimeout.
  destruct (Node.taskStatuses n !! taskId) as [status|] eqn:Hstatus.
  2:{ rewrite Hstatus. split; [done|]. split; [|done]. by intros status [=]. }
  case_bool_decide as Hstate; cbn [negb].
  2:{ rewrite Hstatus. rewrite bool_decide_eq_false_2 by done.
      split; [done|]. split; [|done]. intros ? [= <-] ?. done. }
  case_bool_decide as Hanswered.
  { rewrite Hstatus, bool_decide_eq_true_2 by done. cbn [negb].
    rewrite bool_decide_eq_true_2 by done.
    split; [done|]. split; [|done]. intros ? [= <-] _ Hnone.
    rewrite Hnone in Hanswered. cbn in Hanswered. lia. }
  split; [|split].
  - cbn. rewrite lookup_insert_eq. cbn. done.
  - intros ? [= <-] _ _. eexists. cbn. rewrite lookup_insert_eq. done.
  - intros Hnot. destruct (Hnot status eq_refl) as [?|Hsome]; [done|].
    exfalso. apply Hanswered. destruct (default [] _); [done|cbn; lia].
Qed.

End NodeFurther.


(* ===================================================================== *)
(** ** The verifiers a task record counts                               *)
(* ===================================================================== *)

Section Ids.
Context `{Primitives}.

Create HintDb ids.

Lemma sameIds_refl (st : TaskStatus) : sameIds st st.
Proof. by repeat split. Qed.

Lemma sameIds_trans (a b c : TaskStatus) : sameIds a b -> sameIds b c -> sameIds a c.
Proof. intros (? & ? & ?) (? & ? & ?). repeat split; congruence. Qed.

Lemma idsKept_refl (n : Node) : idsKept n n.
Proof.
  split; [done|]. intros t. destruct (Node.taskStatuses n !! t) as [st|]; [|by left].
  exists st. split; [done|apply sameIds_refl].
Qed.

(** a step that touches neither the records nor the proofs *)
Lemma idsKept_same (n0 n n' : Node) :
  Node.taskStatuses n' = Node.taskStatuses n -> Node.taskProofs n' = Node.taskProofs n ->
  idsKept n0 n -> idsKept n0 n'.
Proof. intros Hs Hp [Hproofs Hids]. split; [congruence|]. by rewrite Hs. Qed.

Lemma idsKept_set_pbftEngine n0 n x : idsKept n0 n -> idsKept n0 (Node.set_pbftEngine x n).
Proof. by apply idsKept_same. Qed.
Lemma idsKept_set_consensusQueue n0 n x :
  idsKept n0 n -> idsKept n0 (Node.set_consensusQueue x n).
Proof. by apply idsKept_same. Qed.
Lemma idsKept_set_processingConsensus n0 n x :
  idsKept n0 n -> idsKept n0 (Node.set_processingConsensus x n).
Proof. by apply idsKept_same. Qed.
Lemma idsKept_set_currentConsensusTaskId n0 n x :
  idsKept n0 n -> idsKept n0 (Node.set_currentConsensusTaskId x n).
Proof. by apply idsKept_same. Qed.
Lemma idsKept_set_pendingPrePrepareMessages n0 n x :
  idsKept n0 n -> idsKept n0 (Node.set_pendingPrePrepareMessages x n).
Proof. by apply idsKept_same. Qed.
Lemma idsKept_set_supplementaryReadyStatus n0 n x :
  idsKept n0 n -> idsKept n0 (Node.set_supplementaryReadyStatus x n).
Proof. by apply idsKept_same. Qed.
Lemma idsKept_set_pendingSupplementaryConsensus n0 n x :
  idsKept n0 n -> idsKept n0 (Node.set_pendingSupplementaryConsensus x n).
Proof. by apply idsKept_same. Qed.
Lemma idsKept_set_pendingFinalPrePrepareMessages n0 n x :
  idsKept n0 n -> idsKept n0 (Node.set_pendingFinalPrePrepareMessages x n).
Proof. by apply idsKept_same. Qed.
Lemma idsKept_set_outbox n0 n x : idsKept n0 n -> idsKept n0 (Node.set_outbox x n).
Proof. by apply idsKept_same. Qed.
Lemma idsKept_set_timers n0 n x : idsKept n0 n -> idsKept n0 (Node.set_timers x n).
Proof. by apply idsKept_same. Qed.
Lemma idsKept_send n0 n o : idsKept n0 n -> idsKept n0 (Node.send o n).
Proof. by apply idsKept_same. Qed.

(** a record is replaced by one with the same identities *)
Lemma idsKept_setStatus n0 n taskId st st' :
  Node.taskStatuses n !! taskId = Some st -> sameIds st st' ->
  idsKept n0 n -> idsKept n0 (Node.setStatus taskId st' n).
Proof.
  intros Hst Hsame [Hproofs Hids]. split; [done|]. intros t. specialize (Hids t).
  cbn. destruct (decide (taskId = t)) as [->|Hne].
  - rewrite lookup_insert_eq.
    destruct (Node.taskStatuses n0 !! t) as [st0|].
    + destruct Hids as (st1 & Hst1 & Hsame1). exists st'. split; [done|].
      rewrite Hst in Hst1. injection Hst1 as <-. by eapply sameIds_trans.
    + right. destruct Hids as [Hnone|(st1 & Hst1 & Hmade)]; [congruence|].
      exists st'. split; [done|]. rewrite Hst in Hst1. injection Hst1 as <-.
      destruct Hsame as (Hv & Hc & Hs), Hmade as (Hv' & Hc' & Hlen & Hs').
      repeat split; congruence.
  - by rewrite lookup_insert_ne.
Qed.

(** a record is made where there was none *)
Lemma idsKept_made n0 n taskId st' :
  Node.taskStatuses n !! taskId = None ->
  madeFrom (Node.getProofsForTask taskId n) st' ->
  idsKept n0 n -> idsKept n0 (Node.setStatus taskId st' n).
Proof.
  intros Hnone Hmade [Hproofs Hids]. split; [done|]. intros t. specialize (Hids t).
  cbn. destruct (decide (taskId = t)) as [->|Hne].
  - rewrite lookup_insert_eq.
    destruct (Node.taskStatuses n0 !! t) as [st0|].
    + destruct Hids as (st1 & Hst1 & _). congruence.
    + right. exists st'. split; [done|].
      unfold Node.getProofsForTask in Hmade. by rewrite Hproofs in Hmade.
  - by rewrite lookup_insert_ne.
Qed.

#[local] Hint Resolve idsKept_refl idsKept_set_pbftEngine idsKept_set_consensusQueue
  idsKept_set_processingConsensus idsKept_set_currentConsensusTaskId
  idsKept_set_pendingPrePrepareMessages idsKept_set_supplementaryReadyStatus
  idsKept_set_pendingSupplementaryConsensus idsKept_set_pendingFinalPrePrepareMessages
  idsKept_set_outbox idsKept_set_timers idsKept_send : ids.

#[local] Hint Extern 2 (idsKept _ (Node.setStatus _ _ _)) =>
  (eapply idsKept_setStatus; [cbn; eassumption|by repeat split|]) : ids.

(** split on what a function body branches on, then follow the calls *)
Ltac ids :=
  cbv zeta;
  repeat match goal with
         | |- idsKept _ ?n =>
             match n with
             | context [if ?b then _ else _] => destruct b eqn:?
             | context [match ?x with _ => _ end] => destruct x eqn:?
             end
         end;
  cbn [fst]; eauto 20 with ids.

Lemma idsKept_drainQueue queue :
  forall n0 n, idsKept n0 n -> idsKept n0 (Node.drainQueue queue n).
Proof.
  induction queue as [|taskId rest IH]; intros n0 n Hn; cbn [Node.drainQueue]; [ids|].
  ids.
Qed.
#[local] Hint Resolve idsKept_drainQueue : ids.

Lemma idsKept_processConsensusQueue n0 n :
  idsKept n0 n -> idsKept n0 (Node.processConsensusQueue n).
Proof. intros Hn. unfold Node.processConsensusQueue. ids. Qed.
#[local] Hint Resolve idsKept_processConsensusQueue : ids.

Lemma idsKept_enqueueConsensusTask n0 n taskId :
  idsKept n0 n -> idsKept n0 (Node.enqueueConsensusTask taskId n).
Proof. intros Hn. unfold Node.enqueueConsensusTask. ids. Qed.
#[local] Hint Resolve idsKept_enqueueConsensusTask : ids.

Lemma idsKept_requestSupplementaryValidation n0 n now taskId :
  idsKept n0 n -> idsKept n0 (Node.requestSupplementaryValidation now taskId n).
Proof. intros Hn. unfold Node.requestSupplementaryValidation. ids. Qed.
#[local] Hint Resolve idsKept_requestSupplementaryValidation : ids.

Lemma idsKept_handleConflictConsensusReached n0 n now taskId :
  idsKept n0 n -> idsKept n0 (Node.handleConflictConsensusReached now taskId n).
Proof. intros Hn. unfold Node.handleConflictConsensusReached. ids. Qed.
#[local] Hint Resolve idsKept_handleConflictConsensusReached : ids.

Lemma idsKept_onConsensusReached n0 n now proof consensusType :
  idsKept n0 n -> idsKept n0 (Node.onConsensusReached now proof consensusType n).
Proof. intros Hn. unfold Node.onConsensusReached. ids. Qed.
#[local] Hint Resolve idsKept_onConsensusReached : ids.

Lemma idsKept_engineHandleCommit n0 n now message :
  idsKept n0 n -> idsKept n0 (Node.engineHandleCommit now message n).
Proof. intros Hn. unfold Node.engineHandleCommit. ids. Qed.
#[local] Hint Resolve idsKept_engineHandleCommit : ids.

Lemma idsKept_engineHandlePrepare n0 n message :
  idsKept n0 n -> idsKept n0 (Node.engineHandlePrepare message n).1.
Proof.
  intros Hn. unfold Node.engineHandlePrepare.
  destruct (PBFT.handlePrepare _ _). cbn [fst]. ids.
Qed.
#[local] Hint Resolve idsKept_engineHandlePrepare : ids.

Lemma idsKept_engineHandlePrePrepare n0 n message :
  idsKept n0 n -> idsKept n0 (Node.engineHandlePrePrepare message n).1.
Proof.
  intros Hn. unfold Node.engineHandlePrePrepare.
  destruct (PBFT.handlePrePrepare _ _). cbn [fst]. ids.
Qed.
#[local] Hint Resolve idsKept_engineHandlePrePrepare : ids.

Lemma idsKept_processPrePrepareMessage n0 n now message :
  idsKept n0 n -> idsKept n0 (Node.processPrePrepareMessage now message n).1.
Proof.
  intros Hn. unfold Node.processPrePrepareMessage.
  destruct (Msg.data message) as [data|]; [|ids]. cbn zeta.
  case_bool_decide as Hfew; [ids|].
  cbn [Node.taskStatuses Node.set_currentConsensusTaskId].
  destruct (Node.taskStatuses n !! Msg.taskId message) as [st|] eqn:Hst.
  - ids.
  - destruct (negb _); [ids|].
    apply idsKept_engineHandlePrePrepare.
    set (made := {| Task.taskId := _ |}).
    assert (Hmade : madeFrom (Node.getProofsForTask (Msg.taskId message) n) made).
    { repeat split; try done. unfold Node.getProofsForTask in *.
      cbn [Node.taskProofs Node.set_currentConsensusTaskId] in Hfew. lia. }
    apply idsKept_made; [done| |ids].
    destruct (isValid _); [done|]. destruct Hmade as (? & ? & ? & ?). by repeat split.
Qed.
#[local] Hint Resolve idsKept_processPrePrepareMessage : ids.

Lemma idsKept_own_votes (now : Z) (feedCommit : bool) (response : option PBFTMessage)
      (n0 n : Node) :
  idsKept n0 n ->
  idsKept n0
    match response with
    | Some response =>
        let '(n, commitMsg) :=
          Node.engineHandlePrepare response (Node.send (Broadcast response) n) in
        match commitMsg with
        | Some commitMsg =>
            if feedCommit
            then Node.engineHandleCommit now commitMsg (Node.send (Broadcast commitMsg) n)
            else Node.send (Broadcast commitMsg) n
        | None => n
        end
    | None => n
    end.
Proof.
  intros Hn. destruct response as [response|]; [|done].
  pose proof (idsKept_engineHandlePrepare n0 (Node.send (Broadcast response) n) response)
    as Hprepare.
  destruct (Node.engineHandlePrepare response _) as [n3 commitMsg].
  cbn [fst] in Hprepare. ids.
Qed.

Lemma idsKept_checkPendingPrePrepareMessages n0 n now taskId :
  idsKept n0 n -> idsKept n0 (Node.checkPendingPrePrepareMessages now taskId n).1.
Proof.
  intros Hn. unfold Node.checkPendingPrePrepareMessages.
  destruct (Node.pendingPrePrepareMessages n !! taskId) as [pendingMessage|]; [|done].
  case_bool_decide; [|done]. cbn zeta.
  set (n1 := Node.set_pendingPrePrepareMessages _ n).
  pose proof (idsKept_processPrePrepareMessage n0 n1 now pendingMessage) as Hprocess.
  destruct (Node.processPrePrepareMessage now pendingMessage n1) as [n2 response].
  cbn [fst] in Hprocess.
  pose proof (idsKept_own_votes now true response n0 n2) as Hvotes.
  destruct response as [response|]; [|cbn [fst]; apply Hprocess; subst n1; ids].
  destruct (Node.engineHandlePrepare response _) as [n3 commitMsg].
  destruct commitMsg; cbn [fst]; apply Hvotes, Hprocess; subst n1; ids.
Qed.
#[local] Hint Resolve idsKept_checkPendingPrePrepareMessages : ids.

Lemma idsKept_onMessageReceived n0 n now message :
  idsKept n0 n -> idsKept n0 (Node.onMessageReceived now message n).
Proof.
  intros Hn. unfold Node.onMessageReceived. cbn zeta.
  destruct (match Node.currentConsensusTaskId n with Some _ => _ | None => _ end); [done|].
  destruct (Msg.type message); try done.
  - pose proof (idsKept_processPrePrepareMessage n0 n now message Hn) as Hprocess.
    destruct (Node.processPrePrepareMessage now message n) as [n2 response].
    cbn [fst] in Hprocess.
    apply (idsKept_own_votes now false response n0 n2 Hprocess).
  - pose proof (idsKept_engineHandlePrepare n0 n message Hn) as Hprepare.
    destruct (Node.engineHandlePrepare message n) as [n2 response]. cbn [fst] in Hprepare.
    ids.
  - ids.
Qed.

Lemma idsKept_startFinalConsensus n0 n taskId payload :
  idsKept n0 n -> idsKept n0 (Node.startFinalConsensus taskId payload n).
Proof.
  intros Hn. unfold Node.startFinalConsensus.
  destruct (Node.taskStatuses n !! taskId) as [status|] eqn:Hstatus; [|done].
  destruct (negb _); [done|]. cbn zeta.
  destruct (PBFT.startConsensus _ _ _) as [e [prePrepareMsg|]].
  - match goal with
    | |- context [Node.engineHandlePrePrepare ?m ?n1] =>
        pose proof (idsKept_engineHandlePrePrepare n0 n1 m) as Hpp;
        destruct (Node.engineHandlePrePrepare m n1) as [n2 prepareMsg]
    end.
    cbn [fst] in Hpp. destruct prepareMsg; [apply idsKept_send|]; apply Hpp; ids.
  - eapply idsKept_setStatus; [by cbn; rewrite lookup_insert_eq|by repeat split|]. ids.
Qed.
#[local] Hint Resolve idsKept_startFinalConsensus : ids.

Lemma idsKept_handleSupplementaryMessage n0 n now message :
  idsKept n0 n -> idsKept n0 (Node.handleSupplementaryMessage now message n).
Proof.
  intros Hn. unfold Node.handleSupplementaryMessage, Node.handleSupplementaryReadyMessage,
    Node.handleSupplementaryAckMessage.
  destruct (Supp.type message); ids.
Qed.

Lemma idsKept_checkSupplementaryTimeout n0 n now taskId :
  idsKept n0 n -> idsKept n0 (Node.checkSupplementaryTimeout now taskId n).
Proof. intros Hn. unfold Node.checkSupplementaryTimeout. ids. Qed.

Lemma idsKept_setStatus_both n0 n taskId st :
  idsKept n0 n -> idsKept (Node.setStatus taskId st n0) (Node.setStatus taskId st n).
Proof.
  intros [Hproofs Hids]. split; [done|]. intros t. specialize (Hids t). cbn.
  destruct (decide (taskId = t)) as [->|Hne].
  - rewrite !lookup_insert_eq. exists st. split; [done|apply sameIds_refl].
  - by rewrite !lookup_insert_ne.
Qed.

Lemma counted_kept (n0 n : Node) : idsKept n0 n -> counted n0 -> counted n.
Proof.
  intros [Hproofs Hids] Hcounted t st Hst. specialize (Hids t).
  destruct (Node.taskStatuses n0 !! t) as [st0|] eqn:Hst0.
  - destruct Hids as (st1 & Hst1 & Hv & Hc & _).
    rewrite Hst in Hst1. injection Hst1 as <-. rewrite Hv, Hc. by eapply Hcounted.
  - destruct Hids as [Hnone|(st1 & Hst1 & Hv & Hc & _)]; [congruence|].
    rewrite Hst in Hst1. injection Hst1 as <-. by rewrite Hv, Hc, length_fmap.
Qed.

Lemma distinctIds_kept (n0 n : Node) : idsKept n0 n -> distinctIds n0 -> distinctIds n.
Proof.
  intros [Hproofs Hids] Hdistinct t. specialize (Hids t). specialize (Hdistinct t).
  unfold Node.getProofsForTask in *. rewrite Hproofs.
  destruct (Node.taskStatuses n0 !! t) as [st0|] eqn:Hst0.
  - destruct Hids as (st1 & -> & Hv & _). by rewrite Hv.
  - destruct Hids as [-> |(st1 & Hst1 & _ & _ & Hlen & _)]; [done|].
    rewrite Hdistinct in Hlen. cbn in Hlen. lia.
Qed.

Lemma counted_setStatus (n : Node) (taskId : string) (st : TaskStatus) :
  counted n -> Task.proofCount st = length (Task.verifierIds st) ->
  counted (Node.setStatus taskId st n).
Proof.
  intros Hcounted Hst t st' Hlookup. cbn in Hlookup.
  destruct (decide (taskId = t)) as [->|Hne].
  - rewrite lookup_insert_eq in Hlookup. by injection Hlookup as <-.
  - rewrite lookup_insert_ne in Hlookup by done. by eapply Hcounted.
Qed.

(** [checkPendingPrePrepareMessages] throws only after it has found two
    proofs of the task *)
Lemma thrown_after_two_proofs (now : Z) (taskId : string) (n : Node) :
  (Node.checkPendingPrePrepareMessages now taskId n).2 = true ->
  (2 <= length (Node.getProofsForTask taskId n))%nat.
Proof.
  unfold Node.checkPendingPrePrepareMessages.
  destruct (Node.pendingPrePrepareMessages n !! taskId); [|done].
  case_bool_decide; [done|done].
Qed.

(** what [handleQoSProof] does to the records: nothing; or it stores the
    proof and lists its verifier, a new one, in the record of the task; or,
    when the call is cut short, it stores the proof only *)
Lemma handleQoSProof_ids (now : Z) (proof : QoSProof) (n : Node) :
  let taskId := Proof.taskId proof in
  let n' := Node.handleQoSProof now proof n in
  let stored := Node.storeProof taskId proof n in
  n' = n
  \/ (exists status',
        (Proof.verifierId proof
           ∉ default [] (Task.verifierIds <$> Node.taskStatuses n !! taskId))
        /\ Task.verifierIds status'
           = (default [] (Task.verifierIds <$> Node.taskStatuses n !! taskId)
                ++ [Proof.verifierId proof])%list
        /\ Task.proofCount status'
           = S (default 0%nat (Task.proofCount <$> Node.taskStatuses n !! taskId))
        /\ idsKept (Node.setStatus taskId status' stored) n')
  \/ (Node.taskStatuses n !! taskId = None
      /\ (2 <= length (Node.getProofsForTask taskId stored))%nat
      /\ idsKept stored n').
Proof.
  cbn zeta. unfold Node.handleQoSProof. cbn zeta.
  destruct (negb (isValid _)); [by left|].
  set (taskId := Proof.taskId proof).
  set (old := default _ (Node.taskStatuses n !! taskId)).
  assert (Hold : Task.verifierIds old
                 = default [] (Task.verifierIds <$> Node.taskStatuses n !! taskId)
                 /\ Task.proofCount old
                    = default 0%nat (Task.proofCount <$> Node.taskStatuses n !! taskId)).
  { subst old. by destruct (Node.taskStatuses n !! taskId). }
  destruct Hold as [Hids Hcount].
  case_bool_decide as Hrepeated.
  { left. subst old. destruct (Node.taskStatuses n !! taskId) as [st|] eqn:Hst.
    - cbn. unfold Node.setStatus. rewrite insert_id by done. by destruct n.
    - cbn in Hrepeated. by apply elem_of_nil in Hrepeated. }
  rewrite Hids in Hrepeated.
  set (stored := Node.storeProof taskId proof n).
  set (status := Task.set_updatedAt _ _).
  set (status' := if bool_decide (Task.state status = Pending) then _ else status).
  assert (Hstatus' : Task.verifierIds status'
                     = (default [] (Task.verifierIds <$> Node.taskStatuses n !! taskId)
                          ++ [Proof.verifierId proof])%list
                     /\ Task.proofCount status'
                        = S (default 0%nat
                               (Task.proofCount <$> Node.taskStatuses n !! taskId))).
  { subst status' status. rewrite <- Hids, <- Hcount. by case_bool_decide. }
  destruct Hstatus' as [Hids' Hcount'].
  destruct (Node.isLeader stored).
  - right; left.
    destruct (_ && _); [|by exists status'; repeat split; try done; apply idsKept_refl].
    case_bool_decide; [|by exists status'; repeat split; try done; apply idsKept_refl].
    eexists. split; [done|]. split; [|split]; [| |apply idsKept_enqueueConsensusTask,
                                                     idsKept_refl].
    + by destruct (_ && _).
    + by destruct (_ && _).
  - destruct (Node.taskStatuses n !! taskId) as [existing|] eqn:Hexisting.
    + right; left. exists status'. split; [done|]. split; [done|]. split; [done|].
      apply idsKept_checkPendingPrePrepareMessages, idsKept_refl.
    + pose proof (idsKept_checkPendingPrePrepareMessages stored stored now taskId
                    (idsKept_refl _)) as Hchecked.
      pose proof (thrown_after_two_proofs now taskId stored) as Hthrown.
      destruct (Node.checkPendingPrePrepareMessages now taskId stored) as [n2 thrown].
      cbn [fst snd] in *. destruct thrown.
      * right; right. auto.
      * right; left. exists status'. split; [done|]. split; [done|]. split; [done|].
        by apply idsKept_setStatus_both.
Qed.

(** what [handleSupplementaryProof] does to the records: nothing; or it
    marks the task failed; or it stores the proof and lists its verifier *)
Lemma handleSupplementaryProof_ids (now : Z) (taskId : string) (proof : QoSProof)
      (n : Node) :
  let n' := Node.handleSupplementaryProof now taskId proof n in
  (n' = n
   /\ forall status,
        Node.taskStatuses n !! taskId = Some status ->
        Task.state status = AwaitingSupplementary ->
        (length (Node.getProofsForTask taskId n) < 2)%nat)
  \/ (exists status status',
        Node.taskStatuses n !! taskId = Some status
        /\ sameIds status status' /\ Task.state status' = Failed
        /\ n' = Node.setStatus taskId status' n)
  \/ (exists status status' stored,
        Node.taskStatuses n !! taskId = Some status
        /\ Task.verifierIds status'
           = (Task.verifierIds status ++ [Proof.verifierId proof])%list
        /\ Task.proofCount status' = S (Task.proofCount status)
        /\ Task.supplementaryVerifierIds status'
           = Some (default [] (Task.supplementaryVerifierIds status)
                     ++ [Proof.verifierId proof])%list
        /\ idsKept (Node.setStatus taskId status' (Node.storeProof taskId stored n)) n').
Proof.
  cbn zeta. unfold Node.handleSupplementaryProof.
  destruct (Node.taskStatuses n !! taskId) as [status|] eqn:Hstatus; [|by left].
  case_bool_decide as Hstate; cbn [negb]; [|left; split; [done|by intros ? [= <-] ?]].
  case_bool_decide; [left; split; [done|by intros ? [= <-] ?]|].
  destruct (negb (isValid _)).
  { right; left. eexists status, _. split; [done|]. split; [|split; [|done]]; done. }
  right; right. cbn zeta.
  set (stored := match Proof.id proof with Some _ => _ | None => _ end).
  assert (Hverifier : Proof.verifierId stored = Proof.verifierId proof).
  { subst stored. destruct (Proof.id proof) as [i|]; [by destruct (JS.truthy i)|done]. }
  rewrite !Hverifier.
  set (n1 := Node.storeProof taskId stored n).
  set (resolved := Validator.resolveWithSupplementaryProof _ _ _).
  set (status1 := Task.updInfo _ _).
  assert (Hstatus1 : Task.verifierIds status1
                     = (Task.verifierIds status ++ [Proof.verifierId proof])%list
                     /\ Task.proofCount status1 = S (Task.proofCount status)
                     /\ Task.supplementaryVerifierIds status1
                        = Some (default [] (Task.supplementaryVerifierIds status)
                                  ++ [Proof.verifierId proof])%list) by done.
  destruct Hstatus1 as (Hv & Hc & Hs).
  destruct (isValid resolved).
  2:{ destruct (needsManualReview resolved);
        (eexists status, _, stored; split; [done|]);
        (split; [|split; [|split; [|apply idsKept_refl]]]); done. }
  set (status2 := Task.set_state Validated status1).
  exists status, status2, stored. split; [done|]. split; [done|]. split; [done|].
  split; [done|]. fold n1.
  set (n2 := Node.setStatus taskId status2 n1).
  destruct (Node.isLeader n2); [ids|].
  destruct (Node.pendingFinalPrePrepareMessages n2 !! taskId) as [pendingFinal|]; [|ids].
  set (n3 := Node.set_pendingFinalPrePrepareMessages _ n2).
  pose proof (idsKept_processPrePrepareMessage n2 n3 now pendingFinal) as Hprocess.
  destruct (Node.processPrePrepareMessage now pendingFinal n3) as [n4 response].
  cbn [fst] in Hprocess.
  pose proof (idsKept_own_votes now true response n2 n4) as Hvotes.
  destruct response as [response|]; [|apply Hprocess; subst n3; ids].
  destruct (Node.engineHandlePrepare response _) as [n5 commitMsg].
  destruct commitMsg; apply Hvotes, Hprocess; subst n3; ids.
Qed.

(** X20. If every task record counts as many proofs as it lists verifiers, that
    is so after every run of the node's entry points. *)
Theorem proofCount_counts_verifierIds (ops : list Op) (n : Node) :
  counted n -> counted (run ops n).
Proof.
  revert n. unfold run.
  induction ops as [|op ops IH]; intros n Hn; [done|].
  cbn [fold_left]. apply IH. clear IH.
  destruct op as [now proof|now task proof|now message|now message|now task];
    cbn [step].
  - destruct (handleQoSProof_ids now proof n)
      as [-> |[(status' & _ & Hv & Hc & Hkept)|(_ & _ & Hkept)]]; [done| |].
    + eapply counted_kept; [exact Hkept|]. apply counted_setStatus.
      * intros t st Hst. by eapply Hn.
      * rewrite Hv, Hc, length_app. cbn.
        destruct (Node.taskStatuses n !! Proof.taskId proof) as [st|] eqn:Hst; cbn; [|done].
        rewrite (Hn _ _ Hst). lia.
    + eapply counted_kept; [exact Hkept|]. intros t st Hst. by eapply Hn.
  - destruct (handleSupplementaryProof_ids now task proof n)
      as [[-> _]|[(status & status' & Hst & (Hv & Hc & _) & _ & ->)
              |(status & status' & stored & Hst & Hv & Hc & _ & Hkept)]]; [done| |].
    + apply counted_setStatus; [done|]. rewrite Hv, Hc. by eapply Hn.
    + eapply counted_kept; [exact Hkept|]. apply counted_setStatus.
      * intros t st Hst'. by eapply Hn.
      * rewrite Hv, Hc, length_app, (Hn _ _ Hst). cbn. lia.
  - eapply counted_kept; [|exact Hn]. apply idsKept_onMessageReceived, idsKept_refl.
  - eapply counted_kept; [|exact Hn]. apply idsKept_handleSupplementaryMessage, idsKept_refl.
  - eapply counted_kept; [|exact Hn]. apply idsKept_checkSupplementaryTimeout, idsKept_refl.
Qed.

(** X21. As long as no supplementary proof is handed in, no task record lists a
    verifier twice: if that holds of a node, and tasks without a record
    have no stored proof, it holds after every run of the other entry
    points. *)
Theorem ordinary_ingestion_keeps_verifiers_distinct (ops : list Op) (n : Node) :
  forallb ordinary ops = true -> distinctIds n -> distinctIds (run ops n).
Proof.
  revert n. unfold run.
  induction ops as [|op ops IH]; intros n Hops Hn; [done|].
  cbn in Hops. apply andb_true_iff in Hops as [Hop Hops].
  cbn [fold_left]. apply IH; [done|]. clear IH Hops.
  destruct op as [now proof|now task proof|now message|now message|now task];
    cbn [step]; [|done|..].
  - destruct (handleQoSProof_ids now proof n)
      as [-> |[(status' & Hnew & Hv & _ & Hkept)|(Hnone & Hlen & _)]]; [done| |].
    + eapply distinctIds_kept; [exact Hkept|]. intros t. specialize (Hn t) as Hnt.
      cbn. unfold Node.getProofsForTask. cbn.
      destruct (decide (Proof.taskId proof = t)) as [<-|Hne].
      * rewrite lookup_insert_eq, Hv. apply list.NoDup_app. split; [|split].
        -- destruct (Node.taskStatuses n !! Proof.taskId proof); cbn; [done|constructor].
        -- intros v Hin Hv'. apply list_elem_of_singleton in Hv'. by subst v.
        -- apply NoDup_singleton.
      * rewrite !lookup_insert_ne by done. exact Hnt.
    + exfalso. specialize (Hn (Proof.taskId proof)). rewrite Hnone in Hn.
      unfold Node.getProofsForTask, Node.storeProof, Node.getProofsForTask in *.
      cbn [Node.taskProofs Node.set_taskProofs] in Hlen.
      rewrite lookup_insert_eq, Hn in Hlen. cbn in Hlen. lia.
  - eapply distinctIds_kept; [|exact Hn]. apply idsKept_onMessageReceived, idsKept_refl.
  - eapply distinctIds_kept; [|exact Hn].
    apply idsKept_handleSupplementaryMessage, idsKept_refl.
  - eapply distinctIds_kept; [|exact Hn].
    apply idsKept_checkSupplementaryTimeout, idsKept_refl.
Qed.

(** X22. Once a supplementary proof was handled for a waiting task with two
    stored proofs, the timeout check of that task changes nothing: the task
    has failed or lists the supplementary verifier. *)
Theorem timeout_spares_answered_task (now now' : Z) (taskId : string) (proof : QoSProof)
        (n : Node) (status : TaskStatus) :
  Node.taskStatuses n !! taskId = Some status ->
  Task.state status = AwaitingSupplementary ->
  (2 <= length (Node.getProofsForTask taskId n))%nat ->
  let n' := Node.handleSupplementaryProof now taskId proof n in
  Node.checkSupplementaryTimeout now' taskId n' = n'
  /\ exists status',
       Node.taskStatuses n' !! taskId = Some status'
       /\ (Task.state status' = Failed
           \/ Task.supplementaryVerifierIds status'
              = Some (default [] (Task.supplementaryVerifierIds status)
                        ++ [Proof.verifierId proof])%list).
Proof.
  intros Hstatus Hstate Hlen. cbn zeta.
  assert (Hafter : exists status',
             Node.taskStatuses (Node.handleSupplementaryProof now taskId proof n) !! taskId
             = Some status'
             /\ (Task.state status' = Failed
                 \/ Task.supplementaryVerifierIds status'
                    = Some (default [] (Task.supplementaryVerifierIds status)
                              ++ [Proof.verifierId proof])%list)).
  { destruct (handleSupplementaryProof_ids now taskId proof n)
      as [[_ Hnot]|[(st & st' & Hst & _ & Hfailed & ->)
                   |(st & st' & stored & Hst & _ & _ & Hs & [_ Hkept])]].
    - specialize (Hnot status Hstatus Hstate). lia.
    - exists st'. split; [by cbn; rewrite lookup_insert_eq|by left].
    - specialize (Hkept taskId). cbn in Hkept. rewrite lookup_insert_eq in Hkept.
      destruct Hkept as (st2 & Hst2 & _ & _ & Hs2). exists st2. split; [done|].
      right. rewrite Hs2, Hs. rewrite Hstatus in Hst. by injection Hst as <-. }
  split; [|done]. destruct Hafter as (status' & Hlookup & Hwhy).
  unfold Node.checkSupplementaryTimeout. rewrite Hlookup.
  case_bool_decide as Hawaits; cbn [negb]; [|done].
  destruct Hwhy as [Hfailed|Hanswered]; [congruence|].
  rewrite Hanswered. rewrite bool_decide_eq_true_2; [done|].
  cbn. rewrite length_app. cbn. lia.
Qed.

End Ids.


(* ===================================================================== *)
(** ** The rounds of the leader                                         *)
(* ===================================================================== *)

Section Rounds.
Context `{Primitives}.

(** the queue leaves the timers alone and changes no record but those in
    state [Consensus] *)
Lemma drainQueue_settled (queue : list string) :
  forall n,
    Node.timers (Node.drainQueue queue n) = Node.timers n
    /\ forall taskId st,
         Node.taskStatuses n !! taskId = Some st -> Task.state st <> Consensus ->
         Node.taskStatuses (Node.drainQueue queue n) !! taskId = Some st.
Proof.
  induction queue as [|head rest IH]; intros n; [by split|].
  cbn [Node.drainQueue]. cbn zeta.
  destruct (Node.taskStatuses n !! head) as [status|] eqn:Hstatus; [|apply IH].
  case_bool_decide; [apply IH|].
  case_bool_decide as Hconsensus; cbn [negb]; [|apply IH].
  destruct (Node.getProofsForTask head n) as [|first others]; [apply IH|].
  cbn [Node.isLeader Node.set_currentConsensusTaskId].
  destruct (Node.isLeader n); [|by split].
  cbn [Node.pbftEngine Node.set_currentConsensusTaskId].
  destruct (PBFT.startConsensus _ _ _) as [e [prePrepareMsg|]].
  - destruct (PBFT.handlePrePrepare _ _) as [e' prepareMsg].
    destruct prepareMsg; by split.
  - match goal with |- context [Node.drainQueue rest ?n1] =>
      destruct (IH n1) as [Htimers Hrecords] end.
    split; [by rewrite Htimers|].
    intros taskId st Hst Hother. apply Hrecords; [|done]. cbn.
    rewrite lookup_insert_ne; [done|]. intros <-. congruence.
Qed.

Lemma processConsensusQueue_settled (n : Node) :
  Node.timers (Node.processConsensusQueue n) = Node.timers n
  /\ forall taskId st,
       Node.taskStatuses n !! taskId = Some st -> Task.state st <> Consensus ->
       Node.taskStatuses (Node.processConsensusQueue n) !! taskId = Some st.
Proof.
  unfold Node.processConsensusQueue. destruct (_ || _); [by split|].
  apply drainQueue_settled.
Qed.

(** X23. The consensus callback settles the record of the task: a normal
    consensus finalizes it with the time of the consensus and sets no
    timer; a conflict consensus makes it wait for a supplementary proof,
    notes the request and its time, and sets the timer of the task. *)
Theorem consensus_callback_settles_the_task (now : Z) (proof : QoSProof)
        (consensusType : ConsensusType) (n : Node) (status : TaskStatus) :
  Node.taskStatuses n !! Proof.taskId proof = Some status ->
  let n' := Node.onConsensusReached now proof consensusType n in
  exists status',
    Node.taskStatuses n' !! Proof.taskId proof = Some status'
    /\ Task.updatedAt status' = now
    /\ Task.verifierIds status' = Task.verifierIds status
    /\ match consensusType with
       | Normal =>
           Task.state status' = Finalized
           /\ Task.consensusTimestamp status' = Some (Some now)
           /\ Node.timers n' = Node.timers n
       | Conflict =>
           Task.state status' = AwaitingSupplementary
           /\ Task.supplementaryRequested (Task.info status') = true
           /\ Task.supplementaryRequestTime (Task.info status') = Some now
           /\ Node.timers n' = (Node.timers n ++ [Proof.taskId proof])%list
       end.
Proof.
  intros Hstatus. cbn zeta. unfold Node.onConsensusReached. cbn zeta.
  set (taskId := Proof.taskId proof) in *.
  destruct consensusType.
  - rewrite (bool_decide_eq_false_2 (Normal = Conflict)) by done. rewrite Hstatus.
    set (finalized := Task.set_consensusTimestamp _ _).
    match goal with |- context [Node.processConsensusQueue ?n1] =>
      destruct (processConsensusQueue_settled n1) as [Htimers Hrecords];
      assert (Hn1 : Node.taskStatuses n1 !! taskId = Some finalized
                    /\ Node.timers n1 = Node.timers n)
    end.
    { cbn [Node.consensusQueue Node.setStatus Node.set_taskStatuses].
      destruct (Node.consensusQueue n) as [|head rest]; [|destruct (String.eqb _ _)];
        cbn; by rewrite lookup_insert_eq. }
    destruct Hn1 as [Hlookup Htm].
    exists finalized. split; [by apply Hrecords|].
    rewrite Htimers, Htm. by repeat split.
  - rewrite (bool_decide_eq_true_2 (Conflict = Conflict)) by done.
    assert (Hafter : exists st1,
               Node.taskStatuses (Node.handleConflictConsensusReached now taskId n) !! taskId
               = Some st1
               /\ Task.updatedAt st1 = now
               /\ Task.verifierIds st1 = Task.verifierIds status
               /\ Task.state st1 = AwaitingSupplementary
               /\ Task.supplementaryRequested (Task.info st1) = true
               /\ Task.supplementaryRequestTime (Task.info st1) = Some now
               /\ Node.timers (Node.handleConflictConsensusReached now taskId n)
                  = (Node.timers n ++ [taskId])%list).
    { unfold Node.handleConflictConsensusReached, Node.requestSupplementaryValidation.
      rewrite Hstatus. cbn. rewrite lookup_insert_eq. cbn.
      rewrite bool_decide_eq_true_2 by done. cbn [negb].
      eexists. cbn. rewrite lookup_insert_eq. by repeat split. }
    destruct Hafter as (st1 & Hst1 & Hu & Hv & Hs & Hr & Ht & Htm).
    generalize dependent (Node.handleConflictConsensusReached now taskId n).
    intros n1 Hst1 Htm.
    match goal with |- context [Node.processConsensusQueue ?n2] =>
      destruct (processConsensusQueue_settled n2) as [Htimers Hrecords];
      assert (Hn2 : Node.taskStatuses n2 !! taskId = Some st1
                    /\ Node.timers n2 = Node.timers n1)
    end.
    { by destruct (Node.consensusQueue n1) as [|head rest]; [|destruct (String.eqb _ _)]. }
    destruct Hn2 as [Hlookup Htm2].
    exists st1. split; [apply Hrecords; [done|congruence]|].
    rewrite Htimers, Htm2, Htm. by repeat split.
Qed.



End Rounds.


(* ===================================================================== *)
(** ** Signatures and the gate of the API                               *)
(* ===================================================================== *)

Section CryptoApi.

(** X25. [verifySignature] rejects every signature that [sign] makes, whatever
    the data and the keys: a signature is [sig_] and a hexadecimal digest,
    and the check asks for the text of a template that was never filled. *)
Theorem made_signature_is_never_verified {Data : Type} (calculateHash : Data -> string)
        (data data' : Data) (privateKey publicKey : string) :
  isHex (calculateHash data) = true ->
  Crypto.verifySignature calculateHash data' (Crypto.sign calculateHash data privateKey)
    publicKey = false.
Proof.
  intros Hhex. unfold Crypto.verifySignature, Crypto.sign, JS.startsWith. cbn zeta.
  destruct (calculateHash data) as [|c hash].
  - cbv [String.append]. cbn [String.prefix].
    do 4 (destruct (ascii_dec _ _); [|done]).
    destruct (ascii_dec _ _) as [Heq|_]; [discriminate Heq|reflexivity].
  - cbn in Hhex. apply andb_true_iff in Hhex as [Hc _].
    cbv [String.append]. cbn [String.prefix].
    repeat (destruct (ascii_dec _ _); [|done]).
    subst c. by vm_compute in Hc.
Qed.

(** X26. On a request body with the shape of a proof the gate of the API server
    accepts exactly what the structure step of the validator accepts with a
    timestamp that is not 0. *)
Theorem api_gate_is_structure_and_timestamp (proof : QoSProof) :
  Api.validateProof proof = None
  <-> isValid (Validator.validateStructure proof) = true /\ Proof.timestamp proof <> 0.
Proof.
  rewrite validateStructure_spec, <- !truthy_spec. unfold Api.validateProof.
  destruct (JS.truthy (Proof.taskId proof)), (JS.truthy (Proof.verifierId proof)),
    (JS.truthy (Proof.signature proof)); cbn [negb orb];
    try case_bool_decide;
    (split; [try done; intros _; by repeat split | try done; intros [(? & ? & ?) ?]; done]).
Qed.

End CryptoApi.


(* ===================================================================== *)
(** ** The metrics collector                                            *)
(* ===================================================================== *)

Section MetricsProperties.

Import Metrics.
Context {Payload : Type}.
Implicit Types (c : Collector Payload) (e event : EventData Payload)
  (index : gmap string (list (EventData Payload))).

Lemma byTimestamp_total e e' : byTimestamp e e' = true \/ byTimestamp e' e = true.
Proof.
  unfold byTimestamp. destruct (Z.le_ge_cases (timestamp e) (timestamp e'));
    [left|right]; by apply bool_decide_eq_true_2.
Qed.

Lemma byTimestamp_trans e1 e2 e3 :
  byTimestamp e1 e2 = true -> byTimestamp e2 e3 = true -> byTimestamp e1 e3 = true.
Proof.
  unfold byTimestamp. rewrite !bool_decide_eq_true. lia.
Qed.

Lemma sorted_by_timestamp (l : list (EventData Payload)) :
  StronglySorted (fun a b => timestamp a <= timestamp b) (JS.sort byTimestamp l).
Proof.
  pose proof (sort_sorted byTimestamp byTimestamp_total byTimestamp_trans l) as Hs.
  induction Hs as [|a s Hs IH Ha]; constructor; [done|].
  eapply list.Forall_impl; [apply Ha|]. intros b Hb. by apply bool_decide_eq_true in Hb.
Qed.

Lemma sort_again (l : list (EventData Payload)) :
  JS.sort byTimestamp (JS.sort byTimestamp l) = JS.sort byTimestamp l.
Proof. apply sort_sort; [apply byTimestamp_total|apply byTimestamp_trans]. Qed.

Lemma sort_filter (P : EventData Payload -> Prop) `{!forall x, Decision (P x)}
    (l : list (EventData Payload)) :
  JS.sort byTimestamp (filter P l) = filter P (JS.sort byTimestamp l).
Proof.
  symmetry. apply filter_sort; [apply byTimestamp_total|apply byTimestamp_trans].
Qed.

Lemma sort_pushed (l l' : list (EventData Payload)) e :
  JS.sort byTimestamp l = JS.sort byTimestamp l' ->
  JS.sort byTimestamp (l ++ [e]) = JS.sort byTimestamp (l' ++ [e]).
Proof.
  intros Hl.
  rewrite !(sort_snoc byTimestamp byTimestamp_total byTimestamp_trans). by rewrite Hl.
Qed.

Lemma filter_swap {A} (P Q : A -> Prop) `{!forall x, Decision (P x)}
    `{!forall x, Decision (Q x)} (l : list A) :
  filter P (filter Q l) = filter Q (filter P l).
Proof.
  induction l as [|x l IH]; [done|]. rewrite !(filter_cons _ x).
  destruct (decide (Q x)), (decide (P x)); rewrite ?filter_cons;
    repeat (case_decide; try done); by rewrite IH.
Qed.

Lemma filter_absorb {A} (P Q : A -> Prop) `{!forall x, Decision (P x)}
    `{!forall x, Decision (Q x)} (l : list A) :
  (forall x, P x -> Q x) -> filter P (filter Q l) = filter P l.
Proof.
  intros HPQ. induction l as [|x l IH]; [done|]. rewrite !(filter_cons _ x).
  destruct (decide (Q x)), (decide (P x)); rewrite ?filter_cons;
    repeat (case_decide; try done); try by rewrite IH.
  by destruct n; apply HPQ.
Qed.

Lemma filter_none {A} (P Q : A -> Prop) `{!forall x, Decision (P x)}
    `{!forall x, Decision (Q x)} (l : list A) :
  (forall x, P x -> Q x -> False) -> filter P (filter Q l) = [].
Proof.
  intros HPQ. induction l as [|x l IH]; [done|]. rewrite !(filter_cons _ x).
  destruct (decide (Q x)); [|done]. rewrite filter_cons.
  case_decide; [by destruct (HPQ x)|done].
Qed.

Lemma agree_empty (key : EventData Payload -> option string) : agree key ∅ [].
Proof. intros k _. by rewrite lookup_empty. Qed.

Lemma agree_pushIf (key : EventData Payload -> option string) index events e ko :
  key e = ko -> agree key index events ->
  agree key (pushIf ko e index) (events ++ [e]).
Proof.
  intros Hkey Hagree k Hk. rewrite list.filter_app, filter_cons, filter_nil.
  unfold pushIf. destruct ko as [k0|].
  2:{ rewrite decide_False by congruence. rewrite app_nil_r. by apply Hagree. }
  destruct (JS.truthy k0) eqn:Htruthy.
  2:{ assert (k0 = "") as ->.
      { unfold JS.truthy in Htruthy. apply negb_false_iff in Htruthy.
        by apply String.eqb_eq in Htruthy. }
      rewrite decide_False by congruence. rewrite app_nil_r. by apply Hagree. }
  unfold push. destruct (decide (k = k0)) as [->|Hne].
  - rewrite lookup_insert_eq, decide_True by done. cbn [default from_option Datatypes.id].
    apply sort_pushed. by apply Hagree.
  - rewrite lookup_insert_ne by done. rewrite decide_False by congruence.
    rewrite app_nil_r. by apply Hagree.
Qed.

Lemma agree_sort_one (key : EventData Payload -> option string) index events task indexed :
  index !! task = Some indexed -> agree key index events ->
  agree key (<[task := JS.sort byTimestamp indexed]> index) events.
Proof.
  intros Hat Hagree k Hk. destruct (decide (k = task)) as [->|Hne].
  - rewrite lookup_insert_eq. cbn [default from_option Datatypes.id]. rewrite sort_again.
    rewrite <- (Hagree task Hk), Hat. done.
  - rewrite lookup_insert_ne by done. by apply Hagree.
Qed.

Lemma agree_sort_all (key : EventData Payload -> option string) index events :
  agree key index events -> agree key (JS.sort byTimestamp <$> index) events.
Proof.
  intros Hagree k Hk. rewrite lookup_fmap, <- (Hagree k Hk).
  destruct (index !! k); cbn; [apply sort_again|done].
Qed.

Lemma agree_delete index events task :
  agree taskId index events ->
  agree taskId (delete task index) (filter (otherTask task) events).
Proof.
  intros Hagree k Hk. destruct (decide (k = task)) as [->|Hne].
  - rewrite lookup_delete_eq. rewrite filter_none; [done|]. intros x Hx Hother. by apply Hother.
  - rewrite lookup_delete_ne by done. rewrite filter_absorb; [by apply Hagree|].
    intros x Hx. unfold otherTask. congruence.
Qed.

Lemma agree_filtered (key : EventData Payload -> option string) index events task :
  agree key index events ->
  agree key (filter (otherTask task) <$> index) (filter (otherTask task) events).
Proof.
  intros Hagree k Hk. rewrite lookup_fmap.
  transitivity (JS.sort byTimestamp (filter (otherTask task) (default [] (index !! k)))).
  { by destruct (index !! k). }
  rewrite sort_filter, (Hagree k Hk), <- sort_filter. by rewrite filter_swap.
Qed.

Lemma indexed_recordEvent now uuid event c :
  indexed c -> indexed (recordEvent now uuid event c).
Proof.
  intros [Htask Hnode]. unfold recordEvent. destruct (enabled c); cbn [negb]; [|done].
  split; cbn [taskEventsIndex nodeEventsIndex events]; by apply agree_pushIf.
Qed.

Lemma indexed_fresh (enabled : bool) (start now : Z) (uuid : string) (meta : Payload) :
  indexed (recordEvent now uuid (systemEvent start meta)
             {| Metrics.enabled := enabled; events := []; taskEventsIndex := ∅;
                nodeEventsIndex := ∅; systemStartTime := start |}).
Proof. apply indexed_recordEvent. split; apply agree_empty. Qed.

Lemma indexed_call c (k : Call Payload) : indexed c -> indexed (call c k).
Proof.
  intros Hc. destruct k; cbn [call].
  - done.
  - done.
  - by apply indexed_recordEvent.
  - unfold recordValidationEvent. destruct (negb _); [done|by apply indexed_recordEvent].
  - unfold recordConsensusEvent. destruct (negb _); [done|by apply indexed_recordEvent].
  - unfold getTaskMetrics_sorts. destruct (taskEventsIndex c !! task) as [[|e l]|] eqn:Hat;
      [done| |done].
    destruct Hc as [Htask Hnode]. split; [|done]. by apply agree_sort_one.
  - destruct Hc as [Htask Hnode]. split; [|done]. by apply agree_sort_all.
  - unfold clearTaskMetrics. destruct (taskEventsIndex c !! task); [|done].
    destruct Hc as [Htask Hnode]. split; cbn; [by apply agree_delete|by apply agree_filtered].
  - apply indexed_fresh.
Qed.

Lemma indexed_calls (ks : list (Call Payload)) c : indexed c -> indexed (calls ks c).
Proof.
  unfold calls. revert c. induction ks as [|k ks IH]; intros c Hc; [done|].
  cbn. by apply IH, indexed_call.
Qed.

(** X27. Whatever was called on a collector since it was made, the events that
    [getTaskEvents] gives for a task id that is not empty are the events of
    that task in [getAllEvents], in the same order; and so for
    [getNodeEvents] and a node id. *)
Theorem task_and_node_events_are_slices_of_all_events
    (enabled : bool) (start now : Z) (uuid : string) (version : Payload)
    (ks : list (Call Payload)) (key : string) :
  key <> "" ->
  let c := calls ks (new enabled start now uuid version) in
  getTaskEvents key c = filter (fun e => taskId e = Some key) (getAllEvents c)
  /\ getNodeEvents key c = filter (fun e => nodeId e = Some key) (getAllEvents c).
Proof.
  intros Hkey c.
  destruct (indexed_calls ks _ (indexed_fresh enabled start now uuid version))
    as [Htask Hnode].
  unfold getTaskEvents, getNodeEvents, getAllEvents. rewrite <- !sort_filter.
  split; [by apply Htask|by apply Hnode].
Qed.

(** X28. [getAllEvents] gives the recorded events in ascending order of their
    timestamps; [getEventsByType] and [queryEventsByTimeRange] give the
    events of [getAllEvents] that have the type, or lie in the range, in
    the same order. *)
Theorem event_queries_are_slices_in_time_order c (type : EventType) (startTime endTime : Z) :
  StronglySorted (fun a b => timestamp a <= timestamp b) (getAllEvents c)
  /\ getAllEvents c ≡ₚ events c
  /\ getEventsByType type c = filter (fun e => eventType e = type) (getAllEvents c)
  /\ queryEventsByTimeRange startTime endTime c
     = filter (fun e => startTime <= timestamp e /\ timestamp e <= endTime)
              (getAllEvents c).
Proof.
  unfold getAllEvents, getEventsByType, queryEventsByTimeRange.
  rewrite <- !sort_filter. repeat split; [apply sorted_by_timestamp|].
  apply sort_Permutation.
Qed.

(** X29. [clearTaskMetrics] of a task without an index entry returns false and
    changes nothing.  Otherwise it returns true; afterwards the task has no
    events, [getAllEvents] and the events of every node are what they were
    without the events of the task, and the events of other tasks are as
    before. *)
Theorem clearTaskMetrics_removes_the_task_everywhere (task : string) c :
  (taskEventsIndex c !! task = None -> clearTaskMetrics task c = (false, c))
  /\ (is_Some (taskEventsIndex c !! task) ->
      let c' := snd (clearTaskMetrics task c) in
      fst (clearTaskMetrics task c) = true
      /\ getTaskEvents task c' = []
      /\ getAllEvents c' = filter (otherTask task) (getAllEvents c)
      /\ (forall node, getNodeEvents node c' = filter (otherTask task) (getNodeEvents node c))
      /\ (forall other, other <> task -> getTaskEvents other c' = getTaskEvents other c)).
Proof.
  unfold clearTaskMetrics. split.
  { by intros ->. }
  intros [indexed Hat]. rewrite Hat. cbn [fst snd].
  unfold getTaskEvents, getAllEvents, getNodeEvents.
  cbn [taskEventsIndex nodeEventsIndex events].
  rewrite lookup_delete_eq. repeat split.
  - by rewrite sort_filter.
  - intros node. rewrite lookup_fmap, <- sort_filter. by destruct (nodeEventsIndex c !! node).
  - intros other Hother. by rewrite lookup_delete_ne.
Qed.

Lemma tallyFinished_from (l : list (EventData Payload)) :
  forall (acc : gset string * gset string) (task : string),
    task ∈ (fold_left tallyFinished l acc).1 \/ task ∈ (fold_left tallyFinished l acc).2 ->
    task ∈ acc.1 \/ task ∈ acc.2
    \/ exists e, e ∈ l /\ taskId e = Some task /\ JS.truthy task = true.
Proof.
  induction l as [|e l IH]; intros acc task Hin; [cbn in Hin; tauto|].
  cbn [fold_left] in Hin. apply IH in Hin.
  assert (Hhere : forall t, taskId e = Some t -> JS.truthy t = true ->
            exists e', e' ∈ e :: l /\ taskId e' = Some t /\ JS.truthy t = true).
  { intros t ??. exists e. split; [left|done]. }
  destruct Hin as [Hin|[Hin|(e' & He' & Hrest)]].
  3:{ right; right. exists e'. split; [by right|done]. }
  all: destruct acc as [completed failed]; unfold tallyFinished in Hin;
    destruct (taskId e) as [t|] eqn:Htask; [|cbn in Hin; tauto];
    destruct (JS.truthy t) eqn:Htruthy; cbn [negb] in Hin; [|cbn in Hin; tauto];
    repeat case_bool_decide; cbn [fst snd] in *;
    rewrite ?elem_of_union, ?elem_of_singleton in Hin;
    try tauto; destruct Hin as [->|Hin]; auto.
Qed.

Lemma finished_are_tasks (l : list (EventData Payload)) (task : string) :
  task ∈ (fold_left tallyFinished l (∅, ∅)).1 \/ task ∈ (fold_left tallyFinished l (∅, ∅)).2 ->
  task ∈ (list_to_set (omap taskId (filter (fun e => present (taskId e) = true) l))
          : gset string).
Proof.
  intros Hin. apply tallyFinished_from in Hin as [Hin|[Hin|(e & He & Htask & Htruthy)]].
  1,2: by apply elem_of_empty in Hin.
  apply elem_of_list_to_set, list_elem_of_omap. exists e. split; [|done].
  apply list_elem_of_filter. split; [|done]. rewrite Htask. done.
Qed.

Lemma size_list_to_set_le (l : list string) :
  (size (list_to_set l : gset string) <= length l)%nat.
Proof.
  induction l as [|x l IH]; cbn [list_to_set length]; [by rewrite size_empty|].
  rewrite size_union_alt, size_singleton.
  assert (Hsub : list_to_set l ∖ {[x]} ⊆ (list_to_set l : gset string))
    by apply subseteq_difference_l, reflexivity.
  apply subseteq_size in Hsub. lia.
Qed.

Lemma omap_length_le {A B} (f : A -> option B) (l : list A) :
  (length (omap f l) <= length l)%nat.
Proof.
  induction l as [|x l IH]; cbn; [done|]. destruct (f x); cbn; lia.
Qed.

(** X30. In the system metrics the counts of completed and of failed tasks are at
    most the count of tasks, which is at most the count of events; the
    count of events is the number of events [getAllEvents] gives. *)
Theorem system_metrics_are_bounded_by_the_tasks (now : Z) c :
  let m := getSystemMetrics now c in
  (successCount m <= taskCount m)%nat
  /\ (failureCount m <= taskCount m)%nat
  /\ (taskCount m <= eventCount m)%nat
  /\ eventCount m = length (getAllEvents c).
Proof.
  unfold getSystemMetrics.
  pose proof (finished_are_tasks (events c)) as Hfinished.
  destruct (fold_left tallyFinished (events c) (∅, ∅)) as [completed failed].
  cbn [successCount failureCount taskCount eventCount fst snd] in *. repeat split.
  - apply subseteq_size. intros task Hin. apply Hfinished. by left.
  - apply subseteq_size. intros task Hin. apply Hfinished. by right.
  - etransitivity; [apply size_list_to_set_le|].
    etransitivity; [apply omap_length_le|]. apply length_filter.
  - unfold getAllEvents. symmetry. apply Permutation_length, sort_Permutation.
Qed.

End MetricsProperties.


(* ===================================================================== *)
(** ** The further properties at sample inputs                             *)
(* ===================================================================== *)

Module AtMoreSamples.
#[local] Existing Instance Reference.primitives.

(** X1 at the follower that holds two Prepares of view 0 and a Prepare of
    view 1. *)
Lemma wrong_view_witness :
  let e := Sample.preparedByTwo in
  let message := MoreSamples.prepareOfNextView in
  Msg.viewNumber message <> PBFT.viewNumber e
  /\ PBFT.handlePrePrepare message e = (e, None)
  /\ PBFT.handlePrepare message e = (e, None)
  /\ PBFT.handleCommit message e = PBFT.Done e.
Proof.
  cbn zeta.
  assert (Hview : Msg.viewNumber MoreSamples.prepareOfNextView
                  <> PBFT.viewNumber Sample.preparedByTwo) by (vm_compute; discriminate).
  split; [exact Hview|].
  exact (wrong_view_is_dropped _ _ Hview).
Defined.

(** X4 at the follower that is one Commit short and the Commit of a third
    node. *)
Lemma commit_quorum_witness :
  let e := MoreSamples.awaitingLastCommit in
  let message := Sample.commitFrom "node3" (calculateHash Sample.v1) in
  let e' := resultEngine (PBFT.handleCommit message e) in
  let callback := MoreSamples.callbackOf (PBFT.handleCommit message e) in
  let idle := PBFT.afterCommit (PBFT.Reached e' callback) in
  PBFT.handleCommit message e = PBFT.Reached e' callback
  /\ PBFT.state e = Prepared
  /\ callback = Some (Sample.v1, Normal)
  /\ PBFT.state e' = Committed
  /\ PBFT.state idle = Idle
  /\ PBFT.handleCommit message idle = PBFT.Done idle.
Proof.
  cbn zeta.
  set (e := MoreSamples.awaitingLastCommit).
  set (message := Sample.commitFrom "node3" (calculateHash Sample.v1)).
  assert (Hreached : PBFT.handleCommit message e
                     = PBFT.Reached (resultEngine (PBFT.handleCommit message e))
                         (MoreSamples.callbackOf (PBFT.handleCommit message e)))
    by (vm_compute; reflexivity).
  pose proof (commit_quorum_completes_the_round message e _ _ Hreached)
    as (Hstate & Hcallback & Hcommitted & _ & _ & Hidle & _ & _ & _ & Hlate).
  split; [exact Hreached|]. split; [exact Hstate|].
  split; [vm_compute; reflexivity|]. split; [exact Hcommitted|]. split; [exact Hidle|].
  exact (proj2 (Hlate message eq_refl)).
Defined.

(** X5 at a follower of a committee of four that has seen nothing: the
    Prepare of [node3] comes before the PrePrepare of the leader. *)
Lemma early_prepare_witness :
  let e := PBFT.new "node2" false 4 None in
  let early := Sample.prepareFrom "node3" (calculateHash Sample.v1) in
  let e1 := (PBFT.handlePrepare early e).1 in
  let e2 := (PBFT.handlePrePrepare Sample.prePrepare e1).1 in
  PBFT.pendingPrepareMessages e1 !! PBFT.keyOf early = Some [early]
  /\ exists own,
       PBFT.handlePrePrepare Sample.prePrepare e1 = (e2, Some own)
       /\ PBFT.prepareMessages (PBFT.handlePrepare own e2).1 !! PBFT.keyOf early
          = Some [own; early].
Proof.
  cbn zeta.
  set (e := PBFT.new "node2" false 4 None).
  set (early := Sample.prepareFrom "node3" (calculateHash Sample.v1)).
  assert (Hseq : Msg.sequenceNumber early ∉ PBFT.completedSequences e)
    by apply not_elem_of_empty.
  assert (Hother : Msg.nodeId early <> PBFT.nodeId e) by (vm_compute; discriminate).
  pose proof (early_prepare_is_counted early Sample.prePrepare Sample.v1 e
                eq_refl eq_refl eq_refl Hseq Hother eq_refl eq_refl eq_refl
                (lookup_empty _) (lookup_empty _))
    as (_ & _ & _ & Hpending & own & Hown & _ & _ & _ & Hcounted & _).
  split; [exact Hpending|]. exists own. split; [exact Hown|exact Hcounted].
Defined.


(** X7 at four nodes and two sets of three. *)
Lemma quorums_witness :
  let committee : gset string := {[ "n1"; "n2"; "n3"; "n4" ]} in
  let Q1 : gset string := {[ "n1"; "n2"; "n3" ]} in
  let Q2 : gset string := {[ "n2"; "n3"; "n4" ]} in
  (Z.of_nat (size committee) = 3 * 1 + 1 /\ Q1 ⊆ committee /\ Q2 ⊆ committee)
  /\ PBFT.threshold (Z.of_nat (size committee)) = 3
  /\ 2 <= Z.of_nat (size (Q1 ∩ Q2)).
Proof.
  cbn zeta.
  set (committee := ({[ "n1"; "n2"; "n3"; "n4" ]} : gset string)).
  set (Q1 := ({[ "n1"; "n2"; "n3" ]} : gset string)).
  set (Q2 := ({[ "n2"; "n3"; "n4" ]} : gset string)).
  assert (Hsize : Z.of_nat (size committee) = 3 * 1 + 1) by (vm_compute; reflexivity).
  assert (Hsub1 : Q1 ⊆ committee)
    by (apply (bool_decide_unpack (Q1 ⊆ committee)); vm_compute; exact I).
  assert (Hsub2 : Q2 ⊆ committee)
    by (apply (bool_decide_unpack (Q2 ⊆ committee)); vm_compute; exact I).
  assert (Hq1 : PBFT.threshold (Z.of_nat (size committee)) <= Z.of_nat (size Q1))
    by (vm_compute; discriminate).
  assert (Hq2 : PBFT.threshold (Z.of_nat (size committee)) <= Z.of_nat (size Q2))
    by (vm_compute; discriminate).
  split; [by repeat split|].
  exact (quorums_of_3f_plus_1_intersect 1 committee Q1 Q2 ltac:(lia) Hsize Hsub1 Hsub2
           Hq1 Hq2).
Defined.

(** X12 at the two proofs with different codecs and a third with the codec
    of the first: H.264 is reported twice. *)
Lemma structural_majority_witness :
  let proofs := [Sample.v1; Sample.v2_h265; Sample.v3] in
  let initialResult := MoreSamples.codecVerdict in
  let fieldValues := Validator.structuralField proofs (reasonOf (details initialResult)) in
  let r := Validator.resolveStructuralConflict proofs initialResult in
  (fieldValues.1 <> "" /\ fieldValues.2 <> [])
  /\ (2 <= occurrences (VStr "H.264") fieldValues.2)%nat
  /\ isValid r = true /\ resolvedBy r = Some majority.
Proof.
  cbn zeta.
  set (proofs := [Sample.v1; Sample.v2_h265; Sample.v3]).
  set (fieldValues := Validator.structuralField proofs
                        (reasonOf (details MoreSamples.codecVerdict))).
  assert (Hfield : Validator.structuralField proofs
                     (reasonOf (details MoreSamples.codecVerdict))
                   = (fieldValues.1, fieldValues.2)) by apply surjective_pairing.
  assert (Hnamed : fieldValues.1 <> "") by (vm_compute; discriminate).
  assert (Hsome : fieldValues.2 <> []) by (vm_compute; discriminate).
  assert (Htwice : (2 <= occurrences (VStr "H.264") fieldValues.2)%nat)
    by (vm_compute; lia).
  pose proof (structural_resolution_by_majority proofs MoreSamples.codecVerdict
                _ _ Hfield Hnamed Hsome) as [Hmajority _].
  destruct (Hmajority (ex_intro _ _ Htwice)) as (Hvalid & Hby & _).
  split; [by split|]. split; [exact Htwice|]. split; [exact Hvalid|exact Hby].
Defined.

(** X13 at the same proofs. *)
Lemma structural_partition_witness :
  let proofs := [Sample.v1; Sample.v2_h265; Sample.v3] in
  let r := Validator.resolveStructuralConflict proofs MoreSamples.codecVerdict in
  isValid r = true
  /\ exists reliable unreliable,
       getProp (default [] (details r)) "reliableVerifiers" = Some (Validator.strs reliable)
       /\ getProp (default [] (details r)) "unreliableVerifiers"
          = Some (Validator.strs unreliable)
       /\ (reliable ++ unreliable)%list ≡ₚ Validator.verifiers proofs
       /\ (2 <= length reliable)%nat.
Proof.
  cbn zeta.
  assert (Hvalid : isValid (Validator.resolveStructuralConflict
                              [Sample.v1; Sample.v2_h265; Sample.v3]
                              MoreSamples.codecVerdict) = true)
    by (vm_compute; reflexivity).
  split; [exact Hvalid|].
  exact (structural_resolution_partitions_verifiers _ _ Hvalid).
Defined.

(** X14 at the bitrates 95, 95 and 105 with a fourth proof of 105. *)
Lemma score_resolution_witness :
  let proofs := Sample.spread in
  let initialResult := MoreSamples.bitrateVerdict in
  let r := Validator.resolveScoreConflict proofs initialResult in
  JS.includes (reasonOf (details initialResult)) "码率差异过大" = true
  /\ (2 <= length proofs)%nat
  /\ isValid r = true /\ resolvedBy r = Some statistical /\ needsManualReview r = false
  /\ exists reliable unreliable,
       getProp (default [] (details r)) "reliableVerifiers"
       = Some (Validator.strs reliable)
       /\ getProp (default [] (details r)) "unreliableVerifiers"
          = Some (Validator.strs unreliable)
       /\ length reliable = 2%nat
       /\ (reliable ++ unreliable)%list ≡ₚ Validator.verifiers proofs.
Proof.
  cbn zeta.
  assert (Hreason : JS.includes (reasonOf (details MoreSamples.bitrateVerdict))
                      "码率差异过大" = true) by (vm_compute; reflexivity).
  assert (Hlen : (2 <= length Sample.spread)%nat) by (vm_compute; lia).
  split; [exact Hreason|]. split; [exact Hlen|].
  exact (score_resolution_keeps_two Sample.spread MoreSamples.bitrateVerdict
           (or_intror Hreason) Hlen).
Defined.

(** X15 at the GOP of the sample proofs. *)
Lemma gop_id_witness :
  ("0" <> "" /\ noClose "0" = true)
  /\ Validator.extractGopTimestampFromReason ("特定GOP(" +:+ "0" +:+ ")评分不一致")
     = Some "0".
Proof.
  assert (Hsome : "0" <> "") by discriminate.
  assert (Hrun : noClose "0" = true) by reflexivity.
  split; [by split|]. exact (gop_id_is_read_back "0" Hsome Hrun).
Defined.

(** X20 at a node that holds the record of [task-A] with two proofs and two
    verifiers, which is given a third proof, a supplementary proof and a
    timeout. *)
Lemma proofCount_witness :
  let n := Sample.holding "node2" false 4 (Sample.awaiting (Some Sample.codecConflict)) in
  let ops := [OpProof Sample.now Sample.v3;
              OpSupplementaryProof Sample.now "task-A" Sample.v3;
              OpTimeout Sample.now "task-A"] in
  counted n /\ counted (run ops n).
Proof.
  cbn zeta.
  set (n := Sample.holding "node2" false 4 (Sample.awaiting (Some Sample.codecConflict))).
  assert (Hn : counted n).
  { apply (bool_decide_unpack
             (map_Forall (fun _ st => Task.proofCount st = length (Task.verifierIds st))
                         (Node.taskStatuses n))).
    vm_compute. exact I. }
  split; [exact Hn|].
  exact (proofCount_counts_verifierIds _ n Hn).
Defined.

(** X21 at a follower without proofs that gets the PrePrepare and three
    proofs, one of them twice. *)
Lemma distinct_verifiers_witness :
  let n := Node.new "node2" false 4 in
  let ops := [OpMessage Sample.now Sample.prePrepare; OpProof Sample.now Sample.v1;
              OpProof Sample.now Sample.v2; OpProof Sample.now Sample.v1;
              OpProof Sample.now Sample.v3] in
  (forallb ordinary ops = true /\ distinctIds n)
  /\ distinctIds (run ops n)
  /\ (Task.verifierIds <$> Node.taskStatuses (run ops n) !! "task-A")
     = Some ["v1"; "v2"; "v3"].
Proof.
  cbn zeta.
  set (n := Node.new "node2" false 4).
  set (ops := [OpMessage Sample.now Sample.prePrepare; OpProof Sample.now Sample.v1;
               OpProof Sample.now Sample.v2; OpProof Sample.now Sample.v1;
               OpProof Sample.now Sample.v3]).
  assert (Hops : forallb ordinary ops = true) by reflexivity.
  assert (Hn : distinctIds n).
  { intros taskId. unfold Node.getProofsForTask. cbn. by rewrite !lookup_empty. }
  split; [by split|].
  split; [exact (ordinary_ingestion_keeps_verifiers_distinct ops n Hops Hn)|].
  vm_compute. reflexivity.
Defined.

(** X22 at a node that waits for the supplementary proof of [task-A] and
    gets the proof of a third verifier. *)
Lemma answered_task_witness :
  let n := Sample.holding "node2" false 4 (Sample.awaiting (Some Sample.codecConflict)) in
  let status := Sample.awaiting (Some Sample.codecConflict) in
  let n' := Node.handleSupplementaryProof Sample.now "task-A" Sample.v3 n in
  (Node.taskStatuses n !! "task-A" = Some status
   /\ Task.state status = AwaitingSupplementary
   /\ (2 <= length (Node.getProofsForTask "task-A" n))%nat)
  /\ Node.checkSupplementaryTimeout (Sample.now + 7200000) "task-A" n' = n'.
Proof.
  cbn zeta.
  set (n := Sample.holding "node2" false 4 (Sample.awaiting (Some Sample.codecConflict))).
  set (status := Sample.awaiting (Some Sample.codecConflict)).
  assert (Hstatus : Node.taskStatuses n !! "task-A" = Some status) by (vm_compute; reflexivity).
  assert (Hstate : Task.state status = AwaitingSupplementary) by reflexivity.
  assert (Hproofs : (2 <= length (Node.getProofsForTask "task-A" n))%nat)
    by (vm_compute; lia).
  split; [by repeat split|].
  exact (proj1 (timeout_spares_answered_task Sample.now (Sample.now + 7200000) "task-A"
                  Sample.v3 n status Hstatus Hstate Hproofs)).
Defined.

(** X23 at a follower that holds the record of [task-A] when the round of a
    conflict ends. *)
Lemma consensus_callback_witness :
  let status := Task.set_state Consensus (Sample.awaiting (Some Sample.codecConflict)) in
  let n := Sample.holding "node2" false 4 status in
  let n' := Node.onConsensusReached Sample.now Sample.v1 Conflict n in
  Node.taskStatuses n !! Proof.taskId Sample.v1 = Some status
  /\ exists status',
       Node.taskStatuses n' !! "task-A" = Some status'
       /\ Task.state status' = AwaitingSupplementary
       /\ Node.timers n' = ["task-A"].
Proof.
  cbn zeta.
  set (status := Task.set_state Consensus (Sample.awaiting (Some Sample.codecConflict))).
  set (n := Sample.holding "node2" false 4 status).
  assert (Hstatus : Node.taskStatuses n !! Proof.taskId Sample.v1 = Some status)
    by (vm_compute; reflexivity).
  split; [exact Hstatus|].
  destruct (consensus_callback_settles_the_task Sample.now Sample.v1 Conflict n status Hstatus)
    as (status' & Hlookup & _ & _ & Hstate & _ & _ & Htimers).
  exists status'. split; [exact Hlookup|]. split; [exact Hstate|exact Htimers].
Defined.


(** X25 at a digest of four digits. *)
Lemma made_signature_witness :
  isHex (MoreSamples.shortHash "data") = true
  /\ Crypto.verifySignature MoreSamples.shortHash "data"
       (Crypto.sign MoreSamples.shortHash "data" "priv_0123456789") "pub_0123456789"
     = false.
Proof.
  assert (Hhex : isHex (MoreSamples.shortHash "data") = true) by reflexivity.
  split; [exact Hhex|].
  exact (made_signature_is_never_verified MoreSamples.shortHash "data" "data" _ _ Hhex).
Defined.

(** X27 at a collector that records three events of [task-A] out of the
    order of their times, with a call of [getTaskMetrics] in between. *)
Lemma task_events_witness :
  let c := Metrics.calls MoreSamples.calls (Metrics.new true 5 5 "id-0" "version") in
  "task-A" <> ""
  /\ Metrics.getTaskEvents "task-A" c
     = filter (fun e => Metrics.taskId e = Some "task-A") (Metrics.getAllEvents c)
  /\ Metrics.timestamp <$> Metrics.getTaskEvents "task-A" c = [10; 20; 40].
Proof.
  cbn zeta.
  assert (Hkey : "task-A" <> "") by discriminate.
  split; [exact Hkey|].
  split; [|vm_compute; reflexivity].
  exact (proj1 (task_and_node_events_are_slices_of_all_events
                  true 5 5 "id-0" "version" MoreSamples.calls "task-A" Hkey)).
Defined.

End AtMoreSamples.
